(** * TeleGuard: the offline-first capture-and-sync pipeline of [bot.py]

    A shallow embedding of the location resolver ([NetworkManager]), the
    artifact store ([StorageManager]), the capture burst ([WebcamCapture])
    and the drain ([send_pending_files]), followed by the properties the
    specification states about them; then the handlers of the bot, the
    start-up alert and the configuration file, with further properties of
    all of these.

    Conventions of the embedding.
    - Python values are [pyval]; numbers (int and float alike) are [pynum]:
      a rational for every finite value, plus NaN and the two infinities,
      so that comparisons against the constants 0, 90 and 180 are exact.
    - Text is a Rocq [string]; a dict is an association list in insertion
      order whose first binding of a key is the effective one.
    - Everything outside the process (subprocesses, HTTP, the camera, the
      Telegram API, the wall clock, the directory order of the file system)
      is answered by an immutable [env]; the mutable part is a [world].
    - A Python function is a [prog]: it takes a world and gives back either
      a value or a raised exception, together with the world it left.
      The exceptions are those below [Exception]; logging is left out.
    - The capture directory is a list of named files, looked up by their
      exact names; the names the program itself writes are lower-case
      ASCII.  Whether [Path.glob] ignores case, as it does on Windows, is
      the environment's [ignore_case].  Creating a file and writing an
      image succeed; writing a location record fails, as in Python, on
      text that the default encoding of the platform cannot hold
      ([encodes]), and then leaves a truncated file.
    - The one computation in floating point, the conversion of a signal
      percentage, is done in binary64 as [SpecFloat] specifies it.
    - Time is counted in whole seconds since the process started:
      [time.sleep] adds its argument, every interaction adds what the
      environment says it took, and [datetime.now()] is what the
      environment's calendar shows at that second. *)

From Stdlib Require Import ZArith QArith Qabs String Ascii List Bool Lia Arith Permutation.
From Stdlib Require SpecFloat.
Import ListNotations.

Close Scope Q_scope.
Local Open Scope string_scope.
Local Open Scope list_scope.
Local Open Scope nat_scope.

(* ================================================================= *)
(** ** Python values *)

Inductive pynum :=
| Finite (q : Q)
| NaN
| PosInf
| NegInf.

#[local] Set Warnings "-register-all".

Inductive pyval :=
| PNone
| PBool (b : bool)
| PNum (x : pynum)
| PStr (s : string)
| PList (l : list pyval)
| PDict (d : list (string * pyval)).

Definition dict := list (string * pyval).

Definition num_of_Z (z : Z) : pynum := Finite (inject_Z z).

(** [x == 0] *)
Definition num_is_zero (x : pynum) : bool :=
  match x with
  | Finite q => Qeq_bool q 0%Q
  | _ => false
  end.

(** [abs(x)] *)
Definition num_abs (x : pynum) : pynum :=
  match x with
  | Finite q => Finite (Qabs q)
  | NaN => NaN
  | PosInf | NegInf => PosInf
  end.

(** [x <= y]; every comparison with NaN is false. *)
Definition num_le (x y : pynum) : bool :=
  match x, y with
  | NaN, _ | _, NaN => false
  | NegInf, _ => true
  | _, PosInf => true
  | Finite a, Finite b => Qle_bool a b
  | _, _ => false
  end.

(** Truth value of a Python object, as [if v:] computes it. *)
Definition truthy (v : pyval) : bool :=
  match v with
  | PNone => false
  | PBool b => b
  | PNum x => negb (num_is_zero x)
  | PStr s => negb (String.eqb s "")
  | PList l => match l with [] => false | _ => true end
  | PDict d => match d with [] => false | _ => true end
  end.

(** *** Dicts *)

Fixpoint dict_lookup (k : string) (d : dict) : option pyval :=
  match d with
  | [] => None
  | (k', v) :: d' => if String.eqb k' k then Some v else dict_lookup k d'
  end.

(** [d[k] = v]: overwrite in place, or add as the newest key. *)
Fixpoint dict_set (k : string) (v : pyval) (d : dict) : dict :=
  match d with
  | [] => [(k, v)]
  | (k', v') :: d' =>
      if String.eqb k' k then (k', v) :: d' else (k', v') :: dict_set k v d'
  end.

(** [d.get(k, default)] on a dict. *)
Definition dict_get (k : string) (default : pyval) (d : dict) : pyval :=
  match dict_lookup k d with
  | Some v => v
  | None => default
  end.

(* ================================================================= *)
(** ** Text helpers: the [str] methods the program calls *)

Definition is_space (c : ascii) : bool :=
  let n := nat_of_ascii c in
  ((9 <=? n) && (n <=? 13)) || ((28 <=? n) && (n <=? 32)).

Fixpoint lstrip (s : string) : string :=
  match s with
  | "" => ""
  | String c s' => if is_space c then lstrip s' else s
  end.

Fixpoint rstrip (s : string) : string :=
  match s with
  | "" => ""
  | String c s' =>
      match rstrip s' with
      | "" => if is_space c then "" else String c ""
      | r => String c r
      end
  end.

(** [s.strip()] *)
Definition strip (s : string) : string := lstrip (rstrip s).

(** [s.split(sep)] for a one-character separator; never the empty list. *)
Fixpoint split (sep : ascii) (s : string) : list string :=
  match s with
  | "" => [""]
  | String c s' =>
      if Ascii.eqb c sep then "" :: split sep s'
      else match split sep s' with
           | h :: t => String c h :: t
           | [] => [String c ""]
           end
  end.

(** [s.split(sep, 1)]: cut at the first separator only. *)
Fixpoint split_once (sep : ascii) (s : string) : list string :=
  match s with
  | "" => [""]
  | String c s' =>
      if Ascii.eqb c sep then [""; s']
      else match split_once sep s' with
           | h :: t => String c h :: t
           | [] => [String c ""]
           end
  end.

(** [needle in hay] on two strings. *)
Fixpoint contains (needle hay : string) : bool :=
  String.prefix needle hay ||
  match hay with
  | "" => false
  | String _ hay' => contains needle hay'
  end.

(** [s.replace(c, "")] for a one-character [c]. *)
Fixpoint remove_char (c : ascii) (s : string) : string :=
  match s with
  | "" => ""
  | String c' s' =>
      if Ascii.eqb c' c then remove_char c s' else String c' (remove_char c s')
  end.

Definition lower_char (c : ascii) : ascii :=
  let n := nat_of_ascii c in
  if (65 <=? n) && (n <=? 90) then ascii_of_nat (n + 32) else c.

(** [s.lower()] on ASCII letters. *)
Fixpoint lower (s : string) : string :=
  match s with
  | "" => ""
  | String c s' => String (lower_char c) (lower s')
  end.

(** Position of the last ['.'] in [s], as [s.rfind('.')] returns it. *)
Fixpoint rfind_dot (s : string) : option nat :=
  match s with
  | "" => None
  | String c s' =>
      match rfind_dot s' with
      | Some i => Some (S i)
      | None => if Ascii.eqb c "."%char then Some 0 else None
      end
  end.

(** [Path(name).suffix]: the part from the last dot on, unless that dot is
    the first or the last character of the name. *)
Definition path_suffix (name : string) : string :=
  match rfind_dot name with
  | Some i =>
      if (0 <? i) && (i <? String.length name - 1)
      then String.substring i (String.length name - i) name
      else ""
  | None => ""
  end.

(** Shell-style matching as [Path.glob] applies it to one directory entry:
    ['*'] stands for any run of characters, every other character for
    itself.  The patterns of the program use nothing else. *)
Fixpoint fnmatch (pat : string) : string -> bool :=
  match pat with
  | "" => fun s => String.eqb s ""
  | String p pat' =>
      if Ascii.eqb p "*"%char then
        fix star (s : string) : bool :=
          fnmatch pat' s ||
          match s with
          | "" => false
          | String _ s' => star s'
          end
      else
        fun s =>
          match s with
          | "" => false
          | String c s' => Ascii.eqb c p && fnmatch pat' s'
          end
  end.

(** How a name can begin with one literal of a pattern when case is
    ignored, as [re.IGNORECASE] has it: with that character in either
    case, or, for [i], [s] and [k], with U+0130, U+0131, U+017F or U+212A
    (here in UTF-8).  The result is the rest of the name. *)
Definition eat_ignoring_case (p : ascii) (s : string) : option string :=
  match s with
  | "" => None
  | String c rest =>
      if Ascii.eqb (lower_char c) (lower_char p) then Some rest
      else
        match rest with
        | "" => None
        | String c2 rest2 =>
            let b := nat_of_ascii c in
            let b2 := nat_of_ascii c2 in
            if Ascii.eqb (lower_char p) "i"%char && (b =? 196)
               && ((b2 =? 176) || (b2 =? 177)) then Some rest2
            else if Ascii.eqb (lower_char p) "s"%char && (b =? 197)
                    && (b2 =? 191) then Some rest2
            else if Ascii.eqb (lower_char p) "k"%char && (b =? 226)
                    && (b2 =? 132) then
              match rest2 with
              | String c3 rest3 =>
                  if nat_of_ascii c3 =? 170 then Some rest3 else None
              | "" => None
              end
            else None
        end
  end.

(** [fnmatch] with case ignored, as [Path.glob] matches on Windows. *)
Fixpoint fnmatch_nocase (pat : string) : string -> bool :=
  match pat with
  | "" => fun s => String.eqb s ""
  | String p pat' =>
      if Ascii.eqb p "*"%char then
        fix star (s : string) : bool :=
          fnmatch_nocase pat' s ||
          match s with
          | "" => false
          | String _ s' => star s'
          end
      else
        fun s =>
          match eat_ignoring_case p s with
          | Some rest => fnmatch_nocase pat' rest
          | None => false
          end
  end.

(** Whether [Path.glob(pattern)] takes a directory entry of this name. *)
Definition name_matches (ignore_case : bool) (pattern name : string) : bool :=
  if ignore_case then fnmatch_nocase pattern name else fnmatch pattern name.

(* ================================================================= *)
(** ** Floating point: [int((signal / 2) - 100)] *)

(** Binary64.  [n / 2] on an int is half of [n] rounded to the nearest
    double, ties to even, and an OverflowError beyond the doubles; the
    subtraction rounds in the same way; [int] drops the fraction. *)
Definition double_of (m e : Z) : SpecFloat.spec_float :=
  SpecFloat.binary_normalize 53 1024 m e false.

Definition true_div_2 (n : Z) : option SpecFloat.spec_float :=
  match double_of n (-1) with
  | SpecFloat.S754_infinity _ => None
  | x => Some x
  end.

Definition int_of_double (x : SpecFloat.spec_float) : option Z :=
  match x with
  | SpecFloat.S754_zero _ => Some 0%Z
  | SpecFloat.S754_finite s m e =>
      let magnitude :=
        match e with
        | Zneg k => Z.shiftr (Zpos m) (Zpos k)
        | _ => Z.shiftl (Zpos m) e
        end in
      Some (if s then (- magnitude)%Z else magnitude)
  | _ => None
  end.

(** [int((signal / 2) - 100)]; [None] where it raises. *)
Definition signal_to_dbm (signal : Z) : option Z :=
  match true_div_2 signal with
  | Some half => int_of_double (SpecFloat.SFsub 53 1024 half (double_of 100 0))
  | None => None
  end.

(* ================================================================= *)
(** ** Timestamps: [datetime.now().strftime("%Y%m%d_%H%M%S")] *)

Record datetime := mkDatetime {
  year : nat; month : nat; day : nat;
  hour : nat; minute : nat; second : nat
}.

Definition digit (n : nat) : ascii := ascii_of_nat (48 + n).

Definition pad2 (n : nat) : string :=
  String (digit (n / 10)) (String (digit (n mod 10)) "").

Definition pad4 (n : nat) : string :=
  (pad2 (n / 100) ++ pad2 (n mod 100))%string.

Definition strftime (t : datetime) : string :=
  (pad4 (year t) ++ pad2 (month t) ++ pad2 (day t) ++ "_" ++
   pad2 (hour t) ++ pad2 (minute t) ++ pad2 (second t))%string.

(** Every field prints on its own number of digits: four for the year,
    two for each of the others. *)
Definition valid_datetime (t : datetime) : Prop :=
  year t < 100 * 100 /\ month t < 100 /\ day t < 100 /\
  hour t < 100 /\ minute t < 100 /\ second t < 100.

(** Chronological order, field by field. *)
Definition dt_key (t : datetime) : list nat :=
  [year t; month t; day t; hour t; minute t; second t].

Fixpoint lex_compare (a b : list nat) : comparison :=
  match a, b with
  | [], [] => Eq
  | [], _ :: _ => Lt
  | _ :: _, [] => Gt
  | x :: a', y :: b' =>
      match Nat.compare x y with
      | Eq => lex_compare a' b'
      | c => c
      end
  end.

Definition dt_compare (s t : datetime) : comparison :=
  lex_compare (dt_key s) (dt_key t).

Definition dt_lt (s t : datetime) : Prop := dt_compare s t = Lt.

(* ================================================================= *)
(** ** Exceptions and the program monad *)

(** The exception classes that occur; all derive from [Exception]. *)
Inductive exn :=
| ValueError
| KeyError
| TypeError
| AttributeError
| OSError
| NetworkError.

Definition exn_eqb (a b : exn) : bool :=
  match a, b with
  | ValueError, ValueError | KeyError, KeyError | TypeError, TypeError
  | AttributeError, AttributeError | OSError, OSError
  | NetworkError, NetworkError => true
  | _, _ => false
  end.

Inductive outcome (A : Type) :=
| Ret (a : A)
| Raise (e : exn).

Arguments Ret {A} a.
Arguments Raise {A} e.

(** *** Artifacts on disk and calls to the remote sink *)

(** What a file of the capture directory holds: an image written by
    [cv2.imwrite], a JSON document written by [json.dump], or bytes that
    [json.load] rejects. *)
Inductive file :=
| Image (frame : nat)
| Json (doc : pyval)
| Garbage.

(** A directory: its entries in the order the file system enumerates them. *)
Definition directory := list (string * file).

(** The texts the location button shows, each represented by the values
    interpolated into it. *)
Inductive message :=
| Stage (n : nat)
| LocationInfo (ip country city region isp timezone : pyval)
| CouldNotFetch.

(** One call on the Telegram API. *)
Inductive sink_call :=
| SendPhoto (chat_id : pyval) (name : string) (photo : file)
| SendMessage (chat_id : pyval) (ip city country : pyval)
| SendLocation (chat_id : pyval) (latitude longitude : pyval)
| EditMessage (text : message)
| ReplyLocation (latitude longitude : pyval).

Record access_point := mkAP { macAddress : string; signalStrength : Z }.

(** *** The environment *)

Inductive proc_outcome :=
| ProcRaised (e : exn)
| ProcDone (stdout : string).

Inductive http_outcome :=
| HttpRaised (e : exn)
| HttpResponse (status_code : Z) (json : option pyval).

Inductive cam_outcome :=
| CamRaised (e : exn)
| CamClosed
| CamNoFrame
| CamFrame (frame : nat).

(** One interaction with the outside, as recorded in the trace. *)
Inductive event :=
| EvPowershell
| EvNetsh
| EvGeolocate (payload : list access_point)
| EvIpApi
| EvProbe
| EvSleep
| EvCamera (ok : bool)
| EvWrite (name : string)
| EvRemove (name : string)
| EvSink (call : sink_call) (ok : bool).

(** Answers of the outside world.  Those that may differ from one call to
    the next take the number of interactions made so far. *)
Record env := mkEnv {
  py_float : string -> option pynum;          (* float(s); None: ValueError *)
  py_int : string -> option Z;                (* int(s); None: ValueError *)
  powershell : nat -> proc_outcome;           (* the location watcher *)
  netsh : nat -> proc_outcome;                (* the Wi-Fi scan *)
  geolocate : nat -> list access_point -> http_outcome;
  ip_api : nat -> http_outcome;               (* GET Config.LOCATION_API *)
  probe : nat -> bool;                        (* GET Config.INTERNET_CHECK_URL *)
  camera : nat -> cam_outcome;
  sink : nat -> sink_call -> bool;            (* false: the call raises *)
  latency : nat -> nat;                       (* whole seconds an interaction takes *)
  calendar : nat -> datetime;                 (* wall clock after so many seconds *)
  dir_slot : string -> list string -> nat;    (* where a new entry is enumerated *)
  encodes : pyval -> bool;                    (* the default encoding holds its text *)
  ignore_case : bool                          (* Path.glob ignores case (Windows) *)
}.

Record world := mkWorld {
  fs : directory;          (* Config.CAPTURE_DIR *)
  admin_id : pyval;        (* storage.admin_id *)
  trace : list event;      (* newest first *)
  elapsed : nat            (* seconds since the process started *)
}.

Definition prog (A : Type) : Type := world -> outcome A * world.

Definition ret {A} (a : A) : prog A := fun w => (Ret a, w).

Definition raise {A} (e : exn) : prog A := fun w => (Raise e, w).

Definition bind {A B} (m : prog A) (k : A -> prog B) : prog B :=
  fun w =>
    match m w with
    | (Ret a, w') => k a w'
    | (Raise e, w') => (Raise e, w')
    end.

(** [try: body / except <classes>: handler]; what the body did to the world
    before raising stays done. *)
Definition try_except {A} (body : prog A) (catches : exn -> bool)
    (handler : prog A) : prog A :=
  fun w =>
    match body w with
    | (Ret a, w') => (Ret a, w')
    | (Raise e, w') => if catches e then handler w' else (Raise e, w')
    end.

(** [except Exception] and a bare [except] take every class above. *)
Definition any_exception (e : exn) : bool := true.

Definition only_ValueError (e : exn) : bool := exn_eqb e ValueError.

Declare Scope prog_scope.
Delimit Scope prog_scope with prog.

Notation "x <- m ;; k" := (bind m (fun x => k))
  (at level 100, m at next level, right associativity) : prog_scope.
Notation "m ;;; k" := (bind m (fun _ => k))
  (at level 100, right associativity) : prog_scope.

Local Open Scope prog_scope.

(** Lift a partial builtin: [None] raises. *)
Definition orelse {A} (o : option A) (e : exn) : prog A :=
  match o with
  | Some a => ret a
  | None => raise e
  end.

(** *** Operators on values that may raise *)

(** [v[k]] with a string key. *)
Definition py_getitem (v : pyval) (k : string) : prog pyval :=
  match v with
  | PDict d => orelse (dict_lookup k d) KeyError
  | _ => raise TypeError
  end.

(** [v.get(k, default)]: only a dict has the method. *)
Definition py_get (v : pyval) (k : string) (default : pyval) : prog pyval :=
  match v with
  | PDict d => ret (dict_get k default d)
  | _ => raise AttributeError
  end.

Definition is_str (k : string) (v : pyval) : bool :=
  match v with
  | PStr s => String.eqb s k
  | _ => false
  end.

(** [k in v] with a string on the left. *)
Definition py_in (k : string) (v : pyval) : prog bool :=
  match v with
  | PDict d => ret (match dict_lookup k d with Some _ => true | None => false end)
  | PList l => ret (existsb (is_str k) l)
  | PStr s => ret (contains k s)
  | _ => raise TypeError
  end.

(* ================================================================= *)
(** ** Directory operations *)

Fixpoint dir_lookup (name : string) (d : directory) : option file :=
  match d with
  | [] => None
  | (n, f) :: d' => if String.eqb n name then Some f else dir_lookup name d'
  end.

Fixpoint dir_replace (name : string) (f : file) (d : directory) : directory :=
  match d with
  | [] => []
  | (n, g) :: d' =>
      if String.eqb n name then (n, f) :: d' else (n, g) :: dir_replace name f d'
  end.

Fixpoint insert_at {A} (i : nat) (x : A) (l : list A) : list A :=
  match i, l with
  | S i', y :: l' => y :: insert_at i' x l'
  | _, _ => x :: l
  end.

(** Creating or truncating [name]: an existing entry keeps its place, a new
    one goes where the file system puts it. *)
Definition dir_write (slot : string -> list string -> nat)
    (name : string) (f : file) (d : directory) : directory :=
  match dir_lookup name d with
  | Some _ => dir_replace name f d
  | None => insert_at (slot name (map fst d)) (name, f) d
  end.

Definition dir_remove (name : string) (d : directory) : directory :=
  filter (fun e => negb (String.eqb (fst e) name)) d.

(** [Path.glob(pattern)] on the directory. *)
Definition glob (ignore_case : bool) (pattern : string) (d : directory)
  : list string :=
  filter (name_matches ignore_case pattern) (map fst d).

(* ================================================================= *)
(** ** Configuration constants ([Config]) *)

Definition STARTUP_CAPTURES : nat := 3.
Definition CAPTURE_DELAY : nat := 2.

(* ================================================================= *)
(** ** The program *)

Section Program.

Variable E : env.

(** *** Primitive interactions *)

Definition ticks : prog nat := fun w => (Ret (length (trace w)), w).

(** The world an interaction leaves: one more event, some seconds later. *)
Definition after (ev : event) (w : world) : world :=
  mkWorld (fs w) (admin_id w) (ev :: trace w)
          (elapsed w + latency E (length (trace w))).

Definition interact (ev : event) : prog unit :=
  fun w => (Ret tt, after ev w).

(** [subprocess.run] of the PowerShell location watcher *)
Definition run_powershell : prog string :=
  k <- ticks ;;
  interact EvPowershell ;;;
  match powershell E k with
  | ProcRaised e => raise e
  | ProcDone out => ret out
  end.

(** [subprocess.run] of [netsh wlan show networks mode=bssid] *)
Definition run_netsh : prog string :=
  k <- ticks ;;
  interact EvNetsh ;;;
  match netsh E k with
  | ProcRaised e => raise e
  | ProcDone out => ret out
  end.

Definition http (o : http_outcome) : prog (Z * option pyval) :=
  match o with
  | HttpRaised e => raise e
  | HttpResponse code body => ret (code, body)
  end.

(** [requests.post] to the geolocation service *)
Definition post_geolocate (payload : list access_point)
  : prog (Z * option pyval) :=
  k <- ticks ;;
  interact (EvGeolocate payload) ;;;
  http (geolocate E k payload).

(** [requests.get(Config.LOCATION_API, timeout=10)] *)
Definition get_ip_api : prog (Z * option pyval) :=
  k <- ticks ;;
  interact EvIpApi ;;;
  http (ip_api E k).

(** [response.json()] *)
Definition response_json (response : Z * option pyval) : prog pyval :=
  orelse (snd response) ValueError.

(** [time.sleep(seconds)] *)
Definition time_sleep (seconds : nat) : prog unit :=
  fun w =>
    interact EvSleep
      (mkWorld (fs w) (admin_id w) (trace w) (elapsed w + seconds)).

(** [datetime.now()] *)
Definition datetime_now : prog datetime :=
  fun w => (Ret (calendar E (elapsed w)), w).

(** Opening the camera, the warm-up reads, the final read and the release *)
Definition grab_frame : prog cam_outcome :=
  k <- ticks ;;
  interact (EvCamera (match camera E k with CamFrame _ => true | _ => false end)) ;;;
  match camera E k with
  | CamRaised e => raise e
  | o => ret o
  end.

(** Writing a whole file ([cv2.imwrite], [json.dump] into [open(.., 'w')]) *)
Definition write_file (name : string) (f : file) : prog unit :=
  fun w =>
    interact (EvWrite name)
      (mkWorld (dir_write (dir_slot E) name f (fs w))
               (admin_id w) (trace w) (elapsed w)).

(** [with open(name, 'w') as f: json.dump(doc, f, ensure_ascii=False,
    indent=2)].  The file is created or emptied first.  Text that the
    default encoding cannot hold raises UnicodeEncodeError, which is a
    ValueError, and leaves in the file what was written before it: the
    beginning of the document, which is no JSON. *)
Definition json_dump (name : string) (doc : pyval) : prog unit :=
  if encodes E doc then write_file name (Json doc)
  else write_file name Garbage ;;; raise ValueError.

(** [open(name)] for reading *)
Definition open_file (name : string) : prog file :=
  fun w => orelse (dir_lookup name (fs w)) OSError w.

(** [json.load(f)] *)
Definition json_load (f : file) : prog pyval :=
  match f with
  | Json doc => ret doc
  | _ => raise ValueError
  end.

(** [os.remove(name)] *)
Definition os_remove (name : string) : prog unit :=
  fun w =>
    match dir_lookup name (fs w) with
    | Some _ =>
        interact (EvRemove name)
          (mkWorld (dir_remove name (fs w)) (admin_id w) (trace w) (elapsed w))
    | None => (Raise OSError, w)
    end.

(** A call on the bot or on the query being answered *)
Definition bot (call : sink_call) : prog unit :=
  k <- ticks ;;
  let ok := sink E k call in
  interact (EvSink call ok) ;;;
  if ok then ret tt else raise NetworkError.

Definition get_admin_id : prog pyval := fun w => (Ret (admin_id w), w).

(** *** [StorageManager] *)

Definition get_pending_files : prog (list string) :=
  fun w =>
    let photos := glob (ignore_case E) "*.jpg" (fs w) in
    let locations := glob (ignore_case E) "location_*.json" (fs w) in
    (Ret (photos ++ locations), w).

Definition delete_file (filepath : string) : prog unit :=
  try_except (os_remove filepath) any_exception (ret tt).

(** *** [NetworkManager] *)

Definition check_internet : prog bool :=
  k <- ticks ;;
  interact EvProbe ;;;
  ret (probe E k).

(** Truth value of an [Optional[Dict]] *)
Definition some_nonempty (o : option dict) : bool :=
  match o with
  | Some (_ :: _) => true
  | _ => false
  end.

Definition get_windows_location : prog (option dict) :=
  try_except
    (stdout <- run_powershell ;;
     if negb (String.eqb (strip stdout) "") then
       let parts := split ","%char (strip stdout) in
       if 2 <=? length parts then
         try_except
           (lat <- orelse (py_float E (nth 0 parts "")) ValueError ;;
            lon <- orelse (py_float E (nth 1 parts "")) ValueError ;;
            accuracy <- (if 2 <? length parts
                         then orelse (py_float E (nth 2 parts "")) ValueError
                         else ret (num_of_Z 0)) ;;
            if negb (num_is_zero lat) && negb (num_is_zero lon)
               && num_le (num_abs lat) (num_of_Z 90)
               && num_le (num_abs lon) (num_of_Z 180)
            then ret (Some [("lat", PNum lat); ("lon", PNum lon);
                            ("accuracy", PNum accuracy);
                            ("source", PStr "GPS/Wi-Fi (Precise)")])
            else ret None)
           only_ValueError
           (ret None)
       else ret None
     else ret None)
    any_exception
    (ret None).

(** The variables of the scan loop of [get_wifi_location] *)
Record scan := mkScan {
  current_ssid : option string;
  current_bssid : option string;
  current_signal : option Z;
  wifi_networks : list access_point
}.

(** One turn of the loop over the lines of the scan.  The conversion
    [int((signal / 2) - 100)] raises OverflowError on a percentage whose
    half is beyond the doubles; the bare [except] takes it, after
    [current_signal] was set and before anything is appended. *)
Definition scan_line (st : scan) (raw : string) : scan :=
  let line := strip raw in
  if contains "SSID" line && negb (contains "BSSID" line) then
    match split_once ":"%char line with
    | _ :: p1 :: _ =>
        mkScan (Some (strip p1)) (current_bssid st) (current_signal st)
               (wifi_networks st)
    | _ => st
    end
  else if contains "BSSID" line then
    match split_once ":"%char line with
    | _ :: p1 :: _ =>
        mkScan (current_ssid st) (Some (lower (strip p1))) (current_signal st)
               (wifi_networks st)
    | _ => st
    end
  else if contains "Signal" line || contains "سیگنال" line then
    match split_once ":"%char line with
    | _ :: p1 :: _ =>
        match py_int E (remove_char "%"%char (strip p1)) with
        | Some signal =>
            match current_bssid st with
            | Some (String c b) =>
                match signal_to_dbm signal with
                | Some signal_dbm =>
                    mkScan (current_ssid st) (current_bssid st) (Some signal)
                           (wifi_networks st ++ [mkAP (String c b) signal_dbm])
                | None =>
                    mkScan (current_ssid st) (current_bssid st) (Some signal)
                           (wifi_networks st)
                end
            | _ =>
                mkScan (current_ssid st) (current_bssid st) (Some signal)
                       (wifi_networks st)
            end
        | None => st
        end
    | _ => st
    end
  else st.

Definition scan_networks (stdout : string) : list access_point :=
  wifi_networks
    (fold_left scan_line (split "010"%char stdout) (mkScan None None None [])).

Definition get_wifi_location : prog (option dict) :=
  try_except
    (stdout <- run_netsh ;;
     if String.eqb stdout "" then ret None
     else
       let wifi_networks := scan_networks stdout in
       if 2 <=? length wifi_networks then
         response <- post_geolocate (firstn 10 wifi_networks) ;;
         if Z.eqb (fst response) 200 then
           data <- response_json response ;;
           has_location <- py_in "location" data ;;
           if has_location then
             location <- py_getitem data "location" ;;
             lat <- py_getitem location "lat" ;;
             location <- py_getitem data "location" ;;
             lon <- py_getitem location "lng" ;;
             accuracy <- py_get data "accuracy" (PNum (num_of_Z 100)) ;;
             ret (Some [("lat", lat); ("lon", lon); ("accuracy", accuracy);
                        ("source", PStr "Wi-Fi Networks (Precise)")])
           else ret None
         else ret None
       else ret None)
    any_exception
    (ret None).

Definition unknown : pyval := PStr "Unknown".

Definition get_location : prog (option dict) :=
  win_loc <- get_windows_location ;;
  let precise_loc := if some_nonempty win_loc then win_loc else None in
  precise_loc <-
    (if negb (some_nonempty precise_loc) then
       wifi_loc <- get_wifi_location ;;
       ret (if some_nonempty wifi_loc then wifi_loc else precise_loc)
     else ret precise_loc) ;;
  returned <-
    try_except
      (response <- get_ip_api ;;
       data <- response_json response ;;
       status <- py_get data "status" PNone ;;
       if is_str "success" status then
         ip <- py_get data "query" unknown ;;
         country <- py_get data "country" unknown ;;
         city <- py_get data "city" unknown ;;
         region <- py_get data "regionName" unknown ;;
         isp <- py_get data "isp" unknown ;;
         timezone <- py_get data "timezone" unknown ;;
         let result := [("ip", ip); ("country", country); ("city", city);
                        ("region", region); ("isp", isp);
                        ("timezone", timezone)] in
         if some_nonempty precise_loc then
           let p := match precise_loc with Some d => d | None => [] end in
           lat <- py_getitem (PDict p) "lat" ;;
           let result := dict_set "lat" lat result in
           lon <- py_getitem (PDict p) "lon" ;;
           let result := dict_set "lon" lon result in
           let result :=
             dict_set "accuracy" (dict_get "accuracy" (PNum (num_of_Z 0)) p)
                      result in
           source <- py_getitem (PDict p) "source" ;;
           let result := dict_set "source" source result in
           ret (Some result)
         else
           lat <- py_get data "lat" (PNum (num_of_Z 0)) ;;
           let result := dict_set "lat" lat result in
           lon <- py_get data "lon" (PNum (num_of_Z 0)) ;;
           let result := dict_set "lon" lon result in
           let result :=
             dict_set "source" (PStr "IP Address (Approximate ~1-5km)")
                      result in
           ret (Some result)
       else ret None)
      any_exception
      (ret None) ;;
  match returned with
  | Some result => ret (Some result)
  | None =>
      if some_nonempty precise_loc then
        let p := match precise_loc with Some d => d | None => [] end in
        lat <- py_getitem (PDict p) "lat" ;;
        lon <- py_getitem (PDict p) "lon" ;;
        let accuracy := dict_get "accuracy" (PNum (num_of_Z 0)) p in
        source <- py_getitem (PDict p) "source" ;;
        ret (Some [("lat", lat); ("lon", lon); ("accuracy", accuracy);
                   ("source", source); ("ip", unknown); ("country", unknown);
                   ("city", unknown); ("region", unknown); ("isp", unknown);
                   ("timezone", unknown)])
      else ret None
  end.

(** *** [WebcamCapture] *)

Definition capture_name (t : datetime) : string :=
  ("capture_" ++ strftime t ++ ".jpg")%string.

Definition location_name (t : datetime) : string :=
  ("location_" ++ strftime t ++ ".json")%string.

Definition capture (save_path : option string) : prog (option string) :=
  try_except
    (cam <- grab_frame ;;
     match cam with
     | CamFrame frame =>
         save_path <-
           match save_path with
           | Some p => ret p
           | None => timestamp <- datetime_now ;; ret (capture_name timestamp)
           end ;;
         write_file save_path (Image frame) ;;;
         ret (Some save_path)
     | _ => ret None
     end)
    any_exception
    (ret None).

(** The [for i in range(..)] loop of [startup_capture], from the value of
    the counter [captured] on. *)
Fixpoint capture_loop (n : nat) (captured : nat) : prog nat :=
  match n with
  | 0 => ret captured
  | S n' =>
      time_sleep CAPTURE_DELAY ;;;
      photo <- capture None ;;
      capture_loop n' (match photo with
                       | Some _ => captured + 1
                       | None => captured
                       end)
  end.

(** Returns the counter it reports in its last log line. *)
Definition startup_capture : prog nat :=
  captured <- capture_loop STARTUP_CAPTURES 0 ;;
  location <- get_location ;;
  (if some_nonempty location then
     let doc := match location with Some d => d | None => [] end in
     timestamp <- datetime_now ;;
     json_dump (location_name timestamp) (PDict doc)
   else ret tt) ;;;
  ret captured.

(** *** Delivery *)

(** The body of the loop of [send_pending_files] for one listed file. *)
Definition deliver (filepath : string) : prog unit :=
  try_except
    ((if String.eqb (path_suffix filepath) ".jpg" then
        f <- open_file filepath ;;
        chat_id <- get_admin_id ;;
        bot (SendPhoto chat_id filepath f)
      else if String.eqb (path_suffix filepath) ".json"
              && contains "location" filepath then
        f <- open_file filepath ;;
        info <- json_load f ;;
        ip <- py_get info "ip" PNone ;;
        city <- py_get info "city" PNone ;;
        country <- py_get info "country" PNone ;;
        chat_id <- get_admin_id ;;
        bot (SendMessage chat_id ip city country) ;;;
        lat <- py_get info "lat" PNone ;;
        has_fix <- (if truthy lat
                    then lon <- py_get info "lon" PNone ;; ret (truthy lon)
                    else ret false) ;;
        if has_fix then
          chat_id <- get_admin_id ;;
          latitude <- py_getitem info "lat" ;;
          longitude <- py_getitem info "lon" ;;
          bot (SendLocation chat_id latitude longitude)
        else ret tt
      else ret tt) ;;;
     delete_file filepath)
    any_exception
    (ret tt).

Fixpoint for_each {A} (l : list A) (body : A -> prog unit) : prog unit :=
  match l with
  | [] => ret tt
  | x :: l' => body x ;;; for_each l' body
  end.

Definition send_pending_files : prog unit :=
  admin <- get_admin_id ;;
  if negb (truthy admin) then ret tt
  else
    files <- get_pending_files ;;
    match files with
    | [] => ret tt
    | _ => for_each files deliver
    end.

(** [handle_location]: the progress animation, one resolution, the text and,
    when both coordinates are truthy, the map. *)
Definition handle_location : prog unit :=
  for_each (seq 0 5)
    (fun n => try_except (bot (EditMessage (Stage n))) any_exception (ret tt)) ;;;
  info <- get_location ;;
  if some_nonempty info then
    let d := PDict (match info with Some d => d | None => [] end) in
    ip <- py_getitem d "ip" ;;
    country <- py_getitem d "country" ;;
    city <- py_getitem d "city" ;;
    region <- py_getitem d "region" ;;
    isp <- py_getitem d "isp" ;;
    timezone <- py_getitem d "timezone" ;;
    bot (EditMessage (LocationInfo ip country city region isp timezone)) ;;;
    lat <- py_getitem d "lat" ;;
    has_fix <- (if truthy lat
                then lon <- py_getitem d "lon" ;; ret (truthy lon)
                else ret false) ;;
    if has_fix then
      latitude <- py_getitem d "lat" ;;
      longitude <- py_getitem d "lon" ;;
      bot (ReplyLocation latitude longitude)
    else ret tt
  else bot (EditMessage CouldNotFetch).

(** A number of drains in a row. *)
Fixpoint repeat_drain (m : nat) : prog unit :=
  match m with
  | 0 => ret tt
  | S m' => send_pending_files ;;; repeat_drain m'
  end.

End Program.

(* ================================================================= *)
(** ** Vocabulary: what the resolver returns *)

(** The shape of a fix as the two precise strategies build it. *)
Definition precise_fix (source : string) (d : dict) : Prop :=
  exists lat lon accuracy,
    d = [("lat", lat); ("lon", lon); ("accuracy", accuracy);
         ("source", PStr source)].

(** The IP lookup counts when the body is a JSON object whose [status] is
    the string [success]; the HTTP status code is not looked at. *)
Definition ip_success (o : http_outcome) : option dict :=
  match o with
  | HttpResponse _ (Some (PDict data)) =>
      if is_str "success" (dict_get "status" PNone data) then Some data
      else None
  | _ => None
  end.

Definition metadata (data : dict) : dict :=
  [("ip", dict_get "query" unknown data);
   ("country", dict_get "country" unknown data);
   ("city", dict_get "city" unknown data);
   ("region", dict_get "regionName" unknown data);
   ("isp", dict_get "isp" unknown data);
   ("timezone", dict_get "timezone" unknown data)].

Definition approximate : string := "IP Address (Approximate ~1-5km)".

Definition enrich (precise ip : option dict) : option dict :=
  match ip, precise with
  | Some data, Some p =>
      Some (metadata data ++
            [("lat", dict_get "lat" PNone p); ("lon", dict_get "lon" PNone p);
             ("accuracy", dict_get "accuracy" (PNum (num_of_Z 0)) p);
             ("source", dict_get "source" PNone p)])
  | Some data, None =>
      Some (metadata data ++
            [("lat", dict_get "lat" (PNum (num_of_Z 0)) data);
             ("lon", dict_get "lon" (PNum (num_of_Z 0)) data);
             ("source", PStr approximate)])
  | None, Some p =>
      Some [("lat", dict_get "lat" PNone p); ("lon", dict_get "lon" PNone p);
            ("accuracy", dict_get "accuracy" (PNum (num_of_Z 0)) p);
            ("source", dict_get "source" PNone p);
            ("ip", unknown); ("country", unknown); ("city", unknown);
            ("region", unknown); ("isp", unknown); ("timezone", unknown)]
  | None, None => None
  end.

(** Which precise strategies ran, and what they settled on. *)
Definition precise_phase (E : env) (w : world)
    (precise : option dict) (w2 : world) : Prop :=
  exists win,
    get_windows_location E w = (Ret win, after E EvPowershell w) /\
    ((win <> None /\ precise = win /\ w2 = after E EvPowershell w) \/
     (win = None /\
      get_wifi_location E (after E EvPowershell w) = (Ret precise, w2))) /\
    (precise = None \/
     exists d source, precise = Some d /\ precise_fix source d).

(** The check the device-sensor strategy applies to a parsed pair. *)
Definition valid_fix (lat lon : pynum) : Prop :=
  negb (num_is_zero lat) && negb (num_is_zero lon)
  && num_le (num_abs lat) (num_of_Z 90)
  && num_le (num_abs lon) (num_of_Z 180) = true.

(** The location watcher printed a line whose first two fields parse as
    [lat] and [lon] (and whose third, if any, parses too). *)
Definition sensor_candidate (E : env) (w : world) (lat lon : pynum) : Prop :=
  exists out,
    powershell E (length (trace w)) = ProcDone out /\
    let parts := split ","%char (strip out) in
    2 <= length parts /\
    py_float E (nth 0 parts "") = Some lat /\
    py_float E (nth 1 parts "") = Some lon /\
    (2 < length parts -> py_float E (nth 2 parts "") <> None).

(** The scan saw two access points or more and the geolocation service
    answered 200 with a [location] object holding [lat] and [lon]. *)
Definition wifi_candidate (E : env) (w : world) (lat lon : pyval) : Prop :=
  exists out code_ok data location,
    netsh E (length (trace w)) = ProcDone out /\
    out <> "" /\
    2 <= length (scan_networks E out) /\
    geolocate E (S (length (trace w))) (firstn 10 (scan_networks E out))
      = HttpResponse code_ok (Some (PDict data)) /\
    code_ok = 200%Z /\
    dict_lookup "location" data = Some (PDict location) /\
    dict_lookup "lat" location = Some lat /\
    dict_lookup "lng" location = Some lon.

(** A strategy returned a fix carrying this pair. *)
Definition accepts (r : outcome (option dict) * world) (lat lon : pyval) : Prop :=
  exists found,
    fst r = Ret (Some found) /\
    dict_lookup "lat" found = Some lat /\ dict_lookup "lon" found = Some lon.

(* ================================================================= *)
(** ** Vocabulary: events, and the worlds single steps leave *)

(** The events a run added to the trace, newest first. *)
Definition new_events (w w' : world) : list event :=
  firstn (length (trace w') - length (trace w)) (trace w').

Definition count (p : event -> bool) (evs : list event) : nat :=
  length (filter p evs).

Definition is_wifi_event (ev : event) : bool :=
  match ev with
  | EvNetsh | EvGeolocate _ => true
  | _ => false
  end.

Definition is_ip_event (ev : event) : bool :=
  match ev with
  | EvIpApi => true
  | _ => false
  end.

Definition is_sensor_event (ev : event) : bool :=
  match ev with EvPowershell => true | _ => false end.

Definition is_attempt (ev : event) : bool :=
  match ev with EvCamera _ => true | _ => false end.

Definition is_frame (ev : event) : bool :=
  match ev with EvCamera true => true | _ => false end.

Definition is_failure (ev : event) : bool :=
  match ev with EvCamera false => true | _ => false end.

Definition is_write (ev : event) : bool :=
  match ev with EvWrite _ => true | _ => false end.

Definition is_photo_write (ev : event) : bool :=
  match ev with EvWrite name => fnmatch "*.jpg" name | _ => false end.

Definition is_location_write (ev : event) : bool :=
  match ev with EvWrite name => fnmatch "location_*.json" name | _ => false end.

Definition is_delivery_event (ev : event) : bool :=
  match ev with
  | EvSink _ _ | EvRemove _ => true
  | _ => false
  end.

Definition is_probe_event (ev : event) : bool :=
  match ev with EvProbe => true | _ => false end.

Definition is_sink_event (ev : event) : bool :=
  match ev with EvSink _ _ => true | _ => false end.

Definition is_map_event (ev : event) : bool :=
  match ev with EvSink (ReplyLocation _ _) _ => true | _ => false end.

Definition no_map_event (evs : list event) : bool :=
  forallb (fun ev => negb (is_map_event ev)) evs.

(** The names written so far, oldest first. *)
Definition created (w : world) : list string :=
  flat_map (fun ev => match ev with EvWrite name => [name] | _ => [] end)
           (rev (trace w)).

(** The world a sleep leaves. *)
Definition slept (E : env) (seconds : nat) (w : world) : world :=
  after E EvSleep (mkWorld (fs w) (admin_id w) (trace w) (elapsed w + seconds)).

(** The world a file write leaves. *)
Definition written (E : env) (name : string) (f : file) (w : world) : world :=
  after E (EvWrite name)
    (mkWorld (dir_write (dir_slot E) name f (fs w))
             (admin_id w) (trace w) (elapsed w)).

(** The world a file removal leaves. *)
Definition removed (E : env) (name : string) (w : world) : world :=
  after E (EvRemove name)
    (mkWorld (dir_remove name (fs w)) (admin_id w) (trace w) (elapsed w)).

(** Between the seconds [lo] and [hi] the wall clock shows valid timestamps
    and moves forward. *)
Definition clock_ok (E : env) (lo hi : nat) : Prop :=
  forall i j, lo <= i -> i < j -> j <= hi ->
    valid_datetime (calendar E i) /\ valid_datetime (calendar E j) /\
    dt_lt (calendar E i) (calendar E j).

(** The directory holds no artifact stamped after second [lo]. *)
Definition no_later_stamp (E : env) (lo hi : nat) (d : directory) : Prop :=
  forall i, lo < i -> i <= hi ->
    dir_lookup (capture_name (calendar E i)) d = None /\
    dir_lookup (location_name (calendar E i)) d = None.

(* ================================================================= *)
(** ** Vocabulary: artifacts and their delivery *)

Definition record_name (a : string) : string :=
  ("location_" ++ a ++ ".json")%string.

(** The two messages of a location record, for the recipient [chat_id]. *)
Definition summary_of (chat_id : pyval) (info : dict) : sink_call :=
  SendMessage chat_id (dict_get "ip" PNone info) (dict_get "city" PNone info)
              (dict_get "country" PNone info).

Definition coordinates_of (chat_id : pyval) (info : dict) : sink_call :=
  SendLocation chat_id (dict_get "lat" PNone info) (dict_get "lon" PNone info).

(** Both stored coordinates are truthy: present, and not zero. *)
Definition has_fix (info : dict) : bool :=
  truthy (dict_get "lat" PNone info) && truthy (dict_get "lon" PNone info).

(** No ['*'] in a pattern: it matches itself only. *)
Fixpoint star_free (pat : string) : bool :=
  match pat with
  | "" => true
  | String p pat' => negb (Ascii.eqb p "*"%char) && star_free pat'
  end.

Definition comparison_eqb (a b : comparison) : bool :=
  match a, b with
  | Eq, Eq | Lt, Lt | Gt, Gt => true
  | _, _ => false
  end.

(* ================================================================= *)
(** ** Sample environments and stores *)

(** [float] on a few literals whose value a double holds exactly. *)
Definition sample_float (s : string) : option pynum :=
  if String.eqb s "0" then Some (num_of_Z 0)
  else if String.eqb s "5" then Some (num_of_Z 5)
  else if String.eqb s "10" then Some (num_of_Z 10)
  else if String.eqb s "37.5" then Some (Finite (75 # 2))
  else if String.eqb s "-122.25" then Some (Finite (-489 # 4))
  else None.

(** [int] on a few literals. *)
Definition sample_int (s : string) : option Z :=
  if String.eqb s "80" then Some 80%Z
  else if String.eqb s "60" then Some 60%Z
  else None.

(** One second of wall clock per elapsed second, within one hour. *)
Definition sample_calendar (k : nat) : datetime :=
  mkDatetime 2025 1 15 10 (k / 60) (k mod 60).

(** An environment in which nothing outside answers. *)
Definition offline : env :=
  mkEnv sample_float sample_int
        (fun _ => ProcRaised OSError) (fun _ => ProcRaised OSError)
        (fun _ _ => HttpRaised NetworkError) (fun _ => HttpRaised NetworkError)
        (fun _ => false) (fun _ => CamClosed) (fun _ _ => false)
        (fun _ => 0) sample_calendar (fun _ _ => 0) (fun _ => true) false.

Definition with_powershell (out : string) (E : env) : env :=
  mkEnv (py_float E) (py_int E) (fun _ => ProcDone out) (netsh E)
        (geolocate E) (ip_api E) (probe E) (camera E) (sink E)
        (latency E) (calendar E) (dir_slot E)
        (encodes E) (ignore_case E).

Definition with_netsh (out : string) (E : env) : env :=
  mkEnv (py_float E) (py_int E) (powershell E) (fun _ => ProcDone out)
        (geolocate E) (ip_api E) (probe E) (camera E) (sink E)
        (latency E) (calendar E) (dir_slot E)
        (encodes E) (ignore_case E).

Definition with_geolocate (body : pyval) (E : env) : env :=
  mkEnv (py_float E) (py_int E) (powershell E) (netsh E)
        (fun _ _ => HttpResponse 200 (Some body)) (ip_api E) (probe E)
        (camera E) (sink E) (latency E) (calendar E) (dir_slot E)
        (encodes E) (ignore_case E).

Definition with_ip_api (body : pyval) (E : env) : env :=
  mkEnv (py_float E) (py_int E) (powershell E) (netsh E) (geolocate E)
        (fun _ => HttpResponse 200 (Some body)) (probe E) (camera E) (sink E)
        (latency E) (calendar E) (dir_slot E)
        (encodes E) (ignore_case E).

Definition with_camera (cam : nat -> cam_outcome) (E : env) : env :=
  mkEnv (py_float E) (py_int E) (powershell E) (netsh E) (geolocate E)
        (ip_api E) (probe E) cam (sink E)
        (latency E) (calendar E) (dir_slot E)
        (encodes E) (ignore_case E).

Definition with_sink (answers : nat -> sink_call -> bool) (E : env) : env :=
  mkEnv (py_float E) (py_int E) (powershell E) (netsh E) (geolocate E)
        (ip_api E) (probe E) (camera E) answers
        (latency E) (calendar E) (dir_slot E)
        (encodes E) (ignore_case E).

Definition empty_world : world := mkWorld [] PNone [] 0.

(** Two access points as [netsh] prints them. *)
Definition two_networks : string :=
  String.concat (String "010"%char "")
    ["SSID 1 : home"; "BSSID 1 : AA:BB:CC:00:11:22"; "Signal : 80%";
     "BSSID 2 : AA:BB:CC:00:11:23"; "Signal : 60%"].

Definition equator_reading : env := with_powershell "0,5,10" offline.

Definition null_island_service : env :=
  with_geolocate
    (PDict [("location", PDict [("lat", PNum (num_of_Z 0));
                                ("lng", PNum (num_of_Z 0))])])
    (with_netsh two_networks offline).

Definition good_reading : env := with_powershell "37.5,-122.25,5" offline.

Definition good_service : env :=
  with_geolocate
    (PDict [("location", PDict [("lat", PNum (Finite (75 # 2)));
                                ("lng", PNum (Finite (-489 # 4)))])])
    (with_netsh two_networks offline).

Definition paris : pyval :=
  PDict [("status", PStr "success"); ("city", PStr "Paris");
         ("lat", PNum (num_of_Z 0)); ("lon", PNum (num_of_Z 0))].

Definition paris_lookup : env := with_ip_api paris offline.

Definition sensor_and_ip : env :=
  with_ip_api paris (with_powershell "37.5,-122.25,5" offline).

(** The burst of the scenario: the camera fails on its second use only. *)
Definition second_attempt_fails (k : nat) : cam_outcome :=
  if k =? 4 then CamNoFrame else CamFrame k.

Definition one_failure : env :=
  with_camera second_attempt_fails (with_ip_api paris offline).

(** A burst that stores only a location record, then one that stores
    photos as well. *)
Definition first_burst : world :=
  snd (startup_capture paris_lookup empty_world).

Definition two_bursts : world :=
  snd (startup_capture one_failure
         (snd (startup_capture paris_lookup empty_world))).

Definition listed (d : directory) : outcome (list string) :=
  fst (get_pending_files offline
         (mkWorld d (admin_id two_bursts) (trace two_bursts)
                  (elapsed two_bursts))).

(** A registered recipient, one stored location record with a fix, and a
    sink that accepts summaries but refuses coordinates. *)
Definition sample_record : dict :=
  [("ip", PStr "203.0.113.7"); ("country", PStr "France");
   ("city", PStr "Paris"); ("lat", PNum (Finite (75 # 2)));
   ("lon", PNum (Finite (5 # 2)));
   ("source", PStr "GPS/Wi-Fi (Precise)")].

Definition queued_record : world :=
  mkWorld [(record_name "20250115_100006", Json (PDict sample_record))]
          (PNum (num_of_Z 42)) [] 0.

Definition refuses_coordinates (k : nat) (call : sink_call) : bool :=
  match call with
  | SendLocation _ _ _ => false
  | _ => true
  end.

Definition partial_sink : env := with_sink refuses_coordinates offline.

Definition working_sink : env := with_sink (fun _ _ => true) offline.

(** A record on the equator, as the Wi-Fi strategy can store it. *)
Definition equator_record : dict :=
  [("ip", PStr "203.0.113.7"); ("country", PStr "Gabon");
   ("city", PStr "Libreville"); ("lat", PNum (num_of_Z 0));
   ("lon", PNum (Finite (19 # 2)));
   ("source", PStr "Wi-Fi Networks (Precise)")].

Definition queued_equator : world :=
  mkWorld [(record_name "20250115_100006", Json (PDict equator_record))]
          (PNum (num_of_Z 42)) [] 0.

(** A registered recipient and one queued photo. *)
Definition queued_photo : world :=
  mkWorld [("capture_20250115_100002.jpg", Image 1)] (PNum (num_of_Z 42)) [] 0.

(** The same store with nobody registered. *)
Definition unregistered_photo : world :=
  mkWorld [("capture_20250115_100002.jpg", Image 1)] PNone [] 0.

(** A registered recipient; a photo, a location record, a location file
    that holds no JSON, and a file that is no artifact. *)
Definition mixed_queue : world :=
  mkWorld [("capture_20250115_100002.jpg", Image 1);
           (record_name "20250115_100006", Json (PDict sample_record));
           (record_name "broken", Garbage);
           ("notes.txt", Garbage)]
          (PNum (num_of_Z 42)) [] 0.

(** A registered recipient, one queued photo and one queued record. *)
Definition photo_and_record : world :=
  mkWorld [("capture_20250115_100002.jpg", Image 1);
           (record_name "20250115_100006", Json (PDict sample_record))]
          (PNum (num_of_Z 42)) [] 0.

(** A camera that delivers frame [k] at moment [k], under a wall clock
    that shows the same second throughout. *)
Definition same_second : env :=
  mkEnv sample_float sample_int
        (fun _ => ProcRaised OSError) (fun _ => ProcRaised OSError)
        (fun _ _ => HttpRaised NetworkError) (fun _ => HttpRaised NetworkError)
        (fun _ => false) (fun k => CamFrame k) (fun _ _ => true)
        (fun _ => 0) (fun _ => mkDatetime 2025 1 15 10 0 2) (fun _ _ => 0)
        (fun _ => true) false.

Definition with_encoding (holds : pyval -> bool) (E : env) : env :=
  mkEnv (py_float E) (py_int E) (powershell E) (netsh E) (geolocate E)
        (ip_api E) (probe E) (camera E) (sink E)
        (latency E) (calendar E) (dir_slot E) holds (ignore_case E).

Definition with_ignore_case (flag : bool) (E : env) : env :=
  mkEnv (py_float E) (py_int E) (powershell E) (netsh E) (geolocate E)
        (ip_api E) (probe E) (camera E) (sink E)
        (latency E) (calendar E) (dir_slot E) (encodes E) flag.

(** The code points of a text held as UTF-8, for sequences of one, two and
    three bytes; a byte that starts none of these is kept as it is, out of
    the reach of the encoding below. *)
Fixpoint code_points (bytes : list N) : list N :=
  match bytes with
  | [] => []
  | b :: rest =>
      if (b <? 128)%N then b :: code_points rest
      else if ((192 <=? b) && (b <? 224))%N then
        match rest with
        | b1 :: rest1 => ((b - 192) * 64 + (b1 - 128))%N :: code_points rest1
        | [] => [b]
        end
      else if ((224 <=? b) && (b <? 240))%N then
        match rest with
        | b1 :: b2 :: rest2 =>
            ((b - 224) * 4096 + (b1 - 128) * 64 + (b2 - 128))%N
              :: code_points rest2
        | _ => [b]
        end
      else b :: code_points rest
  end.

(** The characters of code page 1252 above Latin-1. *)
Definition cp1252_extra : list N :=
  [8364; 8218; 402; 8222; 8230; 8224; 8225; 710; 8240; 352; 8249; 338; 381;
   8216; 8217; 8220; 8221; 8226; 8211; 8212; 732; 8482; 353; 8250; 339; 382;
   376]%N.

Definition cp1252_char (c : N) : bool :=
  ((c <? 128) || ((160 <=? c) && (c <? 256)))%N || existsb (N.eqb c) cp1252_extra.

Definition cp1252_text (s : string) : bool :=
  forallb cp1252_char (code_points (map N_of_ascii (list_ascii_of_string s))).

(** Code page 1252, the default encoding of a Western European Windows,
    holds every string of the document. *)
Fixpoint cp1252 (doc : pyval) : bool :=
  match doc with
  | PStr s => cp1252_text s
  | PList l => forallb cp1252 l
  | PDict d =>
      forallb (fun entry : string * pyval =>
                 let (key, value) := entry in
                 cp1252_text key && cp1252 value) d
  | _ => true
  end.

(** A lookup that answers with a city outside that code page, and a camera
    that works. *)
Definition lodz : pyval :=
  PDict [("status", PStr "success"); ("query", PStr "203.0.113.7");
         ("country", PStr "Poland"); ("city", PStr "Łódź");
         ("lat", PNum (Finite (207 # 4))); ("lon", PNum (Finite (39 # 2)))].

Definition lodz_lookup : env :=
  with_encoding cp1252
    (with_camera (fun k => CamFrame k) (with_ip_api lodz offline)).

(* ================================================================= *)
(** ** Vocabulary: the Wi-Fi scan *)


(* ================================================================= *)
(** ** Vocabulary: what a drain does to the store and to the sink *)

(** Whom a call on the bot is addressed to; a call on the query being
    answered has no recipient of its own. *)
Definition recipient (call : sink_call) : option pyval :=
  match call with
  | SendPhoto chat_id _ _ => Some chat_id
  | SendMessage chat_id _ _ _ => Some chat_id
  | SendLocation chat_id _ _ => Some chat_id
  | EditMessage _ | ReplyLocation _ _ => None
  end.

(** The event is no call on the sink, or a call to [chat_id]. *)
Definition addressed_to (chat_id : pyval) (ev : event) : Prop :=
  match ev with
  | EvSink call _ => recipient call = Some chat_id
  | _ => True
  end.

(** The file is delivered as a photo, or as a location record: the two
    tests of the loop body of the drain. *)
Definition deliverable (name : string) : bool :=
  String.eqb (path_suffix name) ".jpg" ||
  (String.eqb (path_suffix name) ".json" && contains "location" name).

(** In a run of events, newest first, every removal of a file that the
    drain delivers comes right after a call on the sink that succeeded. *)
Fixpoint removals_follow_sends (evs : list event) : bool :=
  match evs with
  | [] => true
  | EvRemove name :: rest =>
      (negb (deliverable name) ||
       match rest with
       | EvSink _ true :: _ => true
       | _ => false
       end)
      && removals_follow_sends rest
  | _ :: rest => removals_follow_sends rest
  end.

(** The directory without the files named in [gone]; the others keep
    their order and their content. *)
Definition without (gone : list string) (d : directory) : directory :=
  filter (fun e => negb (existsb (String.eqb (fst e)) gone)) d.

(* ================================================================= *)
(** ** The program, continued: the handlers and the start-up alert *)

(** The Telegram calls of these functions whose texts are not among the
    calls above, each represented by the values interpolated into its
    text.  The pauses of a fraction of a second between them are left
    out. *)
Inductive panel_call :=
| StartBanner
| StartStage (n : nat)
| StartMenu
| CaptureStage (n : nat)
| Uploading
| ReplyPhoto (name : string) (photo : file) (caption_time : datetime)
| PhotoSent
| WebcamNotAvailable
| NoPendingFiles
| SendingFile (i total : nat) (name : string)
| AllSent (total : nat)
| StartupAlert (chat_id : pyval) (time : datetime)
               (location : option (pyval * pyval * pyval * pyval)).

Section Panel.

Variable E : env.

(** [reply_text], [edit_text], [edit_message_text], [reply_photo] and the
    alert's [send_message]: what such a call does, and whether it raises,
    is left open. *)
Variable telegram : panel_call -> prog unit.

(** [StorageManager.set_admin]; [config.json] lies outside the capture
    directory, and a failure to write it is caught in [save_config]. *)
Definition set_admin (chat_id : pyval) : prog unit :=
  fun w => (Ret tt, mkWorld (fs w) chat_id (trace w) (elapsed w)).

(** [cmd_start], for a [/start] that came from the chat [chat_id] *)
Definition cmd_start (chat_id : pyval) : prog unit :=
  set_admin chat_id ;;;
  telegram StartBanner ;;;
  for_each (seq 0 6)
    (fun n => try_except (telegram (StartStage n)) any_exception (ret tt)) ;;;
  telegram StartMenu ;;;
  send_pending_files E.

Definition handle_capture : prog unit :=
  for_each (seq 0 6)
    (fun n => try_except (telegram (CaptureStage n)) any_exception (ret tt)) ;;;
  photo <- capture E None ;;
  match photo with
  | Some name =>
      telegram Uploading ;;;
      f <- open_file name ;;
      caption_time <- datetime_now E ;;
      telegram (ReplyPhoto name f caption_time) ;;;
      delete_file E name ;;;
      telegram PhotoSent
  | None => telegram WebcamNotAvailable
  end.

Definition handle_pending : prog unit :=
  files <- get_pending_files E ;;
  match files with
  | [] => telegram NoPendingFiles
  | _ =>
      let total := length files in
      for_each (combine (seq 0 total) files)
        (fun entry =>
           try_except (telegram (SendingFile (fst entry) total (snd entry)))
                      any_exception (ret tt)) ;;;
      send_pending_files E ;;;
      telegram (AllSent total)
  end.

(** The loop [while not network.check_internet() and attempts < 30] of
    [send_startup_alert], by the number of attempts that are left. *)
Fixpoint wait_for_internet (attempts_left : nat) : prog unit :=
  online <- check_internet E ;;
  if negb online then
    match attempts_left with
    | S remaining => time_sleep E 2 ;;; wait_for_internet remaining
    | 0 => ret tt
    end
  else ret tt.

(** [send_startup_alert], the [post_init] hook of [main] *)
Definition send_startup_alert : prog unit :=
  admin <- get_admin_id ;;
  if negb (truthy admin) then ret tt
  else
    wait_for_internet 30 ;;;
    online <- check_internet E ;;
    if negb online then ret tt
    else
      location <- get_location E ;;
      let d := PDict (match location with Some d => d | None => [] end) in
      time <- datetime_now E ;;
      details <-
        (if some_nonempty location then
           ip <- py_getitem d "ip" ;;
           city <- py_getitem d "city" ;;
           country <- py_getitem d "country" ;;
           isp <- py_getitem d "isp" ;;
           ret (Some (ip, city, country, isp))
         else ret None) ;;
      try_except
        (chat_id <- get_admin_id ;;
         telegram (StartupAlert chat_id time details) ;;;
         has_fix <-
           (if some_nonempty location then
              lat <- py_get d "lat" PNone ;;
              if truthy lat
              then lon <- py_get d "lon" PNone ;; ret (truthy lon)
              else ret false
            else ret false) ;;
         (if has_fix then
            chat_id <- get_admin_id ;;
            latitude <- py_getitem d "lat" ;;
            longitude <- py_getitem d "lon" ;;
            bot E (SendLocation chat_id latitude longitude)
          else ret tt) ;;;
         send_pending_files E)
        any_exception
        (ret tt).

End Panel.

(* ================================================================= *)
(** ** Vocabulary: the start-up alert *)

Definition is_sleep_event (ev : event) : bool :=
  match ev with EvSleep => true | _ => false end.

(** The alert for a resolved location, as [send_startup_alert] words it. *)
Definition alert_of (chat_id : pyval) (time : datetime)
    (location : option dict) : panel_call :=
  StartupAlert chat_id time
    (match location with
     | Some d => Some (dict_get "ip" PNone d, dict_get "city" PNone d,
                       dict_get "country" PNone d, dict_get "isp" PNone d)
     | None => None
     end).

(** The record of a resolution; nothing when it gave none. *)
Definition record_of (location : option dict) : dict :=
  match location with Some d => d | None => [] end.

(** A messenger that accepts every call and leaves the world alone, and
    one that raises on every call. *)
Definition quiet : panel_call -> prog unit := fun _ => ret tt.

Definition unreachable : panel_call -> prog unit := fun _ => raise NetworkError.

(** The probe answers from its third call on. *)
Definition late_network : env :=
  mkEnv sample_float sample_int
        (fun _ => ProcRaised OSError) (fun _ => ProcRaised OSError)
        (fun _ _ => HttpRaised NetworkError) (fun _ => HttpRaised NetworkError)
        (fun k => 4 <=? k) (fun _ => CamClosed) (fun _ _ => true)
        (fun _ => 0) sample_calendar (fun _ _ => 0) (fun _ => true) false.

(* ================================================================= *)
(** ** The program, continued: [Config.load_config] and the checks of [main] *)

(** The two class attributes that [config.txt] sets. *)
Record config := mkConfig { BOT_TOKEN : string; ADMIN_ID : Z }.

(** The attributes as the class body sets them. *)
Definition class_defaults : config := mkConfig "" 0.

Definition newline : string := String "010"%char "".

(** What [load_config] writes when there is no [config.txt]. *)
Definition config_template : string :=
  ("# TeleGuard Configuration" ++ newline ++
   "# Get BOT_TOKEN from @BotFather on Telegram" ++ newline ++
   "# Get ADMIN_ID from @userinfobot on Telegram" ++ newline ++ newline ++
   "BOT_TOKEN=YOUR_TOKEN_HERE" ++ newline ++
   "ADMIN_ID=0" ++ newline)%string.

Section LoadConfig.

Variable E : env.

(** [str.isdigit] *)
Variable isdigit : string -> bool.

(** One turn of the loop over the lines of the file: what it raised, if
    anything, and the attributes it left. *)
Definition load_line (cfg : config) (raw : string) : outcome unit * config :=
  let line := strip raw in
  if String.prefix "#" line || negb (contains "=" line) then (Ret tt, cfg)
  else
    match split_once "="%char line with
    | key :: value :: _ =>
        let key := strip key in
        let value := strip value in
        if String.eqb key "BOT_TOKEN" then
          (Ret tt, mkConfig value (ADMIN_ID cfg))
        else if String.eqb key "ADMIN_ID" then
          if isdigit value then
            match py_int E value with
            | Some n => (Ret tt, mkConfig (BOT_TOKEN cfg) n)
            | None => (Raise ValueError, cfg)
            end
          else (Ret tt, mkConfig (BOT_TOKEN cfg) 0)
        else (Ret tt, cfg)
    | _ => (Raise ValueError, cfg)
    end.

Fixpoint load_lines (lines : list string) (cfg : config)
  : outcome unit * config :=
  match lines with
  | [] => (Ret tt, cfg)
  | raw :: rest =>
      match load_line cfg raw with
      | (Ret _, cfg') => load_lines rest cfg'
      | (Raise e, cfg') => (Raise e, cfg')
      end
  end.

(** [Config.load_config], from the text of [config.txt] as Python reads it
    ([None]: there is no such file) and the attributes as they are, to the
    value it returns, the attributes and the file it leaves.  Splitting the
    text at its newlines gives the lines of the loop without their ends,
    which [strip] would remove, and one more empty line, which the loop
    skips. *)
Definition load_config (file : option string) (cfg : config)
  : bool * config * option string :=
  match file with
  | None => (false, cfg, Some config_template)
  | Some text =>
      match load_lines (split "010"%char text) cfg with
      | (Ret _, cfg') => (true, cfg', file)
      | (Raise _, cfg') => (false, cfg', file)
      end
  end.

(** The start of [main], up to [storage.admin_id = Config.ADMIN_ID]:
    [None] where it calls [sys.exit(1)], otherwise the recipient it
    registers. *)
Definition main_checks (file : option string) (cfg : config) : option pyval :=
  let '(loaded, cfg', _) := load_config file cfg in
  if negb loaded then None
  else if String.eqb (BOT_TOKEN cfg') ""
          || String.eqb (BOT_TOKEN cfg') "YOUR_TOKEN_HERE" then None
  else if Z.eqb (ADMIN_ID cfg') 0 then None
  else Some (PNum (num_of_Z (ADMIN_ID cfg'))).

End LoadConfig.

(** The line is no comment and sets [key] to [value]. *)
Definition assigns (key value raw : string) : Prop :=
  String.prefix "#" (strip raw) = false /\
  exists k v rest,
    split_once "="%char (strip raw) = k :: v :: rest /\
    strip k = key /\ strip v = value.

(** [isdigit] on ASCII text. *)
Definition ascii_isdigit (s : string) : bool :=
  negb (String.eqb s "") &&
  forallb (fun c => (48 <=? nat_of_ascii c) && (nat_of_ascii c <=? 57))
          (list_ascii_of_string s).

(** A configuration that was filled in. *)
Definition filled_in : string :=
  ("# TeleGuard Configuration" ++ newline ++
   "BOT_TOKEN = 123456:ABC=DEF" ++ newline ++
   "ADMIN_ID=80" ++ newline)%string.

(* ================================================================= *)
(** ** Running programs: basic facts *)

Ltac run :=
  cbv beta iota zeta delta
    [bind ret raise try_except orelse ticks interact http response_json
     any_exception only_ValueError exn_eqb negb fst snd].

Lemma get_windows_location_run E w :
  exists r,
    get_windows_location E w = (Ret r, after E EvPowershell w) /\
    (r = None \/ exists d, r = Some d /\ precise_fix "GPS/Wi-Fi (Precise)" d).
Proof.
  unfold get_windows_location, run_powershell. run.
  destruct (powershell E (length (trace w))) as [e|out]; run.
  - eexists; split; [reflexivity|now left].
  - destruct (String.eqb (strip out) ""); run.
    + eexists; split; [reflexivity|now left].
    + destruct (2 <=? length (split "," (strip out))); run.
      2: { eexists; split; [reflexivity|now left]. }
      destruct (py_float E (nth 0 (split "," (strip out)) "")) as [lat|]; run.
      2: { eexists; split; [reflexivity|now left]. }
      destruct (py_float E (nth 1 (split "," (strip out)) "")) as [lon|]; run.
      2: { eexists; split; [reflexivity|now left]. }
      destruct (2 <? length (split "," (strip out))); run.
      * destruct (py_float E (nth 2 (split "," (strip out)) "")) as [acc|]; run.
        2: { eexists; split; [reflexivity|now left]. }
        destruct (_ && _); run; eexists; (split; [reflexivity|]);
          [right|now left].
        eexists; split; [reflexivity|]. now exists (PNum lat), (PNum lon), (PNum acc).
      * destruct (_ && _); run; eexists; (split; [reflexivity|]);
          [right|now left].
        eexists; split; [reflexivity|].
        now exists (PNum lat), (PNum lon), (PNum (num_of_Z 0)).
Qed.

Ltac step :=
  match goal with
  | |- context [match ?x with _ => _ end] =>
      lazymatch x with
      | context [match _ with _ => _ end] => fail
      | _ =>
          lazymatch type of x with
          | prod _ _ => fail
          | _ => destruct x
          end
      end
  end.

Ltac crunch :=
  repeat (cbv beta iota zeta delta
            [bind ret raise try_except orelse ticks interact http
             response_json any_exception only_ValueError exn_eqb negb fst snd
             py_in py_getitem py_get json_load get_admin_id];
          try step).

Lemma get_wifi_location_run E w :
  exists r w',
    get_wifi_location E w = (Ret r, w') /\
    (w' = after E EvNetsh w \/
     exists payload, w' = after E (EvGeolocate payload) (after E EvNetsh w)) /\
    (r = None \/
     exists d, r = Some d /\ precise_fix "Wi-Fi Networks (Precise)" d).
Proof.
  unfold get_wifi_location, run_netsh, post_geolocate.
  crunch.
  all: eexists; eexists; (split; [reflexivity|]).
  all: split; [first [now left | right; eexists; reflexivity] |].
  all: try (now left).
  all: right; eexists; split; [reflexivity|]; repeat eexists.
Qed.

Ltac crunch_dict :=
  repeat (cbv beta iota zeta delta
            [bind ret raise try_except orelse ticks interact http
             response_json any_exception only_ValueError exn_eqb negb fst snd
             py_in py_getitem py_get json_load get_admin_id ip_success];
          cbn [dict_lookup dict_set dict_get String.eqb Ascii.eqb Bool.eqb
               some_nonempty app];
          try step).

Lemma get_location_run E w :
  exists precise w2,
    precise_phase E w precise w2 /\
    get_location E w =
      (Ret (enrich precise (ip_success (ip_api E (length (trace w2))))),
       after E EvIpApi w2).
Proof.
  destruct (get_windows_location_run E w) as (win & Hwin & Hshape).
  unfold get_location, get_ip_api.
  unfold bind at 1. rewrite Hwin.
  destruct Hshape as [->|(d & -> & lat & lon & acc & ->)].
  - destruct (get_wifi_location_run E (after E EvPowershell w))
      as (wifi & w2 & Hwifi & _ & Hshape).
    exists wifi, w2. split.
    + exists None. split; [assumption|]. split; [right; now split|].
      destruct Hshape as [->|(d & -> & Hd)]; [now left|right; eauto].
    + cbn [some_nonempty negb]. unfold bind at 1. unfold bind at 1.
      rewrite Hwifi.
      destruct Hshape as [->|(d & -> & lat & lon & acc & ->)];
        crunch_dict; reflexivity.
  - eexists; eexists. split.
    + eexists. split; [exact Hwin|]. split; [left; split; [discriminate|split; reflexivity]|].
      right. eexists; eexists; split; [reflexivity|]. repeat eexists.
    + crunch_dict; reflexivity.
Qed.

Example scan_two_networks :
  scan_networks offline two_networks =
    [mkAP "aa:bb:cc:00:11:22" (-60); mkAP "aa:bb:cc:00:11:23" (-70)].
Proof. vm_compute. reflexivity. Qed.

(* ================================================================= *)
(** ** C1: which candidate pairs the strategies accept *)

Lemma valid_fix_finite (a b : Q) :
  valid_fix (Finite a) (Finite b) <->
  (~ a == 0 /\ ~ b == 0 /\ Qabs a <= 90 /\ Qabs b <= 180)%Q.
Proof.
  unfold valid_fix; cbn [num_is_zero num_abs num_le num_of_Z].
  rewrite !andb_true_iff, !negb_true_iff, <- !Qle_bool_iff.
  change (inject_Z 90) with 90%Q. change (inject_Z 180) with 180%Q.
  split.
  - intros [[[Ha Hb] Hla] Hlo]. repeat split; try assumption.
    + intros H. apply Qeq_bool_iff in H. congruence.
    + intros H. apply Qeq_bool_iff in H. congruence.
  - intros (Ha & Hb & Hla & Hlo). repeat split; try assumption.
    + destruct (Qeq_bool a 0) eqn:H; [|reflexivity].
      apply Qeq_bool_iff in H. contradiction.
    + destruct (Qeq_bool b 0) eqn:H; [|reflexivity].
      apply Qeq_bool_iff in H. contradiction.
Qed.

Lemma get_windows_location_candidate E w lat lon :
  sensor_candidate E w lat lon ->
  exists accuracy,
    fst (get_windows_location E w) =
      Ret (if negb (num_is_zero lat) && negb (num_is_zero lon)
              && num_le (num_abs lat) (num_of_Z 90)
              && num_le (num_abs lon) (num_of_Z 180)
           then Some [("lat", PNum lat); ("lon", PNum lon);
                      ("accuracy", PNum accuracy);
                      ("source", PStr "GPS/Wi-Fi (Precise)")]
           else None).
Proof.
  intros (out & Hps & Hlen & Hlat & Hlon & Hacc).
  unfold get_windows_location, run_powershell. run. rewrite Hps. run.
  destruct (String.eqb_spec (strip out) "") as [Hs|_].
  { rewrite Hs in Hlen. simpl in Hlen. lia. }
  apply Nat.leb_le in Hlen. rewrite Hlen. run. rewrite Hlat, Hlon. run.
  destruct (2 <? length (split "," (strip out))) eqn:H3.
  - apply Nat.ltb_lt in H3. specialize (Hacc H3).
    destruct (py_float E (nth 2 (split "," (strip out)) "")) as [acc|];
      [|congruence].
    run. exists acc. destruct (_ && _); reflexivity.
  - run. exists (num_of_Z 0). destruct (_ && _); reflexivity.
Qed.

Lemma get_wifi_location_candidate E w lat lon :
  wifi_candidate E w lat lon ->
  exists accuracy w',
    get_wifi_location E w =
      (Ret (Some [("lat", lat); ("lon", lon); ("accuracy", accuracy);
                  ("source", PStr "Wi-Fi Networks (Precise)")]), w').
Proof.
  intros (out & code & data & loc & Hn & Hout & Hlen & Hg & -> & Hloc & Hlat & Hlon).
  unfold get_wifi_location, run_netsh, post_geolocate. run. rewrite Hn. run.
  destruct (String.eqb_spec out "") as [|_]; [contradiction|].
  apply Nat.leb_le in Hlen. rewrite Hlen. run.
  cbn [trace after length]. rewrite Hg.
  cbv beta iota zeta delta
    [bind ret raise try_except orelse http response_json any_exception
     fst snd py_in py_getitem py_get Z.eqb Pos.eqb].
  rewrite Hloc. run. rewrite Hlat. run. rewrite Hlon. run.
  eexists; eexists; reflexivity.
Qed.

(** C1 (as amended).  The device-sensor strategy accepts a parsed pair
    exactly when [|lat| <= 90], [|lon| <= 180] and neither coordinate is
    zero, and returns no fix otherwise; so a pair with a zero coordinate,
    the pair (0,0) among them, is treated as absent by it.  The Wi-Fi
    strategy accepts every pair the geolocation service reports that is in
    range and not zero in both coordinates. *)
Theorem C1_fix_validation :
  (forall E w lat lon,
      sensor_candidate E w lat lon ->
      (accepts (get_windows_location E w) (PNum lat) (PNum lon)
       <-> valid_fix lat lon) /\
      (~ valid_fix lat lon -> fst (get_windows_location E w) = Ret None) /\
      (num_is_zero lat = true \/ num_is_zero lon = true ->
       fst (get_windows_location E w) = Ret None) /\
      (forall a b, lat = Finite a -> lon = Finite b ->
         (valid_fix lat lon <->
          (~ a == 0 /\ ~ b == 0 /\ Qabs a <= 90 /\ Qabs b <= 180)%Q))) /\
  (forall E w lat lon,
      wifi_candidate E w (PNum lat) (PNum lon) ->
      num_le (num_abs lat) (num_of_Z 90) = true ->
      num_le (num_abs lon) (num_of_Z 180) = true ->
      ~ (num_is_zero lat = true /\ num_is_zero lon = true) ->
      accepts (get_wifi_location E w) (PNum lat) (PNum lon)).
Proof.
  split.
  - intros E w lat lon H.
    destruct (get_windows_location_candidate E w lat lon H) as (acc & Hrun).
    assert (Hq : forall a b, lat = Finite a -> lon = Finite b ->
              (valid_fix lat lon <->
               (~ a == 0 /\ ~ b == 0 /\ Qabs a <= 90 /\ Qabs b <= 180)%Q)).
    { intros a b -> ->. apply valid_fix_finite. }
    unfold valid_fix, accepts in *. rewrite Hrun.
    destruct (negb (num_is_zero lat) && negb (num_is_zero lon)
              && num_le (num_abs lat) (num_of_Z 90)
              && num_le (num_abs lon) (num_of_Z 180)) eqn:Hc.
    + split; [|split; [|split]].
      * split; [reflexivity|]. intros _. eexists. split; [reflexivity|].
        split; reflexivity.
      * intros Hn. now elim Hn.
      * rewrite !andb_true_iff, !negb_true_iff in Hc.
        intros [Hz|Hz]; destruct Hc as [[[? ?] ?] ?]; congruence.
      * exact Hq.
    + split; [|split; [|split]]; try reflexivity; [|exact Hq].
      split; [|discriminate]. intros (d & Hd & _). discriminate.
  - intros E w lat lon H _ _ _.
    destruct (get_wifi_location_candidate E w _ _ H) as (acc & w' & Hrun).
    unfold accepts. rewrite Hrun. eexists. split; [reflexivity|].
    split; reflexivity.
Qed.

Lemma equator_reading_candidate :
  sensor_candidate equator_reading empty_world (num_of_Z 0) (num_of_Z 5).
Proof.
  exists "0,5,10". vm_compute. repeat split; try lia. discriminate.
Qed.

Lemma null_island_candidate :
  wifi_candidate null_island_service empty_world
    (PNum (num_of_Z 0)) (PNum (num_of_Z 0)).
Proof.
  exists two_networks, 200%Z. do 2 eexists.
  split; [reflexivity|]. split; [discriminate|].
  split; [vm_compute; lia|]. split; [reflexivity|].
  split; [reflexivity|]. split; [reflexivity|]. split; reflexivity.
Qed.

(** C1 fails as stated.  The pair (0, 5) is in range and not both zero, yet
    the device-sensor strategy returns no fix for it; and the pair (0, 0),
    reported by the geolocation service, comes back from the Wi-Fi strategy
    as a fix. *)
Lemma C1_counterexample :
  (sensor_candidate equator_reading empty_world (num_of_Z 0) (num_of_Z 5) /\
   (Qabs 0 <= 90 /\ Qabs 5 <= 180 /\ ~ (0 == 0 /\ 5 == 0))%Q /\
   fst (get_windows_location equator_reading empty_world) = Ret None) /\
  (wifi_candidate null_island_service empty_world
     (PNum (num_of_Z 0)) (PNum (num_of_Z 0)) /\
   accepts (get_wifi_location null_island_service empty_world)
     (PNum (num_of_Z 0)) (PNum (num_of_Z 0))).
Proof.
  split; [split; [|split]|split].
  - exact equator_reading_candidate.
  - repeat split; try (vm_compute; discriminate).
    intros [_ H]. vm_compute in H. discriminate.
  - vm_compute. reflexivity.
  - exact null_island_candidate.
  - eexists. split; [vm_compute; reflexivity|]. split; reflexivity.
Qed.

Lemma C1_witness :
  (sensor_candidate good_reading empty_world
     (Finite (75 # 2)) (Finite (-489 # 4)) /\
   valid_fix (Finite (75 # 2)) (Finite (-489 # 4)) /\
   accepts (get_windows_location good_reading empty_world)
     (PNum (Finite (75 # 2))) (PNum (Finite (-489 # 4)))) /\
  (wifi_candidate good_service empty_world
     (PNum (Finite (75 # 2))) (PNum (Finite (-489 # 4))) /\
   accepts (get_wifi_location good_service empty_world)
     (PNum (Finite (75 # 2))) (PNum (Finite (-489 # 4)))).
Proof.
  assert (Hc : sensor_candidate good_reading empty_world
                 (Finite (75 # 2)) (Finite (-489 # 4))).
  { exists "37.5,-122.25,5". vm_compute. repeat split; try lia. discriminate. }
  assert (Hv : valid_fix (Finite (75 # 2)) (Finite (-489 # 4))).
  { vm_compute. reflexivity. }
  assert (Hw : wifi_candidate good_service empty_world
                 (PNum (Finite (75 # 2))) (PNum (Finite (-489 # 4)))).
  { exists two_networks, 200%Z. do 2 eexists.
    split; [reflexivity|]. split; [discriminate|].
    split; [vm_compute; lia|]. split; [reflexivity|].
    split; [reflexivity|]. split; [reflexivity|]. split; reflexivity. }
  split; [split; [exact Hc|split; [exact Hv|]]|split; [exact Hw|]].
  - apply (proj1 (proj1 C1_fix_validation _ _ _ _ Hc)). exact Hv.
  - apply (proj2 C1_fix_validation _ _ _ _ Hw); try reflexivity.
    intros [H _]. discriminate.
Defined.

(* ================================================================= *)
(** ** C9 and C6: the resolver as a whole *)

Lemma precise_phase_fun E w p w2 p' w2' :
  precise_phase E w p w2 -> precise_phase E w p' w2' -> p = p' /\ w2 = w2'.
Proof.
  intros (win & Hwin & Hcase & _) (win' & Hwin' & Hcase' & _).
  rewrite Hwin in Hwin'. injection Hwin' as <-.
  destruct Hcase as [(Hne & -> & ->)|(-> & Hwifi)];
    destruct Hcase' as [(Hne' & -> & ->)|(Heq & Hwifi')].
  - now split.
  - contradiction.
  - now elim Hne'.
  - rewrite Hwifi in Hwifi'. injection Hwifi' as <- <-. now split.
Qed.

Lemma enrich_precise d source ip :
  precise_fix source d ->
  exists result,
    enrich (Some d) ip = Some result /\
    dict_lookup "lat" result = dict_lookup "lat" d /\
    dict_lookup "lon" result = dict_lookup "lon" d /\
    dict_lookup "source" result = Some (PStr source) /\
    (forall data, ip = Some data ->
       dict_lookup "ip" result = Some (dict_get "query" unknown data) /\
       dict_lookup "country" result = Some (dict_get "country" unknown data) /\
       dict_lookup "city" result = Some (dict_get "city" unknown data) /\
       dict_lookup "region" result = Some (dict_get "regionName" unknown data) /\
       dict_lookup "isp" result = Some (dict_get "isp" unknown data) /\
       dict_lookup "timezone" result = Some (dict_get "timezone" unknown data)).
Proof.
  intros (lat & lon & acc & ->).
  destruct ip as [data|]; cbn; eexists; (split; [reflexivity|]);
    (split; [reflexivity|]); (split; [reflexivity|]);
    (split; [reflexivity|]); intros data' Heq;
    [injection Heq as <-; repeat split | discriminate].
Qed.

(** C9.  [get_location] returns on every combination of answers: it never
    raises.  When neither precise strategy yields a fix and the IP lookup
    succeeds, the result is a record whose source is the IP approximation
    and whose coordinates are the ones the lookup reported (0 for one it
    did not report); when the IP lookup does not succeed either, the result
    is [None]. *)
Theorem C9_resolve_never_raises :
  forall E w,
    exists r w',
      get_location E w = (Ret r, w') /\
      (forall w2 data,
          precise_phase E w None w2 ->
          ip_success (ip_api E (length (trace w2))) = Some data ->
          exists d,
            r = Some d /\
            dict_lookup "source" d = Some (PStr approximate) /\
            dict_lookup "lat" d = Some (dict_get "lat" (PNum (num_of_Z 0)) data) /\
            dict_lookup "lon" d = Some (dict_get "lon" (PNum (num_of_Z 0)) data)) /\
      (forall w2,
          precise_phase E w None w2 ->
          ip_success (ip_api E (length (trace w2))) = None ->
          r = None).
Proof.
  intros E w.
  destruct (get_location_run E w) as (p & w2 & Hphase & Hrun).
  eexists; eexists. split; [exact Hrun|]. split.
  - intros w2' data Hnone Hip.
    destruct (precise_phase_fun _ _ _ _ _ _ Hphase Hnone) as [-> ->].
    rewrite Hip. cbn. eexists. split; [reflexivity|]. repeat split.
  - intros w2' Hnone Hip.
    destruct (precise_phase_fun _ _ _ _ _ _ Hphase Hnone) as [-> ->].
    rewrite Hip. reflexivity.
Qed.

Lemma offline_precise_phase E w :
  (forall k, powershell E k = ProcRaised OSError) ->
  (forall k, netsh E k = ProcRaised OSError) ->
  precise_phase E w None (after E EvNetsh (after E EvPowershell w)).
Proof.
  intros Hp Hn. exists None. split; [|split].
  - unfold get_windows_location, run_powershell. run. rewrite Hp. reflexivity.
  - right. split; [reflexivity|].
    unfold get_wifi_location, run_netsh. run. rewrite Hn. reflexivity.
  - now left.
Qed.

Lemma C9_witness :
  exists r w',
    get_location paris_lookup empty_world = (Ret r, w') /\
    (exists d,
        r = Some d /\
        dict_lookup "source" d = Some (PStr approximate) /\
        dict_lookup "lat" d = Some (PNum (num_of_Z 0)) /\
        dict_lookup "lon" d = Some (PNum (num_of_Z 0))) /\
    get_location offline empty_world =
      (Ret None,
       after offline EvIpApi
         (after offline EvNetsh (after offline EvPowershell empty_world))).
Proof.
  destruct (C9_resolve_never_raises paris_lookup empty_world)
    as (r & w' & Hrun & Hip & _).
  exists r, w'. split; [exact Hrun|]. split.
  - apply (Hip _ [("status", PStr "success"); ("city", PStr "Paris");
                  ("lat", PNum (num_of_Z 0)); ("lon", PNum (num_of_Z 0))]
               (offline_precise_phase paris_lookup empty_world
                  (fun _ => eq_refl) (fun _ => eq_refl))).
    reflexivity.
  - destruct (C9_resolve_never_raises offline empty_world)
      as (r0 & w0 & Hrun0 & _ & Hnone).
    rewrite Hrun0.
    rewrite (Hnone _ (offline_precise_phase offline empty_world
                        (fun _ => eq_refl) (fun _ => eq_refl)) eq_refl).
    vm_compute in Hrun0. injection Hrun0 as _ <-. reflexivity.
Defined.

Lemma new_events_single (w w' : world) (ev : event) :
  new_events w w' = [ev] -> In ev (trace w').
Proof.
  unfold new_events. intros H.
  rewrite <- (firstn_skipn (length (trace w') - length (trace w)) (trace w')).
  rewrite H. now left.
Qed.

Lemma new_events_app (w w' : world) (evs : list event) :
  trace w' = evs ++ trace w -> new_events w w' = evs.
Proof.
  intros H. unfold new_events. rewrite H, length_app.
  replace (length evs + length (trace w) - length (trace w)) with (length evs)
    by lia.
  rewrite firstn_app, firstn_all, Nat.sub_diag. cbn. apply app_nil_r.
Qed.

Lemma get_wifi_location_events E w r w' :
  get_wifi_location E w = (Ret r, w') ->
  exists evs,
    trace w' = evs ++ trace w /\
    forallb (fun ev => negb (is_ip_event ev)) evs = true.
Proof.
  intros H.
  destruct (get_wifi_location_run E w) as (r0 & w0 & Hrun & Hw & _).
  rewrite Hrun in H. injection H as <- <-.
  destruct Hw as [->|(payload & ->)].
  - exists [EvNetsh]. split; reflexivity.
  - exists [EvGeolocate payload; EvNetsh]. split; reflexivity.
Qed.

(** C6.  A fix from the device sensor ends the precise phase: the Wi-Fi
    strategy is not run.  Whichever precise strategy produced the fix, the
    IP lookup is attempted afterwards, exactly once; the result carries the
    coordinates and the source tag of the fix, and, when the lookup
    succeeded, its city, country, region, ISP, timezone and address. *)
Theorem C6_short_circuit_then_enrich :
  forall E w found source,
    precise_fix source found ->
    (fst (get_windows_location E w) = Ret (Some found) ->
     exists result w',
       get_location E w = (Ret (Some result), w') /\
       new_events w w' = [EvIpApi; EvPowershell] /\
       existsb is_wifi_event (new_events w w') = false /\
       dict_lookup "lat" result = dict_lookup "lat" found /\
       dict_lookup "lon" result = dict_lookup "lon" found /\
       dict_lookup "source" result = Some (PStr source) /\
       (forall data,
           ip_success (ip_api E (S (length (trace w)))) = Some data ->
           dict_lookup "city" result = Some (dict_get "city" unknown data) /\
           dict_lookup "country" result = Some (dict_get "country" unknown data) /\
           dict_lookup "isp" result = Some (dict_get "isp" unknown data) /\
           dict_lookup "timezone" result
             = Some (dict_get "timezone" unknown data))) /\
    (forall w2,
        fst (get_windows_location E w) = Ret None ->
        get_wifi_location E (after E EvPowershell w) = (Ret (Some found), w2) ->
        exists result w',
          get_location E w = (Ret (Some result), w') /\
          (exists evs, new_events w w' = EvIpApi :: evs /\
                       existsb is_ip_event evs = false) /\
          dict_lookup "lat" result = dict_lookup "lat" found /\
          dict_lookup "lon" result = dict_lookup "lon" found /\
          dict_lookup "source" result = Some (PStr source) /\
          (forall data,
              ip_success (ip_api E (length (trace w2))) = Some data ->
              dict_lookup "city" result = Some (dict_get "city" unknown data) /\
              dict_lookup "country" result
                = Some (dict_get "country" unknown data) /\
              dict_lookup "isp" result = Some (dict_get "isp" unknown data) /\
              dict_lookup "timezone" result
                = Some (dict_get "timezone" unknown data))).
Proof.
  intros E w found source Hfix.
  destruct (get_location_run E w) as (p & w2 & Hphase & Hrun).
  destruct (get_windows_location_run E w) as (win & Hwin & _).
  split.
  - intros Hsensor. rewrite Hwin in Hsensor. cbn in Hsensor.
    injection Hsensor as ->.
    assert (Hp : precise_phase E w (Some found) (after E EvPowershell w)).
    { exists (Some found). split; [exact Hwin|]. split.
      - left. split; [discriminate|split; reflexivity].
      - right. eauto. }
    destruct (precise_phase_fun _ _ _ _ _ _ Hphase Hp) as [-> ->].
    destruct (enrich_precise found source
                (ip_success (ip_api E (length (trace (after E EvPowershell w)))))
                Hfix) as (result & Hres & Hlat & Hlon & Hsrc & Hmeta).
    rewrite Hres in Hrun. exists result. eexists. split; [exact Hrun|].
    assert (Hev : new_events w (after E EvIpApi (after E EvPowershell w))
                  = [EvIpApi; EvPowershell]).
    { apply new_events_app. reflexivity. }
    rewrite Hev. repeat (split; [assumption || reflexivity|]).
    intros data Hip. destruct (Hmeta data Hip) as (_ & Hc & Hci & _ & Hi & Ht).
    repeat split; assumption.
  - intros w2' Hsensor Hwifi. rewrite Hwin in Hsensor. cbn in Hsensor.
    injection Hsensor as ->.
    assert (Hp : precise_phase E w (Some found) w2').
    { exists None. split; [exact Hwin|]. split.
      - right. split; [reflexivity|exact Hwifi].
      - right. eauto. }
    destruct (precise_phase_fun _ _ _ _ _ _ Hphase Hp) as [-> ->].
    destruct (enrich_precise found source
                (ip_success (ip_api E (length (trace w2')))) Hfix)
      as (result & Hres & Hlat & Hlon & Hsrc & Hmeta).
    rewrite Hres in Hrun. exists result. eexists. split; [exact Hrun|].
    split.
    + destruct (get_wifi_location_events _ _ _ _ Hwifi) as (evs & Htr & Hno).
      exists (evs ++ [EvPowershell]). split.
      * apply new_events_app. cbn. rewrite Htr. cbn.
        now rewrite <- app_assoc.
      * rewrite existsb_app. cbn. rewrite orb_false_r.
        clear -Hno. induction evs as [|ev evs IH]; [reflexivity|].
        cbn in *. apply andb_true_iff in Hno as [Hev Hno].
        apply negb_true_iff in Hev. rewrite Hev. now apply IH.
    + repeat (split; [assumption|]).
      intros data Hip. destruct (Hmeta data Hip) as (_ & Hc & Hci & _ & Hi & Ht).
      repeat split; assumption.
Qed.

Lemma C6_witness :
  exists result w',
    get_location sensor_and_ip empty_world = (Ret (Some result), w') /\
    new_events empty_world w' = [EvIpApi; EvPowershell] /\
    dict_lookup "source" result = Some (PStr "GPS/Wi-Fi (Precise)") /\
    dict_lookup "lat" result = Some (PNum (Finite (75 # 2))) /\
    dict_lookup "city" result = Some (PStr "Paris").
Proof.
  assert (Hfix : precise_fix "GPS/Wi-Fi (Precise)"
                   [("lat", PNum (Finite (75 # 2)));
                    ("lon", PNum (Finite (-489 # 4)));
                    ("accuracy", PNum (num_of_Z 5));
                    ("source", PStr "GPS/Wi-Fi (Precise)")]).
  { repeat eexists. }
  destruct (proj1 (C6_short_circuit_then_enrich sensor_and_ip empty_world
                     _ _ Hfix) eq_refl)
    as (result & w' & Hrun & Hev & _ & Hlat & _ & Hsrc & Hmeta).
  exists result, w'. split; [exact Hrun|]. split; [exact Hev|].
  split; [exact Hsrc|]. split; [exact Hlat|].
  exact (proj1 (Hmeta _ eq_refl)).
Defined.

(* ================================================================= *)
(** ** File names: patterns, suffixes and timestamps *)

Lemma fnmatch_star_eq pat s :
  fnmatch (String "*" pat) s =
  fnmatch pat s ||
  match s with
  | "" => false
  | String _ s' => fnmatch (String "*" pat) s'
  end.
Proof. destruct s; reflexivity. Qed.

Lemma fnmatch_char_eq p pat s :
  Ascii.eqb p "*"%char = false ->
  fnmatch (String p pat) s =
  match s with
  | "" => false
  | String c s' => Ascii.eqb c p && fnmatch pat s'
  end.
Proof. intros H. cbn. rewrite H. reflexivity. Qed.

Lemma fnmatch_star pat s :
  fnmatch (String "*" pat) s = true <->
  exists a b, s = (a ++ b)%string /\ fnmatch pat b = true.
Proof.
  induction s as [|c s IH]; rewrite fnmatch_star_eq.
  - rewrite orb_false_r. split.
    + intros H. now exists "", "".
    + intros (a & b & Hs & Hb). destruct a; [|discriminate]. cbn in Hs. now subst.
  - rewrite orb_true_iff, IH. split.
    + intros [H|(a & b & -> & Hb)].
      * now exists "", (String c s).
      * now exists (String c a), b.
    + intros (a & b & Hs & Hb). destruct a as [|c' a]; cbn in Hs.
      * left. now subst.
      * right. injection Hs as -> ->. now exists a, b.
Qed.

Lemma fnmatch_literal pat s :
  star_free pat = true -> fnmatch pat s = String.eqb s pat.
Proof.
  revert s. induction pat as [|p pat IH]; intros s H.
  - reflexivity.
  - cbn in H. apply andb_true_iff in H as [Hp Hpat].
    apply negb_true_iff in Hp. rewrite (fnmatch_char_eq _ _ _ Hp).
    destruct s as [|c s]; [reflexivity|]. cbn. rewrite (IH s Hpat).
    destruct (Ascii.eqb c p); reflexivity.
Qed.

Lemma fnmatch_prefix lit pat s :
  star_free lit = true ->
  (fnmatch (lit ++ pat) s = true <->
   exists b, s = (lit ++ b)%string /\ fnmatch pat b = true).
Proof.
  revert s. induction lit as [|p lit IH]; intros s H.
  - cbn. split; [intros Hm; now exists s|intros (b & -> & Hb); exact Hb].
  - cbn in H. apply andb_true_iff in H as [Hp Hlit].
    apply negb_true_iff in Hp.
    change (String p lit ++ pat)%string with (String p (lit ++ pat)).
    rewrite (fnmatch_char_eq _ _ _ Hp). destruct s as [|c s].
    + split; [discriminate|]. intros (b & Hs & _). discriminate.
    + rewrite andb_true_iff, (IH s Hlit). split.
      * intros [Hc (b & -> & Hb)]. apply Ascii.eqb_eq in Hc as ->. now exists b.
      * intros (b & Hs & Hb). injection Hs as -> ->. split.
        -- apply Ascii.eqb_refl.
        -- now exists b.
Qed.

Lemma is_photo_iff s :
  fnmatch "*.jpg" s = true <-> exists a, s = (a ++ ".jpg")%string.
Proof.
  rewrite fnmatch_star. split.
  - intros (a & b & -> & Hb). rewrite fnmatch_literal in Hb by reflexivity.
    apply String.eqb_eq in Hb as ->. now exists a.
  - intros (a & ->). exists a, ".jpg". split; reflexivity.
Qed.

Lemma is_location_iff s :
  fnmatch "location_*.json" s = true <->
  exists a, s = ("location_" ++ a ++ ".json")%string.
Proof.
  change "location_*.json" with ("location_" ++ "*.json")%string.
  rewrite fnmatch_prefix by reflexivity. split.
  - intros (b & -> & Hb). apply fnmatch_star in Hb as (a & c & -> & Hc).
    rewrite fnmatch_literal in Hc by reflexivity.
    apply String.eqb_eq in Hc as ->. now exists a.
  - intros (a & ->). exists (a ++ ".json")%string. split; [reflexivity|].
    apply fnmatch_star. exists a, ".json". split; reflexivity.
Qed.

Lemma append_assoc (a b c : string) :
  ((a ++ b) ++ c = a ++ (b ++ c))%string.
Proof. induction a as [|x a IH]; cbn; [reflexivity|now rewrite IH]. Qed.

Lemma length_append (a b : string) :
  String.length (a ++ b) = String.length a + String.length b.
Proof. induction a as [|x a IH]; cbn; [reflexivity|now rewrite IH]. Qed.

Lemma append_same_length_inj (a b x y : string) :
  (a ++ x = b ++ y)%string -> String.length x = String.length y ->
  a = b /\ x = y.
Proof.
  revert b. induction a as [|c a IH]; intros b H Hlen.
  - destruct b as [|d b]; [now split|]. cbn in H. subst x.
    cbn in Hlen. rewrite length_append in Hlen. lia.
  - destruct b as [|d b]; cbn in H.
    + subst y. cbn in Hlen. rewrite length_append in Hlen. lia.
    + injection H as -> H. destruct (IH b H Hlen) as [-> ->]. now split.
Qed.

Lemma rfind_dot_append a s i :
  rfind_dot s = Some i -> rfind_dot (a ++ s) = Some (String.length a + i).
Proof.
  intros H. induction a as [|c a IH]; cbn; [exact H|]. now rewrite IH.
Qed.

Lemma substring_append_tail a s :
  String.substring (String.length a) (String.length s) (a ++ s) = s.
Proof.
  induction a as [|c a IH]; cbn; [|exact IH].
  induction s as [|c s IH]; cbn; [reflexivity|]. now rewrite IH.
Qed.

(** The suffix of a name that ends in a dotted extension. *)
Lemma path_suffix_extension a ext :
  a <> "" -> ext <> "" -> rfind_dot (String "." ext) = Some 0 ->
  path_suffix (a ++ String "." ext) = String "." ext.
Proof.
  intros Ha Hext Hdot. unfold path_suffix.
  rewrite (rfind_dot_append a _ 0 Hdot), !length_append, Nat.add_0_r.
  destruct a as [|c a]; [contradiction|]. destruct ext as [|e ext]; [contradiction|].
  cbn [String.length].
  replace (0 <? S (String.length a)) with true by (symmetry; apply Nat.ltb_lt; lia).
  replace (S (String.length a) <?
           S (String.length a) + S (S (String.length ext)) - 1)
    with true by (symmetry; apply Nat.ltb_lt; lia).
  cbn [andb].
  replace (S (String.length a) + S (S (String.length ext)) - S (String.length a))
    with (String.length (String "." (String e ext))) by (cbn; lia).
  apply (substring_append_tail (String c a)).
Qed.

Lemma path_suffix_photo a :
  a <> "" -> path_suffix (a ++ ".jpg") = ".jpg".
Proof. intros Ha. apply path_suffix_extension; [assumption|discriminate|reflexivity]. Qed.

Lemma path_suffix_location a :
  path_suffix ("location_" ++ a ++ ".json") = ".json".
Proof.
  rewrite <- append_assoc.
  apply path_suffix_extension; [discriminate|discriminate|reflexivity].
Qed.

Lemma contains_location a : contains "location" ("location_" ++ a) = true.
Proof. reflexivity. Qed.

Lemma location_not_photo a : fnmatch "*.jpg" ("location_" ++ a ++ ".json") = false.
Proof.
  destruct (fnmatch "*.jpg" _) eqn:H; [|reflexivity].
  apply is_photo_iff in H as (b & H). rewrite <- append_assoc in H.
  change ".json" with ("." ++ "json")%string in H.
  rewrite <- append_assoc in H.
  apply append_same_length_inj in H as [_ H]; [discriminate|reflexivity].
Qed.

Lemma photo_not_location a : fnmatch "location_*.json" (a ++ ".jpg") = false.
Proof.
  destruct (fnmatch "location_*.json" _) eqn:H; [|reflexivity].
  apply is_location_iff in H as (b & H). rewrite <- append_assoc in H.
  change ".json" with ("." ++ "json")%string in H.
  rewrite <- append_assoc in H.
  apply append_same_length_inj in H as [_ H]; [discriminate|reflexivity].
Qed.

Lemma capture_name_not_location t :
  fnmatch "location_*.json" (capture_name t) = false.
Proof. reflexivity. Qed.

Lemma location_name_not_photo t : fnmatch "*.jpg" (location_name t) = false.
Proof. apply location_not_photo. Qed.

Lemma capture_name_photo t : fnmatch "*.jpg" (capture_name t) = true.
Proof.
  apply is_photo_iff. exists ("capture_" ++ strftime t)%string.
  unfold capture_name. now rewrite append_assoc.
Qed.

Lemma location_name_location t :
  fnmatch "location_*.json" (location_name t) = true.
Proof. apply is_location_iff. now exists (strftime t). Qed.

(** *** Matching with case ignored *)

Lemma fnmatch_nocase_star_eq pat s :
  fnmatch_nocase (String "*" pat) s =
  fnmatch_nocase pat s ||
  match s with
  | "" => false
  | String _ s' => fnmatch_nocase (String "*" pat) s'
  end.
Proof. destruct s; reflexivity. Qed.

Lemma fnmatch_nocase_char_eq p pat s :
  Ascii.eqb p "*"%char = false ->
  fnmatch_nocase (String p pat) s =
  match eat_ignoring_case p s with
  | Some rest => fnmatch_nocase pat rest
  | None => false
  end.
Proof. intros H. cbn [fnmatch_nocase]. rewrite H. reflexivity. Qed.

Lemma fnmatch_nocase_star pat s :
  fnmatch_nocase (String "*" pat) s = true <->
  exists a b, s = (a ++ b)%string /\ fnmatch_nocase pat b = true.
Proof.
  induction s as [|c s IH]; rewrite fnmatch_nocase_star_eq.
  - rewrite orb_false_r. split.
    + intros H. now exists "", "".
    + intros (a & b & Hs & Hb). destruct a; [|discriminate]. cbn in Hs. now subst.
  - rewrite orb_true_iff, IH. split.
    + intros [H|(a & b & -> & Hb)].
      * now exists "", (String c s).
      * now exists (String c a), b.
    + intros (a & b & Hs & Hb). destruct a as [|c' a]; cbn in Hs.
      * left. now subst.
      * right. injection Hs as -> ->. now exists a, b.
Qed.

Lemma eat_same_case c p s :
  lower_char c = lower_char p -> eat_ignoring_case p (String c s) = Some s.
Proof. intros H. cbn [eat_ignoring_case]. now rewrite H, Ascii.eqb_refl. Qed.

(** What matches exactly matches with case ignored. *)
Lemma fnmatch_nocase_exact pat :
  forall s, fnmatch pat s = true -> fnmatch_nocase pat s = true.
Proof.
  induction pat as [|p pat IH]; intros s H; [exact H|].
  destruct (Ascii.eqb p "*") eqn:Hp.
  - apply Ascii.eqb_eq in Hp. subst p.
    apply fnmatch_star in H as (a & b & -> & Hb).
    apply fnmatch_nocase_star. exists a, b. split; [reflexivity|now apply IH].
  - rewrite fnmatch_char_eq in H by exact Hp.
    rewrite fnmatch_nocase_char_eq by exact Hp.
    destruct s as [|c s]; [discriminate|].
    apply andb_true_iff in H as [Hc Hs]. apply Ascii.eqb_eq in Hc as ->.
    rewrite eat_same_case by reflexivity. now apply IH.
Qed.

Lemma name_matches_exact ignore_case pat s :
  fnmatch pat s = true -> name_matches ignore_case pat s = true.
Proof.
  intros H. destruct ignore_case; cbn [name_matches]; [|exact H].
  now apply fnmatch_nocase_exact.
Qed.

(** A literal that is none of [i], [s] and [k] takes one character. *)
Lemma eat_plain p s rest :
  Ascii.eqb (lower_char p) "i" = false ->
  Ascii.eqb (lower_char p) "s" = false ->
  Ascii.eqb (lower_char p) "k" = false ->
  eat_ignoring_case p s = Some rest ->
  exists c, s = String c rest /\ lower_char c = lower_char p.
Proof.
  intros Hi Hs Hk. destruct s as [|c s]; [discriminate|].
  cbn [eat_ignoring_case].
  destruct (Ascii.eqb (lower_char c) (lower_char p)) eqn:Hc.
  - intros H. injection H as <-. apply Ascii.eqb_eq in Hc. now exists c.
  - rewrite Hi, Hs, Hk. cbn [andb]. destruct s; discriminate.
Qed.

Lemma lower_char_dot c : lower_char c = "."%char -> c = "."%char.
Proof.
  destruct c as [[] [] [] [] [] [] [] []]; cbn; intros H;
    first [reflexivity | discriminate H].
Qed.

Lemma lower_char_cases c p :
  lower_char c = lower_char p -> c = p \/ lower_char c <> c \/ lower_char p <> p.
Proof.
  intros H. destruct (Ascii.eqb_spec c p) as [->|Hne]; [now left|].
  right. destruct (Ascii.eqb_spec (lower_char c) c) as [Hc|Hc]; [|now left].
  right. intros Hp. apply Hne. congruence.
Qed.

(** With case ignored, [*.jpg] takes the names that end in a dot and the
    three letters in either case. *)
Lemma is_photo_nocase s :
  fnmatch_nocase "*.jpg" s = true <->
  exists a c1 c2 c3,
    s = (a ++ String "." (String c1 (String c2 (String c3 ""))))%string /\
    lower_char c1 = "j"%char /\ lower_char c2 = "p"%char /\
    lower_char c3 = "g"%char.
Proof.
  rewrite fnmatch_nocase_star. split.
  - intros (a & b & -> & Hb).
    rewrite fnmatch_nocase_char_eq in Hb by reflexivity.
    destruct (eat_ignoring_case "." b) as [r0|] eqn:H0; [|discriminate].
    apply eat_plain in H0 as (c0 & -> & Hc0); try reflexivity.
    apply lower_char_dot in Hc0. subst c0.
    rewrite fnmatch_nocase_char_eq in Hb by reflexivity.
    destruct (eat_ignoring_case "j" r0) as [r1|] eqn:H1; [|discriminate].
    apply eat_plain in H1 as (c1 & -> & Hc1); try reflexivity.
    rewrite fnmatch_nocase_char_eq in Hb by reflexivity.
    destruct (eat_ignoring_case "p" r1) as [r2|] eqn:H2; [|discriminate].
    apply eat_plain in H2 as (c2 & -> & Hc2); try reflexivity.
    rewrite fnmatch_nocase_char_eq in Hb by reflexivity.
    destruct (eat_ignoring_case "g" r2) as [r3|] eqn:H3; [|discriminate].
    apply eat_plain in H3 as (c3 & -> & Hc3); try reflexivity.
    cbn [fnmatch_nocase] in Hb. apply String.eqb_eq in Hb. subst r3.
    now exists a, c1, c2, c3.
  - intros (a & c1 & c2 & c3 & -> & H1 & H2 & H3).
    exists a, (String "." (String c1 (String c2 (String c3 "")))).
    split; [reflexivity|].
    rewrite fnmatch_nocase_char_eq by reflexivity.
    rewrite eat_same_case by reflexivity.
    rewrite fnmatch_nocase_char_eq by reflexivity.
    rewrite eat_same_case by exact H1.
    rewrite fnmatch_nocase_char_eq by reflexivity.
    rewrite eat_same_case by exact H2.
    rewrite fnmatch_nocase_char_eq by reflexivity.
    rewrite eat_same_case by exact H3.
    reflexivity.
Qed.

Lemma lower_char_not_dot c p :
  lower_char c = p -> p <> "."%char -> c <> "."%char.
Proof. intros H Hp ->. apply Hp. rewrite <- H. reflexivity. Qed.

(** A name that [*.jpg] takes, in either way of matching, has not the
    suffix [.json]. *)
Lemma photo_match_suffix ignore_case name :
  name_matches ignore_case "*.jpg" name = true -> path_suffix name <> ".json".
Proof.
  assert (Hnocase : fnmatch_nocase "*.jpg" name = true ->
                    path_suffix name <> ".json").
  { intros H. apply is_photo_nocase in H as (a & c1 & c2 & c3 & -> & H1 & H2 & H3).
    assert (Hd1 : Ascii.eqb c1 "." = false)
      by (apply Ascii.eqb_neq; apply (lower_char_not_dot _ _ H1); discriminate).
    assert (Hd2 : Ascii.eqb c2 "." = false)
      by (apply Ascii.eqb_neq; apply (lower_char_not_dot _ _ H2); discriminate).
    assert (Hd3 : Ascii.eqb c3 "." = false)
      by (apply Ascii.eqb_neq; apply (lower_char_not_dot _ _ H3); discriminate).
    destruct a as [|c a].
    - cbn [append]. unfold path_suffix. cbn [rfind_dot].
      rewrite Hd1, Hd2, Hd3. cbn. discriminate.
    - rewrite path_suffix_extension; try discriminate.
      cbn [rfind_dot]. rewrite Hd1, Hd2, Hd3. reflexivity. }
  destruct ignore_case; cbn [name_matches]; [exact Hnocase|].
  intros H. apply Hnocase. now apply fnmatch_nocase_exact.
Qed.

Lemma capture_name_listed ignore_case t :
  name_matches ignore_case "*.jpg" (capture_name t) = true.
Proof. apply name_matches_exact, capture_name_photo. Qed.

Lemma location_name_listed ignore_case t :
  name_matches ignore_case "location_*.json" (location_name t) = true.
Proof. apply name_matches_exact, location_name_location. Qed.

Lemma capture_name_not_record ignore_case t :
  name_matches ignore_case "location_*.json" (capture_name t) = false.
Proof. destruct ignore_case; reflexivity. Qed.

Lemma location_name_not_listed_photo ignore_case t :
  name_matches ignore_case "*.jpg" (location_name t) = false.
Proof.
  destruct ignore_case; cbn [name_matches]; [|apply location_name_not_photo].
  destruct (fnmatch_nocase "*.jpg" (location_name t)) eqn:H; [|reflexivity].
  apply is_photo_nocase in H as (a & c1 & c2 & c3 & H & H1 & H2 & H3).
  unfold location_name in H. rewrite <- append_assoc in H.
  change ".json" with ("." ++ "json")%string in H.
  rewrite <- append_assoc in H.
  apply append_same_length_inj in H as [_ H]; [|reflexivity].
  injection H as H _. discriminate.
Qed.

Lemma compare_append (a a' b b' : string) :
  String.length a = String.length a' ->
  String.compare (a ++ b) (a' ++ b') =
  match String.compare a a' with
  | Eq => String.compare b b'
  | c => c
  end.
Proof.
  revert a'. induction a as [|x a IH]; intros [|x' a'] H; try discriminate.
  - reflexivity.
  - cbn in *. destruct (Ascii.compare x x'); try reflexivity.
    apply IH. lia.
Qed.

Lemma compare_refl (a : string) : String.compare a a = Eq.
Proof.
  induction a as [|c a IH]; cbn; [reflexivity|].
  unfold Ascii.compare. now rewrite N.compare_refl.
Qed.

Lemma pad2_compare n m :
  n < 100 -> m < 100 -> String.compare (pad2 n) (pad2 m) = Nat.compare n m.
Proof.
  intros Hn Hm.
  assert (Hall : forallb (fun n => forallb (fun m =>
                   comparison_eqb (String.compare (pad2 n) (pad2 m))
                                  (Nat.compare n m)) (seq 0 100)) (seq 0 100)
                 = true) by (vm_compute; reflexivity).
  rewrite forallb_forall in Hall.
  assert (Hin : forall k, k < 100 -> In k (seq 0 100)).
  { intros k Hk. apply in_seq. lia. }
  specialize (Hall n (Hin n Hn)). rewrite forallb_forall in Hall.
  specialize (Hall m (Hin m Hm)).
  destruct (String.compare (pad2 n) (pad2 m)), (Nat.compare n m);
    reflexivity || discriminate.
Qed.

Lemma compare_div_mod n m :
  Nat.compare n m =
  match Nat.compare (n / 100) (m / 100) with
  | Eq => Nat.compare (n mod 100) (m mod 100)
  | c => c
  end.
Proof.
  pose proof (Nat.div_mod_eq n 100) as Hn.
  pose proof (Nat.div_mod_eq m 100) as Hm.
  pose proof (Nat.mod_upper_bound n 100 ltac:(lia)) as Hn'.
  pose proof (Nat.mod_upper_bound m 100 ltac:(lia)) as Hm'.
  destruct (Nat.compare_spec (n / 100) (m / 100)) as [Hq|Hq|Hq].
  - destruct (Nat.compare_spec (n mod 100) (m mod 100)) as [Hr|Hr|Hr].
    + apply Nat.compare_eq_iff. lia.
    + apply Nat.compare_lt_iff. lia.
    + apply Nat.compare_gt_iff. lia.
  - apply Nat.compare_lt_iff. lia.
  - apply Nat.compare_gt_iff. lia.
Qed.

Lemma pad4_compare n m :
  n < 100 * 100 -> m < 100 * 100 ->
  String.compare (pad4 n) (pad4 m) = Nat.compare n m.
Proof.
  intros Hn Hm. unfold pad4.
  rewrite compare_append by reflexivity.
  assert (n / 100 < 100) by (apply Nat.Div0.div_lt_upper_bound; lia).
  assert (m / 100 < 100) by (apply Nat.Div0.div_lt_upper_bound; lia).
  rewrite !pad2_compare; try assumption; try (apply Nat.mod_upper_bound; lia).
  symmetry. apply compare_div_mod.
Qed.

(** On valid timestamps the printed form orders as time does. *)
Lemma strftime_compare s t :
  valid_datetime s -> valid_datetime t ->
  String.compare (strftime s) (strftime t) = dt_compare s t.
Proof.
  intros (Hy & Hmo & Hd & Hh & Hmi & Hs) (Hy' & Hmo' & Hd' & Hh' & Hmi' & Hs').
  unfold strftime, dt_compare, dt_key. cbn [lex_compare].
  rewrite compare_append by reflexivity. rewrite pad4_compare by assumption.
  destruct (Nat.compare (year s) (year t)); try reflexivity.
  rewrite compare_append by reflexivity. rewrite pad2_compare by assumption.
  destruct (Nat.compare (month s) (month t)); try reflexivity.
  rewrite compare_append by reflexivity. rewrite pad2_compare by assumption.
  destruct (Nat.compare (day s) (day t)); try reflexivity.
  rewrite (compare_append "_" "_") by reflexivity.
  rewrite (compare_refl "_").
  rewrite compare_append by reflexivity. rewrite pad2_compare by assumption.
  destruct (Nat.compare (hour s) (hour t)); try reflexivity.
  rewrite compare_append by reflexivity. rewrite pad2_compare by assumption.
  destruct (Nat.compare (minute s) (minute t)); try reflexivity.
  rewrite pad2_compare by assumption.
  destruct (Nat.compare (second s) (second t)); reflexivity.
Qed.

Lemma capture_name_compare s t :
  valid_datetime s -> valid_datetime t ->
  String.compare (capture_name s) (capture_name t) = dt_compare s t.
Proof.
  intros Hs Ht. unfold capture_name.
  rewrite (compare_append "capture_" "capture_") by reflexivity.
  rewrite compare_refl.
  assert (Hlen : forall u, String.length (strftime u) = 15) by reflexivity.
  rewrite compare_append by now rewrite !Hlen.
  rewrite strftime_compare by assumption.
  destruct (dt_compare s t); reflexivity.
Qed.

Lemma location_name_compare s t :
  valid_datetime s -> valid_datetime t ->
  String.compare (location_name s) (location_name t) = dt_compare s t.
Proof.
  intros Hs Ht. unfold location_name.
  rewrite (compare_append "location_" "location_") by reflexivity.
  rewrite compare_refl.
  assert (Hlen : forall u, String.length (strftime u) = 15) by reflexivity.
  rewrite compare_append by now rewrite !Hlen.
  rewrite strftime_compare by assumption.
  destruct (dt_compare s t); reflexivity.
Qed.

Lemma capture_before_location s t :
  String.compare (capture_name s) (location_name t) = Lt.
Proof. reflexivity. Qed.

Lemma dt_lt_names_differ s t :
  valid_datetime s -> valid_datetime t -> dt_lt s t ->
  capture_name s <> capture_name t.
Proof.
  intros Hs Ht Hlt Heq.
  pose proof (capture_name_compare s t Hs Ht) as H.
  rewrite Heq, compare_refl in H. unfold dt_lt in Hlt. congruence.
Qed.

(* ================================================================= *)
(** ** The directory *)

Lemma dir_lookup_remove_same name d : dir_lookup name (dir_remove name d) = None.
Proof.
  unfold dir_remove. induction d as [|[n f] d IH]; cbn; [reflexivity|].
  destruct (String.eqb n name) eqn:H; cbn; [exact IH|]. now rewrite H.
Qed.

Lemma dir_lookup_remove_other name other d :
  other <> name -> dir_lookup other (dir_remove name d) = dir_lookup other d.
Proof.
  intros Hne. unfold dir_remove.
  induction d as [|[n f] d IH]; cbn; [reflexivity|].
  destruct (String.eqb_spec n name) as [->|Hn]; cbn.
  - destruct (String.eqb_spec name other) as [->|_]; [contradiction|exact IH].
  - now rewrite IH.
Qed.

Lemma dir_remove_absent name d :
  dir_lookup name d = None -> dir_remove name d = d.
Proof.
  unfold dir_remove. induction d as [|[n f] d IH]; cbn; [reflexivity|].
  destruct (String.eqb n name); cbn; [discriminate|].
  intros H. now rewrite IH.
Qed.

Lemma dir_lookup_In name d :
  In name (map fst d) <-> dir_lookup name d <> None.
Proof.
  induction d as [|[n f] d IH]; cbn; [tauto|].
  destruct (String.eqb_spec n name) as [->|Hn].
  - split; [discriminate|auto].
  - rewrite <- IH. tauto.
Qed.

(* ================================================================= *)
(** ** C8: [delete_file] *)

Lemma delete_file_run E name w :
  delete_file E name w =
  match dir_lookup name (fs w) with
  | Some _ =>
      (Ret tt,
       after E (EvRemove name)
         (mkWorld (dir_remove name (fs w)) (admin_id w) (trace w) (elapsed w)))
  | None => (Ret tt, w)
  end.
Proof.
  unfold delete_file, os_remove. run.
  destruct (dir_lookup name (fs w)); reflexivity.
Qed.

(** C8.  [delete_file] never raises.  On a name the store does not hold it
    changes nothing at all, so a second removal of the same name is a no-op;
    and whatever the name, every other entry of the store stays as it was,
    in its place. *)
Theorem C8_remove_idempotent :
  forall E name w,
    (exists w', delete_file E name w = (Ret tt, w') /\
                fs w' = dir_remove name (fs w) /\
                dir_lookup name (fs w') = None /\
                (forall other, other <> name ->
                   dir_lookup other (fs w') = dir_lookup other (fs w)) /\
                delete_file E name w' = (Ret tt, w')) /\
    (dir_lookup name (fs w) = None -> delete_file E name w = (Ret tt, w)).
Proof.
  intros E name w. rewrite delete_file_run. split.
  - destruct (dir_lookup name (fs w)) eqn:H.
    + eexists. split; [reflexivity|]. cbn [fs after].
      split; [reflexivity|]. split; [apply dir_lookup_remove_same|].
      split; [intros other Hne; now apply dir_lookup_remove_other|].
      rewrite delete_file_run. cbn [fs after].
      now rewrite dir_lookup_remove_same.
    + exists w. split; [reflexivity|]. split; [now rewrite dir_remove_absent|].
      split; [assumption|]. split; [reflexivity|].
      rewrite delete_file_run. now rewrite H.
  - intros ->. reflexivity.
Qed.

Lemma C8_witness :
  exists w1,
    delete_file offline "capture_20250115_100002.jpg" queued_photo
      = (Ret tt, w1) /\
    fs w1 = [] /\
    delete_file offline "capture_20250115_100002.jpg" w1 = (Ret tt, w1) /\
    delete_file offline "location_20250115_100006.json" queued_photo
      = (Ret tt, queued_photo).
Proof.
  destruct (C8_remove_idempotent offline "capture_20250115_100002.jpg"
              queued_photo)
    as ((w1 & Hrun & Hfs & _ & _ & Hagain) & _).
  exists w1. split; [exact Hrun|]. split; [rewrite Hfs; reflexivity|].
  split; [exact Hagain|].
  exact (proj2 (C8_remove_idempotent offline "location_20250115_100006.json"
                  queued_photo) eq_refl).
Defined.

(* ================================================================= *)
(** ** C7: the capture burst *)

Lemma capture_run E w :
  capture E None w =
  match camera E (length (trace w)) with
  | CamFrame frame =>
      let w1 := after E (EvCamera true) w in
      let name := capture_name (calendar E (elapsed w1)) in
      (Ret (Some name), written E name (Image frame) w1)
  | _ => (Ret None, after E (EvCamera false) w)
  end.
Proof.
  unfold capture, grab_frame, write_file, datetime_now. run.
  destruct (camera E (length (trace w))); reflexivity.
Qed.

Lemma count_app p (a b : list event) : count p (a ++ b) = count p a + count p b.
Proof. unfold count. now rewrite filter_app, length_app. Qed.

Lemma count_cons p ev (evs : list event) :
  count p (ev :: evs) = count p [ev] + count p evs.
Proof. apply (count_app p [ev] evs). Qed.

(** What the loop adds to the trace, whatever the camera does. *)
Lemma capture_loop_events E n :
  forall captured w,
    exists captured' w' evs,
      capture_loop E n captured w = (Ret captured', w') /\
      trace w' = evs ++ trace w /\
      admin_id w' = admin_id w /\
      count is_attempt evs = n /\
      captured' = captured + count is_frame evs /\
      count is_photo_write evs = count is_frame evs /\
      count is_frame evs + count is_failure evs = n /\
      count is_location_write evs = 0 /\
      count is_ip_event evs = 0 /\
      elapsed w + CAPTURE_DELAY * n <= elapsed w'.
Proof.
  induction n as [|n IH]; intros captured w.
  - exists captured, w, []. cbn. repeat split; lia.
  - cbn [capture_loop]. unfold time_sleep. run. fold (slept E CAPTURE_DELAY w).
    rewrite capture_run.
    destruct (camera E (length (trace (slept E CAPTURE_DELAY w)))) eqn:Hcam.
    1-3: destruct (IH captured (after E (EvCamera false) (slept E CAPTURE_DELAY w)))
        as (c' & w' & evs & Hrun & Htr & Had & Hat & Hc & Hpw & Hsum & Hlw & Hip & Hel);
      exists c', w', (evs ++ [EvCamera false; EvSleep]);
      (split; [exact Hrun|]); rewrite !count_app;
      (split; [rewrite Htr, <- app_assoc; reflexivity|]);
      (split; [exact Had|]);
      cbn [count filter is_attempt is_frame is_failure is_photo_write
           is_location_write is_ip_event length] in *;
      cbn [elapsed after slept trace] in Hel;
      repeat split; lia.
    set (w1 := after E (EvCamera true) (slept E CAPTURE_DELAY w)).
    set (name := capture_name (calendar E (elapsed w1))).
    destruct (IH (captured + 1) (written E name (Image frame) w1))
      as (c' & w' & evs & Hrun & Htr & Had & Hat & Hc & Hpw & Hsum & Hlw & Hip & Hel).
    exists c', w', (evs ++ [EvWrite name; EvCamera true; EvSleep]).
    split; [exact Hrun|]. rewrite !count_app.
    split; [rewrite Htr, <- app_assoc; reflexivity|].
    split; [exact Had|].
    assert (Hp : is_photo_write (EvWrite name) = true)
      by apply capture_name_photo.
    assert (Hl : is_location_write (EvWrite name) = false)
      by apply capture_name_not_location.
    repeat match goal with
           | |- context [count ?p (?x :: ?l)] =>
               change (count p (x :: l)) with (length (filter p (x :: l)))
           end.
    cbn [filter]. rewrite Hp, Hl.
    cbn [filter is_attempt is_frame is_failure is_ip_event is_photo_write
         is_location_write length].
    cbn [elapsed after slept trace written w1] in Hel.
    repeat split; lia.
Qed.

Lemma dir_lookup_insert_other {i} name other f d :
  other <> name ->
  dir_lookup other (insert_at i (name, f) d) = dir_lookup other d.
Proof.
  intros Hne. revert d. induction i as [|i IH]; intros d.
  - destruct d; cbn; destruct (String.eqb_spec name other); congruence.
  - destruct d as [|[n g] d]; cbn.
    + destruct (String.eqb_spec name other); congruence.
    + now rewrite IH.
Qed.

Lemma dir_lookup_insert_same {i} name f d :
  dir_lookup name d = None ->
  dir_lookup name (insert_at i (name, f) d) = Some f.
Proof.
  revert d. induction i as [|i IH]; intros d H.
  - destruct d; cbn; now rewrite String.eqb_refl.
  - destruct d as [|[n g] d]; cbn in *.
    + now rewrite String.eqb_refl.
    + destruct (String.eqb n name); [discriminate|]. now apply IH.
Qed.

Lemma dir_lookup_replace name other f d :
  dir_lookup other (dir_replace name f d) =
  if String.eqb name other
  then match dir_lookup name d with Some _ => Some f | None => None end
  else dir_lookup other d.
Proof.
  induction d as [|[n g] d IH]; cbn.
  - now destruct (String.eqb name other).
  - destruct (String.eqb_spec n name) as [->|Hn]; cbn.
    + now destruct (String.eqb name other).
    + rewrite IH. destruct (String.eqb_spec name other) as [->|Ho].
      * destruct (String.eqb_spec n other); [contradiction|reflexivity].
      * reflexivity.
Qed.

Lemma dir_lookup_write slot name other f d :
  dir_lookup other (dir_write slot name f d) =
  if String.eqb name other then Some f else dir_lookup other d.
Proof.
  unfold dir_write. destruct (dir_lookup name d) eqn:H.
  - rewrite dir_lookup_replace, H. reflexivity.
  - destruct (String.eqb_spec name other) as [<-|Hne].
    + now apply dir_lookup_insert_same.
    + apply dir_lookup_insert_other. congruence.
Qed.

Lemma filter_insert_at {A} (p : A -> bool) i x (l : list A) :
  length (filter p (insert_at i x l)) =
  length (filter p l) + (if p x then 1 else 0).
Proof.
  revert l. induction i as [|i IH]; intros l.
  - destruct l; cbn; destruct (p x); cbn; lia.
  - destruct l as [|y l]; cbn.
    + destruct (p x); cbn; lia.
    + destruct (p y); cbn; rewrite IH; lia.
Qed.

Lemma length_insert_at {A} i (x : A) l :
  length (insert_at i x l) = S (length l).
Proof.
  revert l. induction i as [|i IH]; intros [|y l]; cbn; try reflexivity.
  now rewrite IH.
Qed.

Lemma map_fst_insert_at {A B} i (x : A * B) l :
  map fst (insert_at i x l) = insert_at i (fst x) (map fst l).
Proof.
  revert l. induction i as [|i IH]; intros [|y l]; cbn; try reflexivity.
  now rewrite IH.
Qed.

Lemma glob_write_fresh slot ic pat name f d :
  dir_lookup name d = None ->
  length (glob ic pat (dir_write slot name f d)) =
  length (glob ic pat d) + (if name_matches ic pat name then 1 else 0).
Proof.
  intros H. unfold dir_write, glob. rewrite H.
  now rewrite map_fst_insert_at, filter_insert_at.
Qed.

Lemma capture_loop_step E n captured w :
  capture_loop E (S n) captured w =
  match camera E (length (trace (slept E CAPTURE_DELAY w))) with
  | CamFrame frame =>
      let w1 := after E (EvCamera true) (slept E CAPTURE_DELAY w) in
      capture_loop E n (captured + 1)
        (written E (capture_name (calendar E (elapsed w1))) (Image frame) w1)
  | _ =>
      capture_loop E n captured
        (after E (EvCamera false) (slept E CAPTURE_DELAY w))
  end.
Proof.
  cbn [capture_loop]. unfold time_sleep. run. fold (slept E CAPTURE_DELAY w).
  rewrite capture_run.
  destruct (camera E (length (trace (slept E CAPTURE_DELAY w)))); reflexivity.
Qed.

(** The loop writes under capture names only. *)
Lemma capture_loop_other_names E n :
  forall captured w captured' w',
    capture_loop E n captured w = (Ret captured', w') ->
    forall name, fnmatch "*.jpg" name = false ->
      dir_lookup name (fs w') = dir_lookup name (fs w).
Proof.
  induction n as [|n IH]; intros c w c' w' Hrun name Hname.
  - cbn in Hrun. injection Hrun as _ <-. reflexivity.
  - rewrite capture_loop_step in Hrun.
    destruct (camera E (length (trace (slept E CAPTURE_DELAY w))));
      try (rewrite (IH _ _ _ _ Hrun name Hname); reflexivity).
    cbv zeta in Hrun. rewrite (IH _ _ _ _ Hrun name Hname).
    cbn [fs written after slept]. rewrite dir_lookup_write.
    destruct (String.eqb_spec
                (capture_name (calendar E (elapsed
                   (after E (EvCamera true) (slept E CAPTURE_DELAY w))))) name)
      as [Heq|_]; [|reflexivity].
    rewrite <- Heq, capture_name_photo in Hname. discriminate.
Qed.

(** Under a clock that moves forward, every frame is one more photo in the
    store, and the location records are as they were. *)
Lemma capture_loop_store E hi n :
  forall captured w captured' w',
    capture_loop E n captured w = (Ret captured', w') ->
    elapsed w' <= hi ->
    clock_ok E (elapsed w) hi ->
    (forall i, elapsed w < i -> i <= hi ->
       dir_lookup (capture_name (calendar E i)) (fs w) = None) ->
    length (glob (ignore_case E) "*.jpg" (fs w')) + captured
      = length (glob (ignore_case E) "*.jpg" (fs w)) + captured' /\
    length (glob (ignore_case E) "location_*.json" (fs w'))
      = length (glob (ignore_case E) "location_*.json" (fs w)).
Proof.
  induction n as [|n IH]; intros c w c' w' Hrun Hhi Hclock Hfresh.
  - cbn in Hrun. injection Hrun as <- <-. split; reflexivity.
  - rewrite capture_loop_step in Hrun.
    destruct (camera E (length (trace (slept E CAPTURE_DELAY w)))) eqn:Hcam.
    1-3: (destruct (capture_loop_events E n c
                      (after E (EvCamera false) (slept E CAPTURE_DELAY w)))
           as (c0 & w0 & evs & Hrun0 & _ & _ & _ & _ & _ & _ & _ & _ & Hel);
          rewrite Hrun in Hrun0; injection Hrun0 as <- <-;
          cbn [elapsed after slept trace] in Hel;
          apply (IH _ _ _ _ Hrun Hhi);
          [intros i j Hi Hj Hjh; apply Hclock;
           cbn [elapsed after slept] in Hi; lia
          |intros i Hi Hih; cbn [fs after slept];
           apply Hfresh; cbn [elapsed after slept] in Hi; lia]).
    cbv zeta in Hrun.
    set (w1 := after E (EvCamera true) (slept E CAPTURE_DELAY w)) in *.
    set (name := capture_name (calendar E (elapsed w1))) in *.
    destruct (capture_loop_events E n (c + 1) (written E name (Image frame) w1))
      as (c0 & w0 & evs & Hrun0 & _ & _ & _ & _ & _ & _ & _ & _ & Hel).
    rewrite Hrun in Hrun0. injection Hrun0 as <- <-.
    assert (Ht : elapsed w < elapsed w1)
      by (cbn [elapsed after slept w1]; unfold CAPTURE_DELAY; lia).
    assert (Ht1 : elapsed w1 <= elapsed (written E name (Image frame) w1))
      by (cbn [elapsed after written]; lia).
    assert (Hnew : dir_lookup name (fs w) = None)
      by (apply Hfresh; lia).
    destruct (IH _ _ _ _ Hrun Hhi) as [Hphotos Hlocs].
    + intros i j Hi Hj Hjh. apply Hclock; lia.
    + intros i Hi Hih. cbn [fs written after]. rewrite dir_lookup_write.
      destruct (String.eqb_spec name (capture_name (calendar E i))) as [Heq|_].
      * exfalso. destruct (Hclock (elapsed w1) i) as (Hv1 & Hv2 & Hlt); try lia.
        exact (dt_lt_names_differ _ _ Hv1 Hv2 Hlt Heq).
      * apply Hfresh; lia.
    + cbn [fs written after] in Hphotos, Hlocs.
      change (fs w1) with (fs w) in Hphotos, Hlocs.
      rewrite glob_write_fresh in Hphotos, Hlocs by exact Hnew.
      unfold name in Hphotos, Hlocs.
      rewrite capture_name_listed in Hphotos.
      rewrite capture_name_not_record in Hlocs. lia.
Qed.

(** One resolution: the store and the registration are not touched, the
    clock does not go back, the sensor and the IP lookup are each asked
    once and nothing is written. *)
Lemma get_location_frame E w r w' :
  get_location E w = (Ret r, w') ->
  fs w' = fs w /\ admin_id w' = admin_id w /\ elapsed w <= elapsed w' /\
  exists evs,
    trace w' = evs ++ trace w /\
    count is_ip_event evs = 1 /\ count is_sensor_event evs = 1 /\
    count is_write evs = 0.
Proof.
  intros H.
  destruct (get_location_run E w) as (p & w2 & (win & Hwin & Hcase & _) & Hrun).
  rewrite Hrun in H. injection H as _ <-.
  destruct Hcase as [(_ & _ & ->)|(_ & Hwifi)].
  - cbn [fs admin_id elapsed after]. repeat split; try lia.
    exists [EvIpApi; EvPowershell]. repeat split.
  - destruct (get_wifi_location_run E (after E EvPowershell w))
      as (r0 & w0 & Hrun0 & Hw & _).
    rewrite Hwifi in Hrun0. injection Hrun0 as _ <-.
    destruct Hw as [->|(payload & ->)];
      cbn [fs admin_id elapsed after]; repeat split; try lia.
    + exists [EvIpApi; EvNetsh; EvPowershell]. repeat split.
    + exists [EvIpApi; EvGeolocate payload; EvNetsh; EvPowershell].
      repeat split.
Qed.

Lemma get_location_nonempty E w r w' d :
  get_location E w = (Ret r, w') -> r = Some d -> some_nonempty r = true.
Proof.
  intros H ->.
  destruct (get_location_run E w) as (p & w2 & (win & _ & _ & Hshape) & Hrun).
  rewrite Hrun in H. injection H as H _.
  destruct Hshape as [->|(d0 & src & -> & lat & lon & acc & ->)];
    destruct (ip_success _); cbn in H; try discriminate;
    injection H as <-; reflexivity.
Qed.

Lemma startup_capture_run E w :
  exists captured w1 location w2,
    capture_loop E STARTUP_CAPTURES 0 w = (Ret captured, w1) /\
    get_location E w1 = (Ret location, w2) /\
    startup_capture E w =
      match location with
      | Some doc =>
          let name := location_name (calendar E (elapsed w2)) in
          if encodes E (PDict doc)
          then (Ret captured, written E name (Json (PDict doc)) w2)
          else (Raise ValueError, written E name Garbage w2)
      | None => (Ret captured, w2)
      end.
Proof.
  destruct (capture_loop_events E STARTUP_CAPTURES 0 w)
    as (c & w1 & evs & Hloop & _).
  destruct (get_location_run E w1) as (p & w2' & _ & Hloc).
  set (loc := enrich p (ip_success (ip_api E (length (trace w2'))))) in *.
  set (w2 := after E EvIpApi w2') in *.
  exists c, w1, loc, w2. split; [exact Hloop|]. split; [exact Hloc|].
  unfold startup_capture. unfold bind at 1. rewrite Hloop.
  unfold bind at 1. rewrite Hloc.
  destruct loc as [doc|].
  - rewrite (get_location_nonempty _ _ _ _ doc Hloc eq_refl).
    unfold json_dump, write_file, datetime_now. run.
    destruct (encodes E (PDict doc)); reflexivity.
  - reflexivity.
Qed.

Lemma written_events E name f w :
  trace (written E name f w) = [EvWrite name] ++ trace w.
Proof. reflexivity. Qed.

Lemma sample_clock_ok E hi :
  calendar E = sample_calendar -> hi <= 59 -> clock_ok E 0 hi.
Proof.
  intros HE Hhi i j _ Hij Hj. rewrite HE. unfold sample_calendar.
  assert (Hi60 : i / 60 = 0) by (apply Nat.div_small; lia).
  assert (Hj60 : j / 60 = 0) by (apply Nat.div_small; lia).
  assert (Him : i mod 60 = i) by (apply Nat.mod_small; lia).
  assert (Hjm : j mod 60 = j) by (apply Nat.mod_small; lia).
  rewrite Hi60, Hj60, Him, Hjm.
  split; [|split].
  - unfold valid_datetime; cbn [year month day hour minute second].
    repeat split; lia.
  - unfold valid_datetime; cbn [year month day hour minute second].
    repeat split; lia.
  - unfold dt_lt, dt_compare, dt_key, lex_compare.
    cbn [year month day hour minute second].
    rewrite !Nat.compare_refl.
    apply Nat.compare_lt_iff in Hij. now rewrite Hij.
Qed.

(* ================================================================= *)
(** ** C7: the record of a burst that cannot be written *)

(** C7.  The burst breaks the claim where the resolver returns a record
    whose text the default encoding does not hold: all three photos are
    stored and the resolver returned a record with its city, but the write
    raises, the burst ends with that exception, and the file it leaves
    holds no record; no file of the store does. *)
Theorem C7_unwritable_record :
  exists w1 doc w2 w',
    capture_loop lodz_lookup STARTUP_CAPTURES 0 empty_world = (Ret 3, w1) /\
    get_location lodz_lookup w1 = (Ret (Some doc), w2) /\
    dict_lookup "city" doc = Some (PStr "Łódź") /\
    dict_lookup "lat" doc = Some (PNum (Finite (207 # 4))) /\
    startup_capture lodz_lookup empty_world = (Raise ValueError, w') /\
    map fst (fs w') =
      ["location_20250115_100006.json"; "capture_20250115_100006.jpg";
       "capture_20250115_100004.jpg"; "capture_20250115_100002.jpg"] /\
    dir_lookup "location_20250115_100006.json" (fs w') = Some Garbage /\
    existsb (fun entry => match snd entry with Json _ => true | _ => false end)
            (fs w') = false.
Proof.
  do 4 eexists. split; [vm_compute; reflexivity|].
  split; [vm_compute; reflexivity|]. split; [vm_compute; reflexivity|].
  split; [vm_compute; reflexivity|]. split; [vm_compute; reflexivity|].
  split; [vm_compute; reflexivity|]. split; vm_compute; reflexivity.
Qed.

(* ================================================================= *)
(** ** C2: the IP fallback with zero coordinates *)

Lemma startup_capture_stores E w captured w1 record w2 :
  capture_loop E STARTUP_CAPTURES 0 w = (Ret captured, w1) ->
  get_location E w1 = (Ret (Some record), w2) ->
  encodes E (PDict record) = true ->
  let name := location_name (calendar E (elapsed w2)) in
  startup_capture E w
    = (Ret captured, written E name (Json (PDict record)) w2) /\
  dir_lookup name (fs (written E name (Json (PDict record)) w2))
    = Some (Json (PDict record)).
Proof.
  intros Hloop Hloc Henc name.
  destruct (startup_capture_run E w) as (c & w1' & loc & w2' & Hloop' & Hloc' & Hrun).
  rewrite Hloop in Hloop'. injection Hloop' as <- <-.
  rewrite Hloc in Hloc'. injection Hloc' as <- <-.
  cbv zeta in Hrun. rewrite Henc in Hrun. split; [exact Hrun|].
  cbn [fs written after]. rewrite dir_lookup_write. now rewrite String.eqb_refl.
Qed.

(** The one file a burst writes once it has a record. *)
Lemma startup_capture_writes E w captured w1 record w2 :
  capture_loop E STARTUP_CAPTURES 0 w = (Ret captured, w1) ->
  get_location E w1 = (Ret (Some record), w2) ->
  new_events w2 (snd (startup_capture E w))
    = [EvWrite (location_name (calendar E (elapsed w2)))].
Proof.
  intros Hloop Hloc.
  destruct (startup_capture_run E w) as (c & w1' & loc & w2' & Hloop' & Hloc' & Hrun).
  rewrite Hloop in Hloop'. injection Hloop' as <- <-.
  rewrite Hloc in Hloc'. injection Hloc' as <- <-.
  rewrite Hrun. cbv zeta.
  destruct (encodes E (PDict record)); cbn [snd];
    apply new_events_app, written_events.
Qed.

Lemma glob_In ic pat name d :
  In name (glob ic pat d) <->
  In name (map fst d) /\ name_matches ic pat name = true.
Proof. unfold glob. apply filter_In. Qed.

(** C2 (as amended).  When both precise strategies fail and the IP lookup
    succeeds reporting [lat = 0] and [lon = 0], the record the resolver
    produces has the IP approximation as its source and those two zeros as
    its [lat] and [lon]; and whenever the text of the record can be written
    in the default encoding, the burst stores it unchanged, as a pending
    location file. *)
Theorem C2_zero_fallback_stored :
  forall E w captured w1 w2 data,
    capture_loop E STARTUP_CAPTURES 0 w = (Ret captured, w1) ->
    precise_phase E w1 None w2 ->
    ip_success (ip_api E (length (trace w2))) = Some data ->
    dict_lookup "lat" data = Some (PNum (num_of_Z 0)) ->
    dict_lookup "lon" data = Some (PNum (num_of_Z 0)) ->
    exists record w3,
      get_location E w1 = (Ret (Some record), w3) /\
      dict_lookup "source" record = Some (PStr approximate) /\
      dict_lookup "lat" record = Some (PNum (num_of_Z 0)) /\
      dict_lookup "lon" record = Some (PNum (num_of_Z 0)) /\
      dict_lookup "city" record = Some (dict_get "city" unknown data) /\
      (encodes E (PDict record) = true ->
       exists name w',
         startup_capture E w = (Ret captured, w') /\
         fnmatch "location_*.json" name = true /\
         dir_lookup name (fs w') = Some (Json (PDict record)) /\
         In name (glob (ignore_case E) "location_*.json" (fs w'))).
Proof.
  intros E w captured w1 w2 data Hloop Hphase Hip Hlat Hlon.
  destruct (get_location_run E w1) as (p & w2' & Hphase' & Hrun).
  destruct (precise_phase_fun _ _ _ _ _ _ Hphase' Hphase) as [-> ->].
  rewrite Hip in Hrun. cbn [enrich] in Hrun.
  eexists; eexists. split; [exact Hrun|].
  split; [unfold dict_get; rewrite Hlat, Hlon; reflexivity|].
  split; [unfold dict_get; rewrite Hlat, Hlon; reflexivity|].
  split; [unfold dict_get; rewrite Hlat, Hlon; reflexivity|].
  split; [unfold dict_get; rewrite Hlat, Hlon; reflexivity|]. intros Henc.
  destruct (startup_capture_stores _ _ _ _ _ _ Hloop Hrun Henc) as [Hstart Hfile].
  eexists; eexists. split; [exact Hstart|].
  split; [apply location_name_location|]. split; [exact Hfile|].
  apply glob_In. split; [|apply location_name_listed].
  apply dir_lookup_In. rewrite Hfile. discriminate.
Qed.

(** C2 fails as stated: with the sensor and the Wi-Fi scan failing and the
    IP lookup answering Paris at (0, 0), the stored record holds the pair
    (0, 0) under [lat] and [lon]. *)
Lemma C2_counterexample :
  exists name record,
    dir_lookup name (fs (snd (startup_capture paris_lookup empty_world)))
      = Some (Json (PDict record)) /\
    dict_lookup "source" record = Some (PStr approximate) /\
    dict_lookup "city" record = Some (PStr "Paris") /\
    dict_lookup "lat" record = Some (PNum (num_of_Z 0)) /\
    dict_lookup "lon" record = Some (PNum (num_of_Z 0)).
Proof.
  exists "location_20250115_100006.json". eexists.
  split; [vm_compute; reflexivity|]. repeat split.
Qed.

Lemma C2_witness :
  exists record name w',
    startup_capture paris_lookup empty_world = (Ret 0, w') /\
    dir_lookup name (fs w') = Some (Json (PDict record)) /\
    dict_lookup "source" record = Some (PStr approximate) /\
    dict_lookup "lat" record = Some (PNum (num_of_Z 0)) /\
    dict_lookup "lon" record = Some (PNum (num_of_Z 0)) /\
    dict_lookup "city" record = Some (PStr "Paris").
Proof.
  assert (Hloop : exists w1,
             capture_loop paris_lookup STARTUP_CAPTURES 0 empty_world
             = (Ret 0, w1)).
  { eexists. vm_compute. reflexivity. }
  destruct Hloop as (w1 & Hloop).
  destruct (C2_zero_fallback_stored paris_lookup empty_world 0 w1 _
              [("status", PStr "success"); ("city", PStr "Paris");
               ("lat", PNum (num_of_Z 0)); ("lon", PNum (num_of_Z 0))]
              Hloop
              (offline_precise_phase paris_lookup w1
                 (fun _ => eq_refl) (fun _ => eq_refl))
              eq_refl eq_refl eq_refl)
    as (record & w3 & _ & Hsource & Hlat & Hlon & Hcity & Hstored).
  destruct (Hstored eq_refl) as (name & w' & Hrun & _ & Hfile & _).
  exists record, name, w'. repeat split; assumption.
Defined.

(* ================================================================= *)
(** ** C3: the order of [get_pending_files] *)

(** C3 (as amended).  [get_pending_files] changes nothing and its result
    depends on the directory only: the entries that [*.jpg] takes, then
    those that [location_*.json] takes, each group in the order the
    directory enumerates it; the list is not sorted by creation time.  A
    capture persists its frame as one file named after the second it was
    taken, and a burst persists a record it can write as one file named
    after the second it was resolved, each leaving every other file as it
    was.  So, under a wall clock that moves forward, of two photos the
    later has the greater name, and so it is of two records; but a photo
    has a smaller name than any record. *)
Theorem C3_listing_order :
  (forall E w,
      let photos := filter (name_matches (ignore_case E) "*.jpg")
                           (map fst (fs w)) in
      let locations := filter (name_matches (ignore_case E) "location_*.json")
                              (map fst (fs w)) in
      get_pending_files E w = (Ret (photos ++ locations), w) /\
      (ignore_case E = false ->
       (forall name, In name photos <->
          In name (map fst (fs w)) /\ exists a, name = (a ++ ".jpg")%string) /\
       (forall name, In name locations <->
          In name (map fst (fs w)) /\
          exists a, name = ("location_" ++ a ++ ".json")%string)) /\
      (ignore_case E = true ->
       forall name, In name photos <->
         In name (map fst (fs w)) /\
         exists a c1 c2 c3,
           name = (a ++ String "." (String c1 (String c2 (String c3 ""))))%string /\
           lower_char c1 = "j"%char /\ lower_char c2 = "p"%char /\
           lower_char c3 = "g"%char)) /\
  (forall E w name w',
      capture E None w = (Ret (Some name), w') ->
      name = capture_name (calendar E (elapsed (after E (EvCamera true) w))) /\
      (exists frame,
          camera E (length (trace w)) = CamFrame frame /\
          dir_lookup name (fs w') = Some (Image frame)) /\
      (dir_lookup name (fs w) = None -> length (fs w') = S (length (fs w))) /\
      (forall other, other <> name ->
         dir_lookup other (fs w') = dir_lookup other (fs w))) /\
  (forall E w captured w1 doc w2,
      capture_loop E STARTUP_CAPTURES 0 w = (Ret captured, w1) ->
      get_location E w1 = (Ret (Some doc), w2) ->
      encodes E (PDict doc) = true ->
      exists w',
        startup_capture E w = (Ret captured, w') /\
        let name := location_name (calendar E (elapsed w2)) in
        dir_lookup name (fs w') = Some (Json (PDict doc)) /\
        (dir_lookup name (fs w1) = None -> length (fs w') = S (length (fs w1))) /\
        (forall other, other <> name ->
           dir_lookup other (fs w') = dir_lookup other (fs w1))) /\
  (forall E w1 n1 v1 w2 n2 v2,
      capture E None w1 = (Ret (Some n1), v1) ->
      capture E None w2 = (Ret (Some n2), v2) ->
      let t1 := elapsed (after E (EvCamera true) w1) in
      let t2 := elapsed (after E (EvCamera true) w2) in
      t1 < t2 -> clock_ok E t1 t2 ->
      String.compare n1 n2 = Lt) /\
  (forall E wa ca va da va2 wb cb vb db vb2,
      capture_loop E STARTUP_CAPTURES 0 wa = (Ret ca, va) ->
      get_location E va = (Ret (Some da), va2) ->
      capture_loop E STARTUP_CAPTURES 0 wb = (Ret cb, vb) ->
      get_location E vb = (Ret (Some db), vb2) ->
      elapsed va2 < elapsed vb2 ->
      clock_ok E (elapsed va2) (elapsed vb2) ->
      exists na nb,
        new_events va2 (snd (startup_capture E wa)) = [EvWrite na] /\
        new_events vb2 (snd (startup_capture E wb)) = [EvWrite nb] /\
        String.compare na nb = Lt) /\
  (forall E w name w' v captured v1 doc v2,
      capture E None w = (Ret (Some name), w') ->
      capture_loop E STARTUP_CAPTURES 0 v = (Ret captured, v1) ->
      get_location E v1 = (Ret (Some doc), v2) ->
      exists record_name,
        new_events v2 (snd (startup_capture E v)) = [EvWrite record_name] /\
        String.compare name record_name = Lt).
Proof.
  assert (Hcap : forall E w name w',
             capture E None w = (Ret (Some name), w') ->
             exists frame,
               camera E (length (trace w)) = CamFrame frame /\
               name = capture_name
                        (calendar E (elapsed (after E (EvCamera true) w))) /\
               w' = written E name (Image frame) (after E (EvCamera true) w)).
  { intros E w name w' H. rewrite capture_run in H.
    destruct (camera E (length (trace w))) as [e| | |frame]; try discriminate.
    cbv zeta in H. injection H as <- <-. now exists frame. }
  split; [|split; [|split; [|split; [|split]]]].
  - intros E w. cbv zeta. split; [reflexivity|]. split.
    + intros Hcase. split; intros name; rewrite filter_In, Hcase;
        cbn [name_matches].
      * now rewrite is_photo_iff.
      * now rewrite is_location_iff.
    + intros Hcase name. rewrite filter_In, Hcase. cbn [name_matches].
      now rewrite is_photo_nocase.
  - intros E w name w' H.
    destruct (Hcap _ _ _ _ H) as (frame & Hcam & Hname & ->).
    split; [exact Hname|]. cbn [fs written after]. split; [|split].
    + exists frame. split; [exact Hcam|].
      rewrite dir_lookup_write. now rewrite String.eqb_refl.
    + intros Hnew. unfold dir_write. rewrite Hnew. apply length_insert_at.
    + intros other Hne. rewrite dir_lookup_write.
      destruct (String.eqb_spec name other); congruence.
  - intros E w captured w1 doc w2 Hloop Hloc Henc.
    destruct (startup_capture_stores _ _ _ _ _ _ Hloop Hloc Henc)
      as [Hrun Hfile].
    destruct (get_location_frame _ _ _ _ Hloc) as (Hfs & _).
    eexists. split; [exact Hrun|]. cbv zeta. split; [exact Hfile|].
    cbn [fs written after]. rewrite Hfs. split.
    + intros Hnew. unfold dir_write. rewrite Hnew. apply length_insert_at.
    + intros other Hne. rewrite dir_lookup_write.
      destruct (String.eqb_spec (location_name (calendar E (elapsed w2))) other);
        congruence.
  - intros E w1 n1 v1 w2 n2 v2 H1 H2 t1 t2 Hlt Hclock.
    destruct (Hcap _ _ _ _ H1) as (_ & _ & -> & _).
    destruct (Hcap _ _ _ _ H2) as (_ & _ & -> & _).
    destruct (Hclock t1 t2) as (Hv1 & Hv2 & Hdt); try lia.
    rewrite capture_name_compare by assumption. exact Hdt.
  - intros E wa ca va da va2 wb cb vb db vb2 Hla Hga Hlb Hgb Hlt Hclock.
    eexists; eexists.
    split; [exact (startup_capture_writes _ _ _ _ _ _ Hla Hga)|].
    split; [exact (startup_capture_writes _ _ _ _ _ _ Hlb Hgb)|].
    destruct (Hclock (elapsed va2) (elapsed vb2)) as (Hv1 & Hv2 & Hdt); try lia.
    rewrite location_name_compare by assumption. exact Hdt.
  - intros E w name w' v captured v1 doc v2 H Hloop Hloc.
    destruct (Hcap _ _ _ _ H) as (_ & _ & -> & _).
    eexists. split; [exact (startup_capture_writes _ _ _ _ _ _ Hloop Hloc)|].
    apply capture_before_location.
Qed.

(** C3 fails as stated.  After a burst that stored a location record and a
    later one that stored photos too, the oldest artifact is the first
    location record, yet the list starts with a photo, in whatever order
    the directory enumerates its entries; and the name of that older
    record orders after the names of the newer photos. *)
Lemma C3_counterexample :
  created two_bursts =
    ["location_20250115_100006.json"; "capture_20250115_100008.jpg";
     "capture_20250115_100010.jpg"; "capture_20250115_100012.jpg";
     "location_20250115_100012.json"] /\
  listed (fs two_bursts) =
    Ret ["capture_20250115_100012.jpg"; "capture_20250115_100010.jpg";
         "capture_20250115_100008.jpg"; "location_20250115_100012.json";
         "location_20250115_100006.json"] /\
  (forall d, Permutation d (fs two_bursts) ->
     exists first others,
       listed d = Ret (first :: others) /\
       first <> "location_20250115_100006.json") /\
  String.compare "capture_20250115_100008.jpg" "location_20250115_100006.json"
    = Lt.
Proof.
  split; [vm_compute; reflexivity|]. split; [vm_compute; reflexivity|].
  split; [|reflexivity].
  intros d Hperm. unfold listed, get_pending_files. cbn [fst fs].
  assert (Hin : In "capture_20250115_100008.jpg"
                  (glob (ignore_case offline) "*.jpg" d)).
  { apply glob_In. split; [|reflexivity].
    apply (Permutation_in _ (Permutation_map fst (Permutation_sym Hperm))).
    vm_compute. tauto. }
  destruct (glob (ignore_case offline) "*.jpg" d) as [|first others] eqn:Hg;
    [contradiction|].
  exists first, (others ++ glob (ignore_case offline) "location_*.json" d).
  split; [reflexivity|].
  intros ->.
  assert (Hf : In "location_20250115_100006.json"
                 (glob (ignore_case offline) "*.jpg" d))
    by (rewrite Hg; now left).
  apply glob_In in Hf as [_ Hf]. vm_compute in Hf. discriminate.
Qed.

Lemma C3_witness :
  fst (get_pending_files offline two_bursts) =
    Ret ["capture_20250115_100012.jpg"; "capture_20250115_100010.jpg";
         "capture_20250115_100008.jpg"; "location_20250115_100012.json";
         "location_20250115_100006.json"] /\
  (exists v1 v2,
      capture same_second None empty_world
        = (Ret (Some "capture_20250115_100002.jpg"), v1) /\
      dir_lookup "capture_20250115_100002.jpg" (fs v1) = Some (Image 0) /\
      capture one_failure None v1
        = (Ret (Some "capture_20250115_100000.jpg"), v2)) /\
  (exists na nb,
      In (EvWrite na) (trace (snd (startup_capture paris_lookup empty_world))) /\
      In (EvWrite nb) (trace (snd (startup_capture paris_lookup first_burst))) /\
      String.compare na nb = Lt).
Proof.
  destruct C3_listing_order as (Hlist & Hphoto & _ & _ & Hrecords & _).
  split; [|split].
  - destruct (Hlist offline two_bursts) as (Hrun & _).
    cbv zeta in Hrun. rewrite Hrun. vm_compute. reflexivity.
  - assert (H1 : capture same_second None empty_world
                 = (Ret (Some "capture_20250115_100002.jpg"),
                    snd (capture same_second None empty_world)))
      by (vm_compute; reflexivity).
    destruct (Hphoto _ _ _ _ H1) as (_ & (frame & Hcam & Hlook) & _).
    injection Hcam as <-.
    eexists; eexists. split; [exact H1|]. split; [exact Hlook|].
    vm_compute. reflexivity.
  - assert (Hla : exists va,
               capture_loop paris_lookup STARTUP_CAPTURES 0 empty_world
               = (Ret 0, va))
      by (eexists; vm_compute; reflexivity).
    destruct Hla as (va & Hla).
    assert (Hlb : exists vb,
               capture_loop paris_lookup STARTUP_CAPTURES 0 first_burst
               = (Ret 0, vb))
      by (eexists; vm_compute; reflexivity).
    destruct Hlb as (vb & Hlb).
    assert (Hga : exists da va2,
               get_location paris_lookup va = (Ret (Some da), va2) /\
               elapsed va2 = 6).
    { pose proof Hla as H. vm_compute in H. injection H as <-.
      eexists; eexists. split; vm_compute; reflexivity. }
    assert (Hgb : exists db vb2,
               get_location paris_lookup vb = (Ret (Some db), vb2) /\
               elapsed vb2 = 12).
    { pose proof Hlb as H. vm_compute in H. injection H as <-.
      eexists; eexists. split; vm_compute; reflexivity. }
    destruct Hga as (da & va2 & Hga & Hta).
    destruct Hgb as (db & vb2 & Hgb & Htb).
    destruct (Hrecords paris_lookup empty_world 0 va da va2
                first_burst 0 vb db vb2 Hla Hga Hlb Hgb)
      as (na & nb & Hna & Hnb & Hlt).
    + rewrite Hta, Htb. lia.
    + rewrite Hta, Htb. intros i j Hi Hij Hj.
      apply (sample_clock_ok paris_lookup 12 eq_refl ltac:(lia)); lia.
    + exists na, nb. split; [|split; [|exact Hlt]].
      * exact (new_events_single _ _ _ Hna).
      * exact (new_events_single _ _ _ Hnb).
Defined.

(* ================================================================= *)
(** ** Delivery of one artifact *)

Ltac crunch_world :=
  repeat (cbv beta iota zeta delta
            [bind ret raise try_except orelse ticks interact http
             response_json any_exception only_ValueError exn_eqb negb fst snd
             py_in py_getitem py_get json_load get_admin_id];
          cbn [fs admin_id trace elapsed after];
          try step).

Ltac solve_trace :=
  first [ exact (eq_refl : _ = [] ++ _)
        | exact (eq_refl : _ = [_] ++ _)
        | exact (eq_refl : _ = [_; _] ++ _)
        | exact (eq_refl : _ = [_; _; _] ++ _)
        | exact (eq_refl : _ = [_; _; _; _] ++ _) ].

(** Whatever the file and whatever the sink answers, delivering never
    raises; it only talks to the sink and removes at most that file. *)
Lemma deliver_frame E name w :
  exists w' evs,
    deliver E name w = (Ret tt, w') /\
    admin_id w' = admin_id w /\
    trace w' = evs ++ trace w /\
    forallb is_delivery_event evs = true /\
    (fs w' = fs w \/ fs w' = dir_remove name (fs w)) /\
    elapsed w <= elapsed w'.
Proof.
  unfold deliver, delete_file, os_remove, open_file, bot.
  crunch_world.
  all: eexists; eexists; (split; [reflexivity|]);
    cbn [fs admin_id trace elapsed after];
    (split; [reflexivity|]); (split; [solve_trace|]);
    (split; [reflexivity|]); (split; [|lia]);
    first [left; reflexivity | right; reflexivity].
Qed.

Lemma deliver_location_run E a info w :
  let name := record_name a in
  dir_lookup name (fs w) = Some (Json (PDict info)) ->
  deliver E name w =
  (Ret tt,
   let summary := summary_of (admin_id w) info in
   let coordinates := coordinates_of (admin_id w) info in
   if sink E (length (trace w)) summary then
     let w1 := after E (EvSink summary true) w in
     if has_fix info then
       if sink E (length (trace w1)) coordinates
       then removed E name (after E (EvSink coordinates true) w1)
       else after E (EvSink coordinates false) w1
     else removed E name w1
   else after E (EvSink summary false) w).
Proof.
  intros name H. subst name. unfold record_name in *. unfold deliver.
  rewrite path_suffix_location, contains_location.
  change (String.eqb ".json" ".jpg") with false.
  change (String.eqb ".json" ".json") with true.
  unfold delete_file, os_remove, open_file, bot, removed, has_fix,
    summary_of, coordinates_of, dict_get.
  repeat (cbv beta iota zeta delta
            [bind ret raise try_except orelse ticks interact
             any_exception negb andb fst snd dict_get
             py_getitem py_get json_load get_admin_id];
          cbn [fs admin_id trace elapsed after truthy];
          rewrite ?H;
          try step).
  all: reflexivity.
Qed.

Lemma deliver_photo_run E a f w :
  a <> "" ->
  let name := (a ++ ".jpg")%string in
  dir_lookup name (fs w) = Some f ->
  deliver E name w =
  (Ret tt,
   let call := SendPhoto (admin_id w) name f in
   if sink E (length (trace w)) call
   then removed E name (after E (EvSink call true) w)
   else after E (EvSink call false) w).
Proof.
  intros Ha name H. subst name. unfold deliver.
  rewrite (path_suffix_photo a Ha).
  change (String.eqb ".jpg" ".jpg") with true.
  unfold delete_file, os_remove, open_file, bot, removed.
  repeat (cbv beta iota zeta delta
            [bind ret raise try_except orelse ticks interact
             any_exception negb andb fst snd get_admin_id];
          cbn [fs admin_id trace elapsed after truthy];
          rewrite ?H;
          try step).
  all: reflexivity.
Qed.

(* ================================================================= *)
(** ** The drain *)

Lemma dir_remove_lookup_none name m d :
  dir_lookup m d = None -> dir_lookup m (dir_remove name d) = None.
Proof.
  intros H. destruct (String.eqb_spec m name) as [->|Hne].
  - apply dir_lookup_remove_same.
  - now rewrite dir_lookup_remove_other.
Qed.

Lemma for_each_deliver_frame E l :
  forall w,
    exists w' evs,
      for_each l (deliver E) w = (Ret tt, w') /\
      admin_id w' = admin_id w /\
      trace w' = evs ++ trace w /\
      forallb is_delivery_event evs = true /\
      (forall m, dir_lookup m (fs w) = None -> dir_lookup m (fs w') = None) /\
      (forall m, ~ In m l -> dir_lookup m (fs w') = dir_lookup m (fs w)) /\
      elapsed w <= elapsed w'.
Proof.
  induction l as [|name l IH]; intros w.
  - exists w, []. repeat split; auto.
  - destruct (deliver_frame E name w)
      as (w1 & evs1 & Hrun1 & Had1 & Htr1 & Hev1 & Hfs1 & Hel1).
    destruct (IH w1) as (w' & evs & Hrun & Had & Htr & Hev & Hnone & Hother & Hel).
    exists w', (evs ++ evs1). cbn [for_each]. unfold bind. rewrite Hrun1.
    split; [exact Hrun|]. split; [congruence|].
    split; [rewrite Htr, Htr1; apply app_assoc|].
    split; [rewrite forallb_app, Hev, Hev1; reflexivity|].
    split; [|split; [|lia]].
    + intros m Hm. apply Hnone.
      destruct Hfs1 as [->| ->]; [exact Hm|now apply dir_remove_lookup_none].
    + intros m Hm. rewrite Hother by (intros Hin; apply Hm; now right).
      destruct Hfs1 as [->| ->]; [reflexivity|].
      apply dir_lookup_remove_other. intros ->. apply Hm. now left.
Qed.

(** The loop reaches every listed file, with that file still as it was. *)
Lemma for_each_deliver_visits E name l :
  forall w,
    In name l ->
    exists w0 w1 w' before evs1 later,
      for_each l (deliver E) w = (Ret tt, w') /\
      deliver E name w0 = (Ret tt, w1) /\
      dir_lookup name (fs w0) = dir_lookup name (fs w) /\
      admin_id w0 = admin_id w /\
      trace w0 = before ++ trace w /\
      trace w1 = evs1 ++ trace w0 /\
      trace w' = later ++ trace w1 /\
      (dir_lookup name (fs w1) = None -> dir_lookup name (fs w') = None).
Proof.
  induction l as [|head l IH]; intros w Hin; [contradiction|].
  destruct (deliver_frame E head w)
    as (w1 & evs1 & Hrun1 & Had1 & Htr1 & Hev1 & Hfs1 & Hel1).
  destruct (String.eqb_spec head name) as [->|Hne].
  - destruct (for_each_deliver_frame E l w1)
      as (w' & evs & Hrun & Had & Htr & Hev & Hnone & Hother & Hel).
    exists w, w1, w', [], evs1, evs. cbn [for_each]. unfold bind. rewrite Hrun1.
    repeat split; auto.
  - destruct Hin as [Heq|Hin]; [contradiction|].
    destruct (IH w1 Hin)
      as (w0 & w2 & w' & before & evs2 & later & Hrun & Hdel & Hlook & Had
            & Htr0 & Htr2 & Htr & Hgone).
    exists w0, w2, w', (before ++ evs1), evs2, later.
    cbn [for_each]. unfold bind. rewrite Hrun1.
    split; [exact Hrun|]. split; [exact Hdel|].
    split.
    { rewrite Hlook. destruct Hfs1 as [->| ->]; [reflexivity|].
      apply dir_lookup_remove_other. congruence. }
    split; [congruence|].
    split; [rewrite Htr0, Htr1; apply app_assoc|].
    split; [exact Htr2|]. split; [exact Htr|exact Hgone].
Qed.

(** A file that no delivery of its own removes outlives the loop. *)
Lemma for_each_deliver_keeps E name f admin l :
  (forall w0, admin_id w0 = admin -> dir_lookup name (fs w0) = Some f ->
     dir_lookup name (fs (snd (deliver E name w0))) = Some f) ->
  forall w,
    admin_id w = admin -> dir_lookup name (fs w) = Some f ->
    dir_lookup name (fs (snd (for_each l (deliver E) w))) = Some f.
Proof.
  intros Hkeep. induction l as [|head l IH]; intros w Had Hlook; [exact Hlook|].
  destruct (deliver_frame E head w)
    as (w1 & evs1 & Hrun1 & Had1 & Htr1 & Hev1 & Hfs1 & Hel1).
  cbn [for_each]. unfold bind. rewrite Hrun1. apply IH; [congruence|].
  destruct (String.eqb_spec head name) as [->|Hne].
  - specialize (Hkeep w Had Hlook). now rewrite Hrun1 in Hkeep.
  - destruct Hfs1 as [->| ->]; [exact Hlook|].
    rewrite dir_lookup_remove_other by congruence. exact Hlook.
Qed.

Lemma send_pending_files_run E w :
  send_pending_files E w =
  if truthy (admin_id w)
  then for_each (glob (ignore_case E) "*.jpg" (fs w)
                   ++ glob (ignore_case E) "location_*.json" (fs w))
                (deliver E) w
  else (Ret tt, w).
Proof.
  unfold send_pending_files, get_admin_id, get_pending_files. run.
  destruct (truthy (admin_id w)); [|reflexivity].
  destruct (glob (ignore_case E) "*.jpg" (fs w)
              ++ glob (ignore_case E) "location_*.json" (fs w)); reflexivity.
Qed.

Lemma send_pending_files_frame E w :
  exists w' evs,
    send_pending_files E w = (Ret tt, w') /\
    admin_id w' = admin_id w /\
    trace w' = evs ++ trace w /\
    forallb is_delivery_event evs = true /\
    (forall m, dir_lookup m (fs w) = None -> dir_lookup m (fs w') = None) /\
    elapsed w <= elapsed w'.
Proof.
  rewrite send_pending_files_run. destruct (truthy (admin_id w)).
  - destruct (for_each_deliver_frame E
                (glob (ignore_case E) "*.jpg" (fs w)
                   ++ glob (ignore_case E) "location_*.json" (fs w)) w)
      as (w' & evs & Hrun & Had & Htr & Hev & Hnone & _ & Hel).
    exists w', evs. repeat split; assumption.
  - exists w, []. repeat split; auto.
Qed.

(* ================================================================= *)
(** ** C4: delivering a location record *)

Lemma record_listed ic a f d :
  dir_lookup (record_name a) d = Some f ->
  In (record_name a) (glob ic "*.jpg" d ++ glob ic "location_*.json" d).
Proof.
  intros H. apply in_or_app. right. apply glob_In. split.
  - apply dir_lookup_In. congruence.
  - apply name_matches_exact, is_location_iff. now exists a.
Qed.

(** C4.  Delivering a location record sends the summary first and the
    coordinates second, the latter only when the record has a fix.  The
    record is removed exactly when every call made succeeded; when the
    summary or the coordinates call fails, the store is left as it was.
    After a drain in which the summary went out and the coordinates call
    failed the record is still queued, and a later drain whose calls
    succeed sends the summary and then the coordinates again and removes
    the record. *)
Theorem C4_location_delivery :
  (forall E w a info,
      dir_lookup (record_name a) (fs w) = Some (Json (PDict info)) ->
      let summary := summary_of (admin_id w) info in
      let coordinates := coordinates_of (admin_id w) info in
      let k := length (trace w) in
      exists w',
        deliver E (record_name a) w = (Ret tt, w') /\
        new_events w w' =
          (if sink E k summary then
             if has_fix info then
               if sink E (S k) coordinates
               then [EvRemove (record_name a); EvSink coordinates true;
                     EvSink summary true]
               else [EvSink coordinates false; EvSink summary true]
             else [EvRemove (record_name a); EvSink summary true]
           else [EvSink summary false]) /\
        (dir_lookup (record_name a) (fs w') = None <->
         sink E k summary = true /\
         (has_fix info = true -> sink E (S k) coordinates = true)) /\
        (dir_lookup (record_name a) (fs w') <> None -> fs w' = fs w)) /\
  (forall E1 E2 w a info,
      truthy (admin_id w) = true ->
      dir_lookup (record_name a) (fs w) = Some (Json (PDict info)) ->
      has_fix info = true ->
      let summary := summary_of (admin_id w) info in
      let coordinates := coordinates_of (admin_id w) info in
      (forall k, sink E1 k summary = true) ->
      (forall k, sink E1 k coordinates = false) ->
      (forall k call, sink E2 k call = true) ->
      exists w1 w2,
        send_pending_files E1 w = (Ret tt, w1) /\
        send_pending_files E2 w1 = (Ret tt, w2) /\
        dir_lookup (record_name a) (fs w1) = Some (Json (PDict info)) /\
        (exists before later,
            new_events w w1 =
              later ++ [EvSink coordinates false; EvSink summary true]
                    ++ before) /\
        (exists before later,
            new_events w1 w2 =
              later ++ [EvRemove (record_name a); EvSink coordinates true;
                        EvSink summary true] ++ before) /\
        dir_lookup (record_name a) (fs w2) = None).
Proof.
  split.
  - intros E w a info Hfile summary coordinates k.
    pose proof (deliver_location_run E a info w Hfile) as Hrun.
    cbv zeta in Hrun. fold summary coordinates in Hrun.
    eexists. split; [exact Hrun|].
    change (length (trace (after E (EvSink summary true) w))) with (S k).
    fold k.
    destruct (sink E k summary); [destruct (has_fix info);
      [destruct (sink E (S k) coordinates)|]|].
    + split; [now apply new_events_app|].
      cbn [fs removed after]. rewrite dir_lookup_remove_same.
      split; [tauto|]. intros H. now elim H.
    + split; [now apply new_events_app|]. cbn [fs after]. rewrite Hfile.
      split; [|reflexivity].
      split; [discriminate|]. intros [_ H]. specialize (H eq_refl). discriminate.
    + split; [now apply new_events_app|].
      cbn [fs removed after]. rewrite dir_lookup_remove_same.
      split; [|intros H; now elim H].
      split; [intros _; split; [reflexivity|discriminate]|reflexivity].
    + split; [now apply new_events_app|]. cbn [fs after]. rewrite Hfile.
      split; [|reflexivity]. split; [discriminate|]. intros [H _]. discriminate.
  - intros E1 E2 w a info Hadmin Hfile Hfix summary coordinates Hs Hc Hall.
    destruct (send_pending_files_frame E1 w)
      as (w1 & evs1 & Hrun1 & Had1 & Htr1 & _).
    destruct (send_pending_files_frame E2 w1)
      as (w2 & evs2 & Hrun2 & Had2 & Htr2 & _).
    exists w1, w2. split; [exact Hrun1|]. split; [exact Hrun2|].
    assert (Hkept : dir_lookup (record_name a) (fs w1) = Some (Json (PDict info))).
    { pose proof Hrun1 as Hrun. rewrite send_pending_files_run, Hadmin in Hrun.
      replace w1 with (snd (for_each
                 (glob (ignore_case E1) "*.jpg" (fs w)
                    ++ glob (ignore_case E1) "location_*.json" (fs w))
                 (deliver E1) w)) by now rewrite Hrun.
      apply (for_each_deliver_keeps E1 _ _ (admin_id w)); [|reflexivity|exact Hfile].
      intros w0 Had0 Hfile0.
      rewrite (deliver_location_run E1 a info w0 Hfile0). cbv zeta.
      rewrite Had0. fold summary coordinates.
      rewrite Hs, Hfix, Hc. cbn [snd fs after]. exact Hfile0. }
    split; [exact Hkept|]. split; [|split].
    + pose proof Hrun1 as Hrun. rewrite send_pending_files_run, Hadmin in Hrun.
      destruct (for_each_deliver_visits E1 (record_name a) _ w
                  (record_listed (ignore_case E1) a _ _ Hfile))
        as (w0 & w0' & w' & before & evs & later & Hloop & Hdel & Hlook & Had0
              & Htr0 & Htr0' & Htr' & _).
      rewrite Hrun in Hloop. injection Hloop as <-.
      rewrite Hfile in Hlook.
      rewrite (deliver_location_run E1 a info w0 Hlook) in Hdel. cbv zeta in Hdel.
      rewrite Had0 in Hdel. fold summary coordinates in Hdel.
      rewrite Hs, Hfix, Hc in Hdel. injection Hdel as <-.
      exists before, later. apply new_events_app.
      rewrite Htr'. cbn [trace after]. rewrite Htr0.
      now rewrite <- !app_assoc.
    + pose proof Hrun2 as Hrun.
      rewrite send_pending_files_run, Had1, Hadmin in Hrun.
      destruct (for_each_deliver_visits E2 (record_name a) _ w1
                  (record_listed (ignore_case E2) a _ _ Hkept))
        as (w0 & w0' & w' & before & evs & later & Hloop & Hdel & Hlook & Had0
              & Htr0 & Htr0' & Htr' & _).
      rewrite Hrun in Hloop. injection Hloop as <-.
      rewrite Hkept in Hlook.
      rewrite (deliver_location_run E2 a info w0 Hlook) in Hdel. cbv zeta in Hdel.
      rewrite Had0, Had1 in Hdel. fold summary coordinates in Hdel.
      rewrite !Hall, Hfix in Hdel. injection Hdel as <-.
      exists before, later. apply new_events_app.
      rewrite Htr'. cbn [trace removed after]. rewrite Htr0.
      now rewrite <- !app_assoc.
    + pose proof Hrun2 as Hrun.
      rewrite send_pending_files_run, Had1, Hadmin in Hrun.
      destruct (for_each_deliver_visits E2 (record_name a) _ w1
                  (record_listed (ignore_case E2) a _ _ Hkept))
        as (w0 & w0' & w' & before & evs & later & Hloop & Hdel & Hlook & Had0
              & _ & _ & _ & Hgone).
      rewrite Hrun in Hloop. injection Hloop as <-.
      rewrite Hkept in Hlook.
      rewrite (deliver_location_run E2 a info w0 Hlook) in Hdel. cbv zeta in Hdel.
      rewrite !Hall, Hfix in Hdel. injection Hdel as <-.
      apply Hgone. cbn [fs removed after]. apply dir_lookup_remove_same.
Qed.

Lemma C4_witness :
  (exists w',
      deliver partial_sink (record_name "20250115_100006") queued_record
        = (Ret tt, w') /\
      new_events queued_record w' =
        [EvSink (coordinates_of (PNum (num_of_Z 42)) sample_record) false;
         EvSink (summary_of (PNum (num_of_Z 42)) sample_record) true]) /\
  (exists w1 w2,
      send_pending_files partial_sink queued_record = (Ret tt, w1) /\
      send_pending_files working_sink w1 = (Ret tt, w2) /\
      dir_lookup (record_name "20250115_100006") (fs w1)
        = Some (Json (PDict sample_record)) /\
      dir_lookup (record_name "20250115_100006") (fs w2) = None).
Proof.
  split.
  - destruct (proj1 C4_location_delivery partial_sink queued_record
                "20250115_100006" sample_record eq_refl)
      as (w' & Hrun & Hev & _).
    exists w'. split; [exact Hrun|exact Hev].
  - destruct (proj2 C4_location_delivery partial_sink working_sink
                queued_record "20250115_100006" sample_record
                eq_refl eq_refl eq_refl
                (fun _ => eq_refl) (fun _ => eq_refl) (fun _ _ => eq_refl))
      as (w1 & w2 & Hrun1 & Hrun2 & Hkept & _ & _ & Hgone).
    exists w1, w2. repeat split; assumption.
Defined.

(* ================================================================= *)
(** ** C10: coordinates at the delivery boundary *)

Lemma truthy_num x : truthy (PNum x) = negb (num_is_zero x).
Proof. reflexivity. Qed.

Lemma has_fix_iff info :
  has_fix info = true <->
  exists lat lon,
    dict_lookup "lat" info = Some lat /\ dict_lookup "lon" info = Some lon /\
    truthy lat = true /\ truthy lon = true.
Proof.
  unfold has_fix, dict_get. rewrite andb_true_iff. split.
  - intros [Hlat Hlon].
    destruct (dict_lookup "lat" info) as [lat|]; [|discriminate].
    destruct (dict_lookup "lon" info) as [lon|]; [|discriminate].
    now exists lat, lon.
  - intros (lat & lon & -> & -> & Hlat & Hlon). now split.
Qed.

(** C10.  When a stored location record is delivered, a coordinates
    message is sent only if the record holds both [lat] and [lon] and
    both are truthy, that is present and not zero.  A record whose [lat]
    or [lon] is missing, [None] or the number zero gets its summary and
    nothing else, its other coordinate being whatever it is: a fix on the
    equator or on the prime meridian is delivered without coordinates. *)
Theorem C10_coordinates_need_truthy_pair :
  forall E w a info,
    dir_lookup (record_name a) (fs w) = Some (Json (PDict info)) ->
    let summary := summary_of (admin_id w) info in
    let k := length (trace w) in
    exists w',
      deliver E (record_name a) w = (Ret tt, w') /\
      (forall chat lat lon ok,
          In (EvSink (SendLocation chat lat lon) ok) (new_events w w') ->
          dict_lookup "lat" info = Some lat /\
          dict_lookup "lon" info = Some lon /\
          truthy lat = true /\ truthy lon = true /\
          lat <> PNone /\ lon <> PNone /\
          (forall x, lat = PNum x \/ lon = PNum x -> num_is_zero x = false)) /\
      (forall x,
          num_is_zero x = true ->
          dict_lookup "lat" info = Some (PNum x) \/
          dict_lookup "lon" info = Some (PNum x) ->
          new_events w w' =
            if sink E k summary
            then [EvRemove (record_name a); EvSink summary true]
            else [EvSink summary false]) /\
      (dict_lookup "lat" info = None \/ dict_lookup "lon" info = None \/
       dict_lookup "lat" info = Some PNone \/
       dict_lookup "lon" info = Some PNone ->
       new_events w w' =
         if sink E k summary
         then [EvRemove (record_name a); EvSink summary true]
         else [EvSink summary false]).
Proof.
  intros E w a info Hfile summary k.
  pose proof (deliver_location_run E a info w Hfile) as Hrun.
  cbv zeta in Hrun. fold summary k in Hrun.
  eexists. split; [exact Hrun|].
  assert (Hnofix : has_fix info = false ->
            new_events w
              (if sink E k summary
               then
                 if has_fix info
                 then
                   if sink E (length (trace (after E (EvSink summary true) w)))
                        (coordinates_of (admin_id w) info)
                   then removed E (record_name a)
                          (after E (EvSink (coordinates_of (admin_id w) info) true)
                             (after E (EvSink summary true) w))
                   else after E (EvSink (coordinates_of (admin_id w) info) false)
                          (after E (EvSink summary true) w)
                 else removed E (record_name a) (after E (EvSink summary true) w)
               else after E (EvSink summary false) w)
            = if sink E k summary
              then [EvRemove (record_name a); EvSink summary true]
              else [EvSink summary false]).
  { intros ->. destruct (sink E k summary); now apply new_events_app. }
  split; [|split].
  - intros chat lat lon ok Hin.
    destruct (has_fix info) eqn:Hfix.
    + apply has_fix_iff in Hfix as (lat0 & lon0 & Hlat & Hlon & Htl & Hto).
      assert (Hc : coordinates_of (admin_id w) info
                   = SendLocation (admin_id w) lat0 lon0).
      { unfold coordinates_of, dict_get. now rewrite Hlat, Hlon. }
      rewrite Hc in Hin.
      assert (Heq : lat = lat0 /\ lon = lon0).
      { destruct (sink E k summary);
          [destruct (sink E _ (SendLocation (admin_id w) lat0 lon0))|].
        - rewrite (new_events_app w _ [EvRemove (record_name a);
                     EvSink (SendLocation (admin_id w) lat0 lon0) true;
                     EvSink summary true]) in Hin by reflexivity.
          unfold summary, summary_of in Hin.
          destruct Hin as [H|[H|[H|[]]]]; try discriminate.
          injection H as _ <- <- _. now split.
        - rewrite (new_events_app w _ [
                     EvSink (SendLocation (admin_id w) lat0 lon0) false;
                     EvSink summary true]) in Hin by reflexivity.
          unfold summary, summary_of in Hin.
          destruct Hin as [H|[H|[]]]; try discriminate.
          injection H as _ <- <- _. now split.
        - rewrite (new_events_app w _ [EvSink summary false]) in Hin
            by reflexivity.
          unfold summary, summary_of in Hin.
          destruct Hin as [H|[]]. discriminate. }
      destruct Heq as [-> ->].
      repeat split; try assumption.
      * intros ->. discriminate.
      * intros ->. discriminate.
      * intros x [->| ->]; [rewrite truthy_num in Htl|rewrite truthy_num in Hto];
          now apply negb_true_iff.
    + exfalso. rewrite (Hnofix eq_refl) in Hin.
      unfold summary, summary_of in Hin.
      destruct (sink E k _); cbn in Hin;
        repeat (destruct Hin as [Hin|Hin]; try discriminate); assumption.
  - intros x Hx Hzero. apply Hnofix. unfold has_fix, dict_get.
    destruct Hzero as [-> | ->]; rewrite truthy_num, Hx; cbn.
    + reflexivity.
    + apply andb_false_r.
  - intros Hmissing. apply Hnofix. unfold has_fix, dict_get.
    destruct Hmissing as [-> |[-> |[-> | ->]]]; cbn; try reflexivity;
      apply andb_false_r.
Qed.

Lemma C10_witness :
  exists w',
    deliver working_sink (record_name "20250115_100006") queued_equator
      = (Ret tt, w') /\
    new_events queued_equator w' =
      [EvRemove (record_name "20250115_100006");
       EvSink (summary_of (PNum (num_of_Z 42)) equator_record) true].
Proof.
  destruct (C10_coordinates_need_truthy_pair working_sink queued_equator
              "20250115_100006" equator_record eq_refl)
    as (w' & Hrun & _ & Hzero & _).
  exists w'. split; [exact Hrun|].
  exact (Hzero (num_of_Z 0) eq_refl (or_introl eq_refl)).
Defined.

(* ================================================================= *)
(** ** C5: what gates the drain *)

(** With every call on the sink failing, delivering a photo or a location
    record leaves the store as it is. *)
Lemma deliver_offline E name w :
  (forall k call, sink E k call = false) ->
  deliverable name = true ->
  exists w', deliver E name w = (Ret tt, w') /\ fs w' = fs w.
Proof.
  intros Hoff Hd. unfold deliverable in Hd. unfold deliver.
  destruct (String.eqb (path_suffix name) ".jpg") eqn:Hjpg.
  - unfold delete_file, os_remove, open_file, bot.
    repeat (cbv beta iota zeta delta
              [bind ret raise try_except orelse ticks interact
               any_exception negb andb fst snd get_admin_id];
            cbn [fs admin_id trace elapsed after];
            rewrite ?Hoff;
            try step).
    all: eexists; split; reflexivity.
  - cbn [orb] in Hd. rewrite Hd.
    unfold delete_file, os_remove, open_file, bot.
    repeat (cbv beta iota zeta delta
              [bind ret raise try_except orelse ticks interact
               any_exception negb andb fst snd dict_get
               py_getitem py_get json_load get_admin_id];
            cbn [fs admin_id trace elapsed after truthy];
            rewrite ?Hoff;
            try step).
    all: eexists; split; reflexivity.
Qed.

Lemma for_each_deliver_offline E l :
  (forall k call, sink E k call = false) ->
  forallb deliverable l = true ->
  forall w, exists w', for_each l (deliver E) w = (Ret tt, w') /\ fs w' = fs w.
Proof.
  intros Hoff. induction l as [|name l IH]; intros Hl w.
  - now exists w.
  - cbn [forallb] in Hl. apply andb_true_iff in Hl as [Hname Hl].
    destruct (deliver_offline E name w Hoff Hname) as (w1 & Hrun1 & Hfs1).
    destruct (IH Hl w1) as (w' & Hrun & Hfs).
    exists w'. cbn [for_each]. unfold bind. rewrite Hrun1.
    split; [exact Hrun|congruence].
Qed.

Lemma deliverable_photo a : a <> "" -> deliverable (a ++ ".jpg") = true.
Proof. intros Ha. unfold deliverable. now rewrite (path_suffix_photo a Ha). Qed.

Lemma deliverable_record a : deliverable (record_name a) = true.
Proof.
  unfold deliverable, record_name.
  now rewrite path_suffix_location, contains_location.
Qed.

(** Where the listing tells upper case from lower, every listed file is
    delivered as a photo or as a record, but the file named [.jpg]. *)
Lemma pending_deliverable name d :
  In name (glob false "*.jpg" d ++ glob false "location_*.json" d) ->
  deliverable name = true \/ name = ".jpg".
Proof.
  intros Hin. apply in_app_or in Hin as [Hin|Hin];
    apply glob_In in Hin as [_ Hmatch]; cbn [name_matches] in Hmatch.
  - apply is_photo_iff in Hmatch as [a ->]. destruct a as [|c a].
    + now right.
    + left. now apply deliverable_photo.
  - apply is_location_iff in Hmatch as [a ->]. left. apply deliverable_record.
Qed.

Lemma listed_deliverable d :
  forallb deliverable
    (glob false "*.jpg" d ++ glob false "location_*.json" d) = true <->
  dir_lookup ".jpg" d = None.
Proof.
  rewrite forallb_forall. split.
  - intros H. destruct (dir_lookup ".jpg" d) eqn:Hdot; [|reflexivity].
    assert (Hin : In ".jpg" (glob false "*.jpg" d
                               ++ glob false "location_*.json" d)).
    { apply in_or_app. left. apply glob_In. split; [|reflexivity].
      apply dir_lookup_In. congruence. }
    apply H in Hin. discriminate.
  - intros Hdot name Hin.
    destruct (pending_deliverable name d Hin) as [H| ->]; [exact H|].
    apply in_app_or in Hin as [Hin|Hin]; apply glob_In in Hin as [Hin _];
      apply dir_lookup_In in Hin; contradiction.
Qed.

Lemma send_pending_files_offline E w :
  (forall k call, sink E k call = false) ->
  forallb deliverable
    (glob (ignore_case E) "*.jpg" (fs w)
       ++ glob (ignore_case E) "location_*.json" (fs w)) = true ->
  exists w', send_pending_files E w = (Ret tt, w') /\ fs w' = fs w.
Proof.
  intros Hoff Hall. rewrite send_pending_files_run.
  destruct (truthy (admin_id w)); [|now exists w].
  now apply for_each_deliver_offline.
Qed.

Lemma count_delivery_no_probe evs :
  forallb is_delivery_event evs = true -> count is_probe_event evs = 0.
Proof.
  unfold count. induction evs as [|ev evs IH]; [reflexivity|].
  cbn. intros H. apply andb_true_iff in H as [Hev H].
  destruct ev; try discriminate; cbn; now apply IH.
Qed.

(** C5 (as amended).  The drain is gated on the registration alone: with
    no recipient registered it does nothing at all, and it never runs the
    connectivity probe.  When every call on the sink fails, as offline,
    any number of drains leaves the store, and so the list of pending
    artifacts, as it was, in a store whose every pending file the drain
    delivers as a photo or as a location record, by its suffix [.jpg], or
    by its suffix [.json] and the word location in its name.  Where the
    listing tells upper case from lower, these are the stores that hold no
    file named [.jpg]. *)
Theorem C5_drain_gate :
  (forall E w,
      truthy (admin_id w) = false -> send_pending_files E w = (Ret tt, w)) /\
  (forall E w,
      exists w',
        send_pending_files E w = (Ret tt, w') /\
        count is_probe_event (new_events w w') = 0) /\
  (forall E w m,
      (forall k call, sink E k call = false) ->
      forallb deliverable
        (glob (ignore_case E) "*.jpg" (fs w)
           ++ glob (ignore_case E) "location_*.json" (fs w)) = true ->
      exists w',
        repeat_drain E m w = (Ret tt, w') /\
        fs w' = fs w /\
        fst (get_pending_files E w') = fst (get_pending_files E w)) /\
  (forall E w,
      ignore_case E = false ->
      (forallb deliverable
         (glob (ignore_case E) "*.jpg" (fs w)
            ++ glob (ignore_case E) "location_*.json" (fs w)) = true <->
       dir_lookup ".jpg" (fs w) = None)).
Proof.
  split; [|split; [|split]].
  - intros E w H. rewrite send_pending_files_run, H. reflexivity.
  - intros E w.
    destruct (send_pending_files_frame E w) as (w' & evs & Hrun & _ & Htr & Hev & _).
    exists w'. split; [exact Hrun|].
    rewrite (new_events_app w w' evs Htr). now apply count_delivery_no_probe.
  - intros E w m Hoff. revert w. induction m as [|m IH]; intros w Hall.
    + exists w. repeat split.
    + destruct (send_pending_files_offline E w Hoff Hall) as (w1 & Hrun1 & Hfs1).
      destruct (IH w1) as (w' & Hrun & Hfs & Hlist); [now rewrite Hfs1|].
      exists w'. cbn [repeat_drain]. unfold bind. rewrite Hrun1.
      split; [exact Hrun|]. split; [congruence|].
      unfold get_pending_files in *. cbn [fst] in *. now rewrite Hfs, Hfs1.
  - intros E w ->. apply listed_deliverable.
Qed.

(** C5 fails as stated: with the probe reporting offline at every moment,
    a drain whose call on the sink succeeds delivers the queued photo and
    removes it. *)
Lemma C5_counterexample :
  fst (check_internet working_sink queued_photo) = Ret false /\
  (forall k, probe working_sink k = false) /\
  fs queued_photo = [("capture_20250115_100002.jpg", Image 1)] /\
  new_events queued_photo (snd (send_pending_files working_sink queued_photo))
    = [EvRemove "capture_20250115_100002.jpg";
       EvSink (SendPhoto (PNum (num_of_Z 42)) "capture_20250115_100002.jpg"
                 (Image 1)) true] /\
  fs (snd (send_pending_files working_sink queued_photo)) = [].
Proof.
  split; [reflexivity|]. split; [reflexivity|]. split; [reflexivity|].
  split; vm_compute; reflexivity.
Qed.

Lemma C5_witness :
  send_pending_files working_sink unregistered_photo
    = (Ret tt, unregistered_photo) /\
  (exists w',
      repeat_drain offline 3 queued_photo = (Ret tt, w') /\
      fs w' = fs queued_photo /\
      fst (get_pending_files offline w')
        = Ret ["capture_20250115_100002.jpg"]) /\
  (forallb deliverable
     (glob (ignore_case offline) "*.jpg" (fs queued_photo)
        ++ glob (ignore_case offline) "location_*.json" (fs queued_photo))
     = true <->
   dir_lookup ".jpg" (fs queued_photo) = None).
Proof.
  destruct C5_drain_gate as (Hgate & _ & Hdrain & Hcase).
  split; [|split].
  - exact (Hgate working_sink unregistered_photo eq_refl).
  - exact (Hdrain offline queued_photo 3 (fun _ _ => eq_refl) eq_refl).
  - exact (Hcase offline queued_photo eq_refl).
Defined.

(** A file named [.jpg] is listed, matches neither branch of the loop
    body, and is removed without a call on the sink, offline or not. *)
Example dot_jpg_removed_unsent :
  let w := mkWorld [(".jpg", Image 1)] (PNum (num_of_Z 42)) [] 0 in
  fst (get_pending_files offline w) = Ret [".jpg"] /\
  new_events w (snd (send_pending_files offline w)) = [EvRemove ".jpg"] /\
  fs (snd (send_pending_files offline w)) = [].
Proof. repeat split; vm_compute; reflexivity. Qed.

(** So it is, where the listing ignores case, with a photo and a record
    whose names are in upper case. *)
Example upper_case_removed_unsent :
  let E := with_ignore_case true offline in
  let w := mkWorld [("PHOTO.JPG", Image 1); ("Location_1.json", Garbage)]
                   (PNum (num_of_Z 42)) [] 0 in
  fst (get_pending_files E w) = Ret ["PHOTO.JPG"; "Location_1.json"] /\
  deliverable "PHOTO.JPG" = false /\
  deliverable "Location_1.json" = false /\
  new_events w (snd (send_pending_files E w))
    = [EvRemove "Location_1.json"; EvRemove "PHOTO.JPG"] /\
  fs (snd (send_pending_files E w)) = [].
Proof. repeat split; vm_compute; reflexivity. Qed.

(* ================================================================= *)
(** ** The location button applies the same test *)

Lemma stages_run E l :
  forall w,
    exists w' evs,
      for_each l
        (fun n => try_except (bot E (EditMessage (Stage n))) any_exception
                    (ret tt)) w = (Ret tt, w') /\
      trace w' = evs ++ trace w /\
      no_map_event evs = true.
Proof.
  induction l as [|n l IH]; intros w.
  - exists w, []. repeat split.
  - cbn [for_each]. unfold bot. run.
    destruct (sink E (length (trace w)) (EditMessage (Stage n))).
    + destruct (IH (after E (EvSink (EditMessage (Stage n)) true) w))
        as (w' & evs & Hrun & Htr & Hev).
      exists w', (evs ++ [EvSink (EditMessage (Stage n)) true]).
      split; [exact Hrun|]. split; [rewrite Htr, <- app_assoc; reflexivity|].
      unfold no_map_event in *. rewrite forallb_app, Hev. reflexivity.
    + destruct (IH (after E (EvSink (EditMessage (Stage n)) false) w))
        as (w' & evs & Hrun & Htr & Hev).
      exists w', (evs ++ [EvSink (EditMessage (Stage n)) false]).
      split; [exact Hrun|]. split; [rewrite Htr, <- app_assoc; reflexivity|].
      unfold no_map_event in *. rewrite forallb_app, Hev. reflexivity.
Qed.

Lemma get_location_no_sink E w r w' :
  get_location E w = (Ret r, w') ->
  exists evs,
    trace w' = evs ++ trace w /\
    no_map_event evs = true.
Proof.
  intros H.
  destruct (get_location_run E w) as (p & w2 & (win & Hwin & Hcase & _) & Hrun).
  rewrite Hrun in H. injection H as _ <-.
  destruct Hcase as [(_ & _ & ->)|(_ & Hwifi)].
  - exists [EvIpApi; EvPowershell]. split; reflexivity.
  - destruct (get_wifi_location_run E (after E EvPowershell w))
      as (r0 & w0 & Hrun0 & Hw & _).
    rewrite Hwifi in Hrun0. injection Hrun0 as _ <-.
    destruct Hw as [->|(payload & ->)].
    + exists [EvIpApi; EvNetsh; EvPowershell]. split; reflexivity.
    + exists [EvIpApi; EvGeolocate payload; EvNetsh; EvPowershell].
      split; reflexivity.
Qed.

(** Every record [get_location] returns has the keys the button reads. *)
Lemma get_location_keys E w d w' :
  get_location E w = (Ret (Some d), w') ->
  exists ip country city region isp timezone lat lon,
    dict_lookup "ip" d = Some ip /\ dict_lookup "country" d = Some country /\
    dict_lookup "city" d = Some city /\ dict_lookup "region" d = Some region /\
    dict_lookup "isp" d = Some isp /\ dict_lookup "timezone" d = Some timezone /\
    dict_lookup "lat" d = Some lat /\ dict_lookup "lon" d = Some lon.
Proof.
  intros H.
  destruct (get_location_run E w) as (p & w2 & (win & _ & _ & Hshape) & Hrun).
  rewrite Hrun in H. injection H as H _.
  destruct Hshape as [->|(d0 & src & -> & lat & lon & acc & ->)];
    destruct (ip_success _); cbn in H; try discriminate;
    injection H as <-; repeat eexists.
Qed.

(** The map follows the text only when both coordinates are truthy. *)
Lemma handle_location_coordinates E w :
  forall lat lon ok,
    In (EvSink (ReplyLocation lat lon) ok)
       (new_events w (snd (handle_location E w))) ->
    truthy lat = true /\ truthy lon = true.
Proof.
  intros lat lon ok.
  destruct (stages_run E (seq 0 5) w) as (w1 & evs1 & Hrun1 & Htr1 & Hev1).
  destruct (get_location_run E w1) as (p & w2' & _ & Hloc).
  set (r := enrich p (ip_success (ip_api E (length (trace w2'))))) in *.
  set (w2 := after E EvIpApi w2') in *.
  destruct (get_location_no_sink _ _ _ _ Hloc) as (evs2 & Htr2 & Hev2).
  assert (Hold : forall ev, In ev (evs2 ++ evs1) -> is_map_event ev = false).
  { unfold no_map_event in *.
    intros ev Hin. apply in_app_or in Hin as [Hin|Hin].
    - rewrite forallb_forall in Hev2. apply negb_true_iff. now apply Hev2.
    - rewrite forallb_forall in Hev1. apply negb_true_iff. now apply Hev1. }
  assert (Htr : trace w2 = (evs2 ++ evs1) ++ trace w)
    by (rewrite Htr2, Htr1; apply app_assoc).
  unfold handle_location. unfold bind at 1. rewrite Hrun1.
  unfold bind at 1. rewrite Hloc.
  destruct r as [d|] eqn:Hr.
  - rewrite (get_location_nonempty _ _ _ _ d Hloc eq_refl).
    destruct (get_location_keys _ _ _ _ Hloc)
      as (ip & country & city & region & isp & tz & la & lo
            & Hip & Hco & Hci & Hre & His & Htz & Hla & Hlo).
    unfold bot.
    cbv beta iota zeta delta
      [bind ret raise orelse ticks interact py_getitem].
    rewrite Hip, Hco, Hci, Hre, His, Htz.
    cbv beta iota zeta delta
      [bind ret raise orelse ticks interact py_getitem].
    destruct (sink E (length (trace w2)) _) eqn:Hs1.
    + cbv beta iota zeta. rewrite Hla.
      cbv beta iota zeta delta
        [bind ret raise orelse ticks interact py_getitem].
      destruct (truthy la) eqn:Htla.
      * rewrite Hlo.
        cbv beta iota zeta delta
          [bind ret raise orelse ticks interact py_getitem].
        destruct (truthy lo) eqn:Htlo.
        -- match goal with
           | |- context [new_events w (snd ?r)] =>
               assert (Hw : exists ok1 ok2 m,
                          trace (snd r) =
                          ([EvSink (ReplyLocation la lo) ok1;
                            EvSink (EditMessage m) ok2] ++ evs2 ++ evs1)
                          ++ trace w)
           end.
           { destruct (sink E _ (ReplyLocation la lo)); cbn [snd trace after];
               rewrite Htr; repeat eexists. }
           destruct Hw as (ok1 & ok2 & m & Hw).
           rewrite (new_events_app _ _ _ Hw). cbn [app In].
           intros [H|[H|H]].
           ++ injection H as <- <- _. now split.
           ++ discriminate.
           ++ apply Hold in H. discriminate.
        -- cbn [snd]. rewrite (new_events_app w _ (_ :: evs2 ++ evs1))
             by (cbn [trace after]; rewrite Htr; reflexivity).
           intros [H|H]; [discriminate|]. apply Hold in H. discriminate.
      * cbn [snd]. rewrite (new_events_app w _ (_ :: evs2 ++ evs1))
          by (cbn [trace after]; rewrite Htr; reflexivity).
        intros [H|H]; [discriminate|]. apply Hold in H. discriminate.
    + cbn [snd]. rewrite (new_events_app w _ (_ :: evs2 ++ evs1))
        by (cbn [trace after]; rewrite Htr; reflexivity).
      intros [H|H]; [discriminate|]. apply Hold in H. discriminate.
  - cbn [some_nonempty]. unfold bot. run.
    destruct (sink E (length (trace w2)) (EditMessage CouldNotFetch));
      cbn [snd]; rewrite (new_events_app w _ (_ :: evs2 ++ evs1))
        by (cbn [trace after]; rewrite Htr; reflexivity);
      (intros [H|H]; [discriminate|]; apply Hold in H; discriminate).
Qed.

(* ================================================================= *)
(** ** Beyond the stated properties: the strategies on their own *)

Lemma valid_fix_is_finite lat lon :
  valid_fix lat lon ->
  exists a b,
    lat = Finite a /\ lon = Finite b /\
    (~ a == 0 /\ ~ b == 0 /\ Qabs a <= 90 /\ Qabs b <= 180)%Q.
Proof.
  intros H. assert (H' := H). unfold valid_fix in H'.
  rewrite !andb_true_iff in H'. destruct H' as [[[_ _] Hlat] Hlon].
  destruct lat as [a| | |]; try discriminate;
    destruct lon as [b| | |]; try discriminate.
  exists a, b. split; [reflexivity|]. split; [reflexivity|].
  now apply valid_fix_finite.
Qed.

(** X1. Whatever the location watcher prints, the device-sensor strategy
    returns after that one subprocess call without raising, and a fix it
    returns carries finite coordinates, neither of them zero, within
    [|lat| <= 90] and [|lon| <= 180]: a NaN or an infinity never gets
    through. *)
Theorem sensor_fix_always_valid :
  forall E w,
    exists r,
      get_windows_location E w = (Ret r, after E EvPowershell w) /\
      forall d, r = Some d ->
        exists a b accuracy,
          d = [("lat", PNum (Finite a)); ("lon", PNum (Finite b));
               ("accuracy", PNum accuracy);
               ("source", PStr "GPS/Wi-Fi (Precise)")] /\
          (~ a == 0 /\ ~ b == 0 /\ Qabs a <= 90 /\ Qabs b <= 180)%Q.
Proof.
  intros E w. unfold get_windows_location, run_powershell. run.
  destruct (powershell E (length (trace w))) as [e|out]; run.
  { eexists; split; [reflexivity|discriminate]. }
  destruct (String.eqb (strip out) ""); run.
  { eexists; split; [reflexivity|discriminate]. }
  destruct (2 <=? length (split "," (strip out))); run.
  2: { eexists; split; [reflexivity|discriminate]. }
  destruct (py_float E (nth 0 (split "," (strip out)) "")) as [lat|]; run.
  2: { eexists; split; [reflexivity|discriminate]. }
  destruct (py_float E (nth 1 (split "," (strip out)) "")) as [lon|]; run.
  2: { eexists; split; [reflexivity|discriminate]. }
  assert (Hvalid : forall accuracy d,
            negb (num_is_zero lat) && negb (num_is_zero lon)
            && num_le (num_abs lat) (num_of_Z 90)
            && num_le (num_abs lon) (num_of_Z 180) = true ->
            Some [("lat", PNum lat); ("lon", PNum lon);
                  ("accuracy", PNum accuracy);
                  ("source", PStr "GPS/Wi-Fi (Precise)")] = Some d ->
            exists a b acc,
              d = [("lat", PNum (Finite a)); ("lon", PNum (Finite b));
                   ("accuracy", PNum acc);
                   ("source", PStr "GPS/Wi-Fi (Precise)")] /\
              (~ a == 0 /\ ~ b == 0 /\ Qabs a <= 90 /\ Qabs b <= 180)%Q).
  { intros accuracy d Hc Hd. injection Hd as <-.
    destruct (valid_fix_is_finite lat lon Hc) as (a & b & -> & -> & Hq).
    now exists a, b, accuracy. }
  destruct (2 <? length (split "," (strip out))); run.
  - destruct (py_float E (nth 2 (split "," (strip out)) "")) as [acc|]; run.
    2: { eexists; split; [reflexivity|discriminate]. }
    destruct (_ && _) eqn:Hc; run;
      eexists; (split; [reflexivity|]); [|discriminate].
    intros d Hd. exact (Hvalid acc d eq_refl Hd).
  - destruct (_ && _) eqn:Hc; run;
      eexists; (split; [reflexivity|]); [|discriminate].
    intros d Hd. exact (Hvalid (num_of_Z 0) d eq_refl Hd).
Qed.

Ltac step_eq :=
  match goal with
  | |- context [match ?x with _ => _ end] =>
      lazymatch x with
      | context [match _ with _ => _ end] => fail
      | _ =>
          lazymatch type of x with
          | prod _ _ => fail
          | _ => destruct x eqn:?
          end
      end
  end.

Ltac crunch_eq :=
  repeat (cbv beta iota zeta delta
            [bind ret raise try_except orelse ticks interact http
             response_json any_exception only_ValueError exn_eqb fst snd
             py_in py_getitem py_get];
          cbn [fs admin_id trace elapsed after];
          try step_eq).

Lemma wifi_accepts_candidate E w lat lon :
  accepts (get_wifi_location E w) lat lon -> wifi_candidate E w lat lon.
Proof.
  unfold accepts, get_wifi_location, run_netsh, post_geolocate.
  crunch_eq; intros (found & Hd & Hlat & Hlon); try discriminate.
  injection Hd as <-. cbn in Hlat, Hlon.
  injection Hlat as <-. injection Hlon as <-.
  repeat match goal with
         | H : String.eqb _ _ = false |- _ => apply String.eqb_neq in H
         | H : (_ <=? _) = true |- _ => apply Nat.leb_le in H
         | H : Z.eqb _ _ = true |- _ => apply Z.eqb_eq in H
         end.
  subst. repeat eexists; eauto.
Qed.

(** X2. The Wi-Fi strategy never raises, and it returns a fix exactly when the
    scan saw two access points or more and the service answered 200 with
    an object whose [location] holds [lat] and [lng]; the fix is then the
    record of that pair, the accuracy and the source, and nothing else.  A
    transport error, any other status, a body that is not JSON or not of
    that shape all give [None]. *)
Theorem wifi_fix_exactly_when_answered :
  forall E w,
    exists r w',
      get_wifi_location E w = (Ret r, w') /\
      match r with
      | Some d =>
          exists lat lon accuracy,
            d = [("lat", lat); ("lon", lon); ("accuracy", accuracy);
                 ("source", PStr "Wi-Fi Networks (Precise)")] /\
            wifi_candidate E w lat lon
      | None => forall lat lon, ~ wifi_candidate E w lat lon
      end /\
      (forall lat lon,
          accepts (get_wifi_location E w) lat lon
          <-> wifi_candidate E w lat lon).
Proof.
  intros E w.
  destruct (get_wifi_location_run E w) as (r & w' & Hrun & _ & Hshape).
  exists r, w'. split; [exact Hrun|]. split.
  - destruct Hshape as [->|(d & -> & lat & lon & accuracy & ->)].
    + intros lat lon Hc.
      destruct (get_wifi_location_candidate E w lat lon Hc) as (acc & w1 & H).
      rewrite Hrun in H. discriminate.
    + exists lat, lon, accuracy. split; [reflexivity|].
      apply wifi_accepts_candidate. unfold accepts. rewrite Hrun.
      eexists. split; [reflexivity|]. split; reflexivity.
  - intros lat lon. split; [apply wifi_accepts_candidate|].
    intros H. destruct (get_wifi_location_candidate E w lat lon H)
      as (acc & w1 & Hrun1).
    unfold accepts. rewrite Hrun1. eexists. split; [reflexivity|].
    split; reflexivity.
Qed.

(** X3. The geolocation service is asked only after a scan that saw two access
    points or more, and it is sent the first ten of them at most. *)
Theorem wifi_query_bounds :
  forall E w payload,
    In (EvGeolocate payload) (new_events w (snd (get_wifi_location E w))) ->
    exists out,
      netsh E (length (trace w)) = ProcDone out /\
      payload = firstn 10 (scan_networks E out) /\
      2 <= length (scan_networks E out) /\
      2 <= length payload /\ length payload <= 10.
Proof.
  intros E w payload.
  unfold get_wifi_location, run_netsh, post_geolocate.
  crunch_eq; intros Hin;
    try (rewrite (new_events_app w _ [EvNetsh]) in Hin by reflexivity;
         destruct Hin as [Hin|[]]; discriminate).
  all: match type of Hin with
       | context [after _ (EvGeolocate ?p) _] =>
           rewrite (new_events_app w _ [EvGeolocate p; EvNetsh]) in Hin
             by reflexivity
       end;
       destruct Hin as [Hin|[Hin|[]]]; try discriminate;
       match type of Hin with
       | EvGeolocate ?p = _ =>
           assert (Hp : payload = p) by congruence; clear Hin; subst payload
       end.
  all: match goal with
       | H : (2 <=? _) = true |- _ => apply Nat.leb_le in H
       end.
  all: eexists; split; [reflexivity|]; split; [reflexivity|];
       split; [assumption|]; rewrite length_firstn; lia.
Qed.






(** The strength is computed in doubles: above [2^53] the half of the
    percentage is rounded before it is truncated, and a percentage that
    no double holds gives no strength at all. *)
Example signal_to_dbm_rounds :
  (signal_to_dbm (2 ^ 53 + 3)%Z = Some 4503599627370398%Z) /\
  (Z.quot (2 ^ 53 + 3 - 200) 2 = 4503599627370397)%Z /\
  (signal_to_dbm 7%Z = Some (-96)%Z) /\
  (signal_to_dbm (2 ^ 1024)%Z = Some (2 ^ 1023)%Z) /\
  (signal_to_dbm (10 ^ 400)%Z = None).
Proof. repeat split; vm_compute; reflexivity. Qed.


Lemma sensor_fix_always_valid_witness :
  exists d a b accuracy,
    fst (get_windows_location good_reading empty_world) = Ret (Some d) /\
    d = [("lat", PNum (Finite a)); ("lon", PNum (Finite b));
         ("accuracy", PNum accuracy);
         ("source", PStr "GPS/Wi-Fi (Precise)")] /\
    (~ a == 0 /\ ~ b == 0 /\ Qabs a <= 90 /\ Qabs b <= 180)%Q.
Proof.
  destruct (sensor_fix_always_valid good_reading empty_world)
    as (r & Hrun & Hvalid).
  assert (Hr : r = Some [("lat", PNum (Finite (75 # 2)));
                         ("lon", PNum (Finite (-489 # 4)));
                         ("accuracy", PNum (Finite 5));
                         ("source", PStr "GPS/Wi-Fi (Precise)")]).
  { assert (Hc : fst (get_windows_location good_reading empty_world)
                 = Ret (Some [("lat", PNum (Finite (75 # 2)));
                              ("lon", PNum (Finite (-489 # 4)));
                              ("accuracy", PNum (Finite 5));
                              ("source", PStr "GPS/Wi-Fi (Precise)")]))
      by (vm_compute; reflexivity).
    rewrite Hrun in Hc. cbn [fst] in Hc. congruence. }
  destruct (Hvalid _ Hr) as (a & b & accuracy & Hd & Hrange).
  eexists; exists a, b, accuracy. rewrite Hrun, Hr. cbn [fst].
  split; [reflexivity|]. split; [exact Hd | exact Hrange].
Defined.

Lemma wifi_fix_exactly_when_answered_witness :
  exists w',
    get_wifi_location good_service empty_world
      = (Ret (Some [("lat", PNum (Finite (75 # 2)));
                    ("lon", PNum (Finite (-489 # 4)));
                    ("accuracy", PNum (num_of_Z 100));
                    ("source", PStr "Wi-Fi Networks (Precise)")]), w') /\
    wifi_candidate good_service empty_world
      (PNum (Finite (75 # 2))) (PNum (Finite (-489 # 4))).
Proof.
  destruct (wifi_fix_exactly_when_answered good_service empty_world)
    as (r & w' & Hrun & Hshape & _).
  assert (Hr : fst (get_wifi_location good_service empty_world)
               = Ret (Some [("lat", PNum (Finite (75 # 2)));
                            ("lon", PNum (Finite (-489 # 4)));
                            ("accuracy", PNum (num_of_Z 100));
                            ("source", PStr "Wi-Fi Networks (Precise)")]))
    by (vm_compute; reflexivity).
  rewrite Hrun in Hr. cbn [fst] in Hr. injection Hr as ->.
  destruct Hshape as (lat & lon & accuracy & Hd & Hc).
  injection Hd as <- <- _.
  exists w'. split; [exact Hrun | exact Hc].
Defined.

Lemma wifi_query_bounds_witness :
  In (EvGeolocate [mkAP "aa:bb:cc:00:11:22" (-60); mkAP "aa:bb:cc:00:11:23" (-70)])
     (new_events empty_world (snd (get_wifi_location good_service empty_world))) /\
  exists out,
    netsh good_service 0 = ProcDone out /\
    [mkAP "aa:bb:cc:00:11:22" (-60); mkAP "aa:bb:cc:00:11:23" (-70)]
      = firstn 10 (scan_networks good_service out) /\
    2 <= length (scan_networks good_service out) /\
    2 <= 2 /\ 2 <= 10.
Proof.
  assert (Hin : In (EvGeolocate [mkAP "aa:bb:cc:00:11:22" (-60);
                                 mkAP "aa:bb:cc:00:11:23" (-70)])
                  (new_events empty_world
                     (snd (get_wifi_location good_service empty_world))))
    by (vm_compute; left; reflexivity).
  split; [exact Hin|].
  exact (wifi_query_bounds good_service empty_world _ Hin).
Defined.


(* ================================================================= *)
(** ** Beyond the stated properties: the drain *)

Lemma removals_follow_sends_app a b :
  removals_follow_sends a = true -> removals_follow_sends b = true ->
  removals_follow_sends (a ++ b) = true.
Proof.
  intros Ha Hb. induction a as [|ev a IH]; [exact Hb|].
  destruct ev; cbn [app removals_follow_sends] in *; auto.
  apply andb_true_iff in Ha as [Hhead Hrest].
  rewrite (IH Hrest), andb_true_r.
  apply orb_true_iff in Hhead as [Hname|Hnext].
  - now rewrite Hname.
  - destruct a as [|[] a]; try discriminate.
    cbn [app]. destruct ok; [apply orb_true_r | discriminate].
Qed.

Lemma removals_follow_sends_spec evs :
  removals_follow_sends evs = true ->
  forall later name earlier,
    evs = later ++ EvRemove name :: earlier ->
    deliverable name = false \/
    exists call rest, earlier = EvSink call true :: rest.
Proof.
  intros H later. revert evs H.
  induction later as [|ev later IH]; intros evs H name earlier ->.
  - cbn [app removals_follow_sends] in H.
    apply andb_true_iff in H as [Hhead _].
    apply orb_true_iff in Hhead as [Hname|Hnext].
    + left. now apply negb_true_iff.
    + right. destruct earlier as [|[] rest]; try discriminate.
      destruct ok; [eauto | discriminate].
  - apply (IH (later ++ EvRemove name :: earlier)); [|reflexivity].
    destruct ev; cbn [app removals_follow_sends] in H; auto.
    now apply andb_true_iff in H as [_ H].
Qed.

Ltac crunch_world_eq :=
  repeat (cbv beta iota zeta delta
            [bind ret raise try_except orelse ticks interact http
             response_json any_exception only_ValueError exn_eqb negb fst snd
             py_in py_getitem py_get json_load get_admin_id];
          cbn [fs admin_id trace elapsed after];
          try step_eq).

(** One delivery: its calls go to the registered recipient, it removes no
    file but its own, and a file delivered as a photo or as a record is
    removed only right after a call that succeeded. *)
Lemma deliver_shape E name w :
  exists w' evs,
    deliver E name w = (Ret tt, w') /\
    trace w' = evs ++ trace w /\
    Forall (addressed_to (admin_id w)) evs /\
    (forall n, In (EvRemove n) evs -> n = name) /\
    removals_follow_sends evs = true /\
    ((fs w' = fs w /\ forall n, ~ In (EvRemove n) evs) \/
     (In (EvRemove name) evs /\ fs w' = dir_remove name (fs w))).
Proof.
  unfold deliver, delete_file, os_remove, open_file, bot.
  crunch_world_eq.
  all: eexists; eexists; (split; [reflexivity|]);
    cbn [fs admin_id trace elapsed after];
    (split; [solve_trace|]);
    (split; [repeat constructor|]);
    (split; [cbn [In]; intros n Hn;
             repeat (destruct Hn as [Hn|Hn]; try discriminate);
             try contradiction; congruence|]).
  all: split;
    [| first [left; split;
                [reflexivity | intros n Hn; cbn [In] in Hn; intuition discriminate]
             | right; split; [cbn [In]; tauto | reflexivity]]].
  all: cbn [removals_follow_sends]; rewrite ?orb_true_r; try reflexivity.
  all: unfold deliverable;
    repeat match goal with H : _ = false |- _ => rewrite H end;
    reflexivity.
Qed.

Lemma without_nil d : without [] d = d.
Proof.
  unfold without. induction d as [|e d IH]; [reflexivity|].
  cbn [filter existsb negb]. now f_equal.
Qed.

Lemma without_without a b d : without b (without a d) = without (a ++ b) d.
Proof.
  unfold without. induction d as [|e d IH]; [reflexivity|].
  cbn [filter]. rewrite existsb_app.
  destruct (existsb (String.eqb (fst e)) a); cbn [negb orb filter].
  - exact IH.
  - destruct (existsb (String.eqb (fst e)) b); cbn [negb]; now rewrite IH.
Qed.

Lemma without_one name d : dir_remove name d = without [name] d.
Proof.
  unfold dir_remove, without. apply filter_ext. intros e. cbn [existsb].
  now rewrite orb_false_r.
Qed.

Lemma deliver_admin E name w : admin_id (snd (deliver E name w)) = admin_id w.
Proof.
  destruct (deliver_frame E name w) as (w1 & evs & Hrun & Had & _).
  now rewrite Hrun.
Qed.

(** The loop of the drain over the listed files. *)
Lemma for_each_deliver_shape E l :
  forall w,
    exists w' evs gone,
      for_each l (deliver E) w = (Ret tt, w') /\
      admin_id w' = admin_id w /\
      trace w' = evs ++ trace w /\
      Forall (addressed_to (admin_id w)) evs /\
      (forall n, In (EvRemove n) evs <-> In n gone) /\
      incl gone l /\
      removals_follow_sends evs = true /\
      fs w' = without gone (fs w).
Proof.
  induction l as [|name l IH]; intros w.
  - exists w, [], []. rewrite without_nil.
    split; [reflexivity|]. split; [reflexivity|]. split; [reflexivity|].
    split; [constructor|]. split; [intros n; split; intros []|].
    split; [intros n []|]. split; reflexivity.
  - destruct (deliver_shape E name w)
      as (w1 & evs1 & Hrun1 & Htr1 & Hto1 & Hrem1 & Hfollow1 & Hfs1).
    pose proof (deliver_admin E name w) as Had1. rewrite Hrun1 in Had1.
    cbn [snd] in Had1.
    destruct (IH w1) as (w' & evs & gone & Hrun & Had & Htr & Hto & Hrem
                           & Hincl & Hfollow & Hfs).
    assert (Hcommon :
              for_each (name :: l) (deliver E) w = (Ret tt, w') /\
              admin_id w' = admin_id w /\
              trace w' = (evs ++ evs1) ++ trace w /\
              Forall (addressed_to (admin_id w)) (evs ++ evs1) /\
              removals_follow_sends (evs ++ evs1) = true).
    { cbn [for_each]. unfold bind. rewrite Hrun1.
      split; [exact Hrun|]. split; [congruence|].
      split; [rewrite Htr, Htr1; apply app_assoc|].
      split; [apply Forall_app; split; [now rewrite <- Had1|exact Hto1]|].
      now apply removals_follow_sends_app. }
    destruct Hcommon as (Hc1 & Hc2 & Hc3 & Hc4 & Hc5).
    destruct Hfs1 as [[Hfs1 Hnone]|[Hin1 Hfs1]].
    + exists w', (evs ++ evs1), gone.
      repeat (split; [assumption|]).
      split; [|split; [|split; [assumption|now rewrite Hfs, Hfs1]]].
      * intros n. rewrite in_app_iff, Hrem. split; [|tauto].
        intros [H|H]; [exact H|]. now apply Hnone in H.
      * intros n Hn. right. now apply Hincl.
    + exists w', (evs ++ evs1), (name :: gone).
      repeat (split; [assumption|]).
      split; [|split; [|split; [assumption|]]].
      * intros n. rewrite in_app_iff, Hrem. cbn [In]. split.
        -- intros [H|H]; [now right|]. left. symmetry. now apply Hrem1.
        -- intros [<-|H]; [now right|now left].
      * intros n [<-|Hn]; [now left|]. right. now apply Hincl.
      * rewrite Hfs, Hfs1, without_one, without_without. reflexivity.
Qed.

Lemma send_pending_files_shape E w :
  exists w' evs gone,
    send_pending_files E w = (Ret tt, w') /\
    admin_id w' = admin_id w /\
    trace w' = evs ++ trace w /\
    Forall (addressed_to (admin_id w)) evs /\
    (forall n, In (EvRemove n) evs <-> In n gone) /\
    incl gone (glob (ignore_case E) "*.jpg" (fs w)
                 ++ glob (ignore_case E) "location_*.json" (fs w)) /\
    removals_follow_sends evs = true /\
    fs w' = without gone (fs w) /\
    (truthy (admin_id w) = false -> evs = []).
Proof.
  rewrite send_pending_files_run. destruct (truthy (admin_id w)).
  - destruct (for_each_deliver_shape E
                (glob (ignore_case E) "*.jpg" (fs w)
                   ++ glob (ignore_case E) "location_*.json" (fs w)) w)
      as (w' & evs & gone & H).
    exists w', evs, gone. intuition discriminate.
  - exists w, [], []. rewrite without_nil.
    split; [reflexivity|]. split; [reflexivity|]. split; [reflexivity|].
    split; [constructor|]. split; [intros n; split; intros []|].
    split; [intros n []|]. repeat split.
Qed.

(** X5. A drain deletes no file it has not just sent, unless it sends the
    file not at all: every removal it makes is of a file that was pending
    and either comes right after a call on the sink, addressed to the
    registered recipient, that succeeded, or is of a file that the drain
    takes neither for a photo, by the suffix [.jpg], nor for a location
    record, by the suffix [.json] and the word location in the name.
    Where the listing tells upper case from lower, the one such file is
    the file named [.jpg]. *)
Theorem drain_removes_only_after_send :
  forall E w later name earlier,
    new_events w (snd (send_pending_files E w))
      = later ++ EvRemove name :: earlier ->
    (exists files, get_pending_files E w = (Ret files, w) /\ In name files) /\
    ((exists call rest,
         earlier = EvSink call true :: rest /\
         recipient call = Some (admin_id w)) \/
     (deliverable name = false /\
      (ignore_case E = false -> name = ".jpg"))).
Proof.
  intros E w later name earlier Hevs.
  destruct (send_pending_files_shape E w)
    as (w' & evs & gone & Hrun & _ & Htr & Hto & Hrem & Hincl & Hfollow & _).
  rewrite Hrun in Hevs. cbn [snd] in Hevs.
  rewrite (new_events_app w w' evs Htr) in Hevs.
  assert (Hin : In name (glob (ignore_case E) "*.jpg" (fs w)
                           ++ glob (ignore_case E) "location_*.json" (fs w))).
  { apply Hincl, Hrem. rewrite Hevs. apply in_or_app. right. now left. }
  split.
  - eexists. split; [reflexivity|]. exact Hin.
  - destruct (removals_follow_sends_spec evs Hfollow later name earlier Hevs)
      as [Hnot|(call & rest & ->)].
    + right. split; [exact Hnot|]. intros Hcase. rewrite Hcase in Hin.
      destruct (pending_deliverable name (fs w) Hin) as [H|H];
        [congruence | exact H].
    + left. exists call, rest. split; [reflexivity|].
      rewrite Forall_forall in Hto.
      apply (Hto (EvSink call true)). rewrite Hevs.
      apply in_or_app. right. right. now left.
Qed.

Lemma drain_removes_only_after_send_witness :
  new_events mixed_queue (snd (send_pending_files working_sink mixed_queue))
    = [EvRemove (record_name "20250115_100006");
       EvSink (coordinates_of (PNum (num_of_Z 42)) sample_record) true;
       EvSink (summary_of (PNum (num_of_Z 42)) sample_record) true]
      ++ EvRemove "capture_20250115_100002.jpg"
      :: [EvSink (SendPhoto (PNum (num_of_Z 42))
                    "capture_20250115_100002.jpg" (Image 1)) true] /\
  (exists files,
      get_pending_files working_sink mixed_queue = (Ret files, mixed_queue) /\
      In "capture_20250115_100002.jpg" files) /\
  ((exists call rest,
       [EvSink (SendPhoto (PNum (num_of_Z 42))
                  "capture_20250115_100002.jpg" (Image 1)) true]
         = EvSink call true :: rest /\
       recipient call = Some (admin_id mixed_queue)) \/
   (deliverable "capture_20250115_100002.jpg" = false /\
    (ignore_case working_sink = false ->
     "capture_20250115_100002.jpg" = ".jpg"))).
Proof.
  assert (H : new_events mixed_queue
                (snd (send_pending_files working_sink mixed_queue))
              = [EvRemove (record_name "20250115_100006");
                 EvSink (coordinates_of (PNum (num_of_Z 42)) sample_record) true;
                 EvSink (summary_of (PNum (num_of_Z 42)) sample_record) true]
                ++ EvRemove "capture_20250115_100002.jpg"
                :: [EvSink (SendPhoto (PNum (num_of_Z 42))
                              "capture_20250115_100002.jpg" (Image 1)) true])
    by (vm_compute; reflexivity).
  split; [exact H|].
  exact (drain_removes_only_after_send working_sink mixed_queue _ _ _ H).
Defined.

(** X6. A drain talks to nobody but the registered recipient: every call it
    makes on the sink carries the registered chat id, and it makes none
    while nobody is registered. *)
Theorem drain_sends_only_to_admin :
  forall E w call ok,
    In (EvSink call ok) (new_events w (snd (send_pending_files E w))) ->
    recipient call = Some (admin_id w) /\ truthy (admin_id w) = true.
Proof.
  intros E w call ok Hin.
  destruct (send_pending_files_shape E w)
    as (w' & evs & gone & Hrun & _ & Htr & Hto & _ & _ & _ & _ & Hgate).
  rewrite Hrun in Hin. cbn [snd] in Hin.
  rewrite (new_events_app w w' evs Htr) in Hin. split.
  - rewrite Forall_forall in Hto. exact (Hto _ Hin).
  - destruct (truthy (admin_id w)); [reflexivity|].
    rewrite (Hgate eq_refl) in Hin. destruct Hin.
Qed.

Lemma drain_sends_only_to_admin_witness :
  In (EvSink (summary_of (PNum (num_of_Z 42)) sample_record) true)
     (new_events mixed_queue (snd (send_pending_files working_sink mixed_queue))) /\
  recipient (summary_of (PNum (num_of_Z 42)) sample_record)
    = Some (admin_id mixed_queue) /\
  truthy (admin_id mixed_queue) = true.
Proof.
  assert (H : In (EvSink (summary_of (PNum (num_of_Z 42)) sample_record) true)
                (new_events mixed_queue
                   (snd (send_pending_files working_sink mixed_queue))))
    by (vm_compute; do 2 right; left; reflexivity).
  split; [exact H|].
  exact (drain_sends_only_to_admin working_sink mixed_queue _ _ H).
Defined.

(** X7. A drain never raises and only ever removes: the store it leaves is the
    store it found without the files whose removal the trace records, all
    of which were pending; every other file keeps its place and its
    content, nothing is written, and the registration is not changed. *)
Theorem drain_only_removes :
  forall E w,
    exists w' gone,
      send_pending_files E w = (Ret tt, w') /\
      admin_id w' = admin_id w /\
      fs w' = without gone (fs w) /\
      (forall n, In n gone <-> In (EvRemove n) (new_events w w')) /\
      (forall n, In n gone ->
         In n (glob (ignore_case E) "*.jpg" (fs w)
                 ++ glob (ignore_case E) "location_*.json" (fs w))) /\
      count is_write (new_events w w') = 0.
Proof.
  intros E w.
  destruct (send_pending_files_shape E w)
    as (w' & evs & gone & Hrun & Had & Htr & _ & Hrem & Hincl & _ & Hfs & _).
  destruct (send_pending_files_frame E w)
    as (w2 & evs2 & Hrun2 & _ & Htr2 & Hev2 & _).
  rewrite Hrun in Hrun2. injection Hrun2 as <-.
  assert (evs2 = evs) as -> by (apply (app_inv_tail (trace w)); congruence).
  exists w', gone. rewrite (new_events_app w w' evs Htr).
  split; [exact Hrun|]. split; [exact Had|]. split; [exact Hfs|].
  split; [intros n; symmetry; apply Hrem|]. split; [exact Hincl|].
  clear - Hev2. unfold count.
  induction evs as [|ev evs IH]; [reflexivity|].
  cbn [forallb] in Hev2. apply andb_true_iff in Hev2 as [Hev Hrest].
  destruct ev; try discriminate; cbn; now apply IH.
Qed.

Lemma drain_only_removes_witness :
  exists w',
    send_pending_files working_sink mixed_queue = (Ret tt, w') /\
    fs w' = [(record_name "broken", Garbage); ("notes.txt", Garbage)].
Proof.
  destruct (drain_only_removes working_sink mixed_queue)
    as (w' & gone & Hrun & _).
  exists w'. split; [exact Hrun|].
  assert (H : fs (snd (send_pending_files working_sink mixed_queue))
              = [(record_name "broken", Garbage); ("notes.txt", Garbage)])
    by (vm_compute; reflexivity).
  now rewrite Hrun in H.
Defined.

Lemma deliver_malformed E a f w :
  dir_lookup (record_name a) (fs w) = Some f ->
  (forall info, f <> Json (PDict info)) ->
  deliver E (record_name a) w = (Ret tt, w).
Proof.
  intros H Hf. unfold record_name in *. unfold deliver.
  rewrite path_suffix_location, contains_location.
  change (String.eqb ".json" ".jpg") with false.
  change (String.eqb ".json" ".json") with true.
  unfold open_file.
  cbv beta iota zeta delta [bind try_except orelse andb]. rewrite H.
  destruct f as [frame|doc|]; [reflexivity| |reflexivity].
  destruct doc; try reflexivity. now destruct (Hf d).
Qed.

(** X8. A location file that does not hold a JSON object is skipped by every
    drain: delivering it makes no call on the sink and changes nothing, so
    it is still stored, and still listed as pending, after any number of
    drains. *)
Theorem malformed_record_stays :
  forall E m w a f,
    dir_lookup (record_name a) (fs w) = Some f ->
    (forall info, f <> Json (PDict info)) ->
    deliver E (record_name a) w = (Ret tt, w) /\
    exists w',
      repeat_drain E m w = (Ret tt, w') /\
      dir_lookup (record_name a) (fs w') = Some f /\
      exists files,
        get_pending_files E w' = (Ret files, w') /\ In (record_name a) files.
Proof.
  intros E m w a f Hlook Hf. split; [now apply (deliver_malformed E a f)|].
  revert w Hlook. induction m as [|m IH]; intros w Hlook.
  - exists w. split; [reflexivity|]. split; [exact Hlook|].
    eexists. split; [reflexivity|]. now apply (record_listed _ a f).
  - destruct (send_pending_files_frame E w) as (w1 & evs & Hrun & _).
    assert (Hkept : dir_lookup (record_name a) (fs w1) = Some f).
    { pose proof (send_pending_files_run E w) as Hcase. rewrite Hrun in Hcase.
      destruct (truthy (admin_id w)).
      - assert (Hkeep := fun Hd =>
                  for_each_deliver_keeps E (record_name a) f (admin_id w)
                    (glob (ignore_case E) "*.jpg" (fs w)
                       ++ glob (ignore_case E) "location_*.json" (fs w))
                    Hd w eq_refl Hlook).
        rewrite <- Hcase in Hkeep. apply Hkeep.
        intros w0 _ H0. now rewrite (deliver_malformed E a f w0 H0 Hf).
      - now injection Hcase as <-. }
    destruct (IH w1 Hkept) as (w' & Hrest & Hlook' & Hlisted).
    exists w'. cbn [repeat_drain]. unfold bind. rewrite Hrun.
    split; [exact Hrest|]. split; [exact Hlook'|exact Hlisted].
Qed.

Lemma malformed_record_stays_witness :
  dir_lookup (record_name "broken") (fs mixed_queue) = Some Garbage /\
  exists w',
    repeat_drain working_sink 3 mixed_queue = (Ret tt, w') /\
    dir_lookup (record_name "broken") (fs w') = Some Garbage.
Proof.
  split; [reflexivity|].
  destruct (malformed_record_stays working_sink 3 mixed_queue "broken" Garbage
              eq_refl ltac:(discriminate))
    as (_ & w' & Hrun & Hlook & _).
  exists w'. split; [exact Hrun | exact Hlook].
Defined.

Lemma deliver_accepted E name w :
  (forall k call, sink E k call = true) ->
  (forall f, name_matches (ignore_case E) "location_*.json" name = true ->
     dir_lookup name (fs w) = Some f -> exists info, f = Json (PDict info)) ->
  In name (glob (ignore_case E) "*.jpg" (fs w)
             ++ glob (ignore_case E) "location_*.json" (fs w)) ->
  dir_lookup name (fs (snd (deliver E name w))) = None.
Proof.
  intros Hsink Hjson Hin.
  assert (Hsome : dir_lookup name (fs w) <> None).
  { apply dir_lookup_In.
    apply in_app_or in Hin as [Hin|Hin]; now apply glob_In in Hin. }
  destruct (dir_lookup name (fs w)) as [f|] eqn:Hlook; [clear Hsome|congruence].
  unfold deliver, delete_file, os_remove, open_file, bot.
  destruct (String.eqb (path_suffix name) ".jpg") eqn:Hjpg.
  - repeat (cbv beta iota zeta delta
              [bind ret raise try_except orelse ticks interact
               any_exception negb andb fst snd get_admin_id];
            cbn [fs admin_id trace elapsed after];
            rewrite ?Hsink, ?Hlook).
    apply dir_lookup_remove_same.
  - destruct (String.eqb (path_suffix name) ".json" && contains "location" name)
      eqn:Hrec.
    + assert (Hmatch : name_matches (ignore_case E) "location_*.json" name = true).
      { apply in_app_or in Hin as [Hin|Hin]; apply glob_In in Hin as [_ Hmatch];
          [|exact Hmatch].
        apply photo_match_suffix in Hmatch.
        apply andb_true_iff in Hrec as [Hrec _].
        now apply String.eqb_eq in Hrec. }
      destruct (Hjson f Hmatch eq_refl) as [info ->].
      repeat (cbv beta iota zeta delta
                [bind ret raise try_except orelse ticks interact
                 any_exception negb andb fst snd dict_get
                 py_getitem py_get json_load get_admin_id];
              cbn [fs admin_id trace elapsed after truthy];
              rewrite ?Hsink, ?Hlook;
              try step).
      all: apply dir_lookup_remove_same.
    + repeat (cbv beta iota zeta delta
                [bind ret raise try_except orelse ticks interact
                 any_exception negb andb fst snd get_admin_id];
              cbn [fs admin_id trace elapsed after];
              rewrite ?Hsink, ?Hlook).
      apply dir_lookup_remove_same.
Qed.

(** X9. With a recipient registered, a sink that accepts every call and every
    location file, as the listing takes it, holding a JSON object, one
    drain leaves nothing pending. *)
Theorem drain_empties_queue :
  forall E w,
    truthy (admin_id w) = true ->
    (forall k call, sink E k call = true) ->
    (forall name f,
        name_matches (ignore_case E) "location_*.json" name = true ->
        dir_lookup name (fs w) = Some f -> exists info, f = Json (PDict info)) ->
    exists w',
      send_pending_files E w = (Ret tt, w') /\
      get_pending_files E w' = (Ret [], w').
Proof.
  intros E w Hadmin Hsink Hjson.
  set (l := glob (ignore_case E) "*.jpg" (fs w) ++ glob (ignore_case E) "location_*.json" (fs w)).
  destruct (for_each_deliver_frame E l w)
    as (w' & evs & Hrun & _ & _ & _ & Hnone & _ & _).
  exists w'. split; [now rewrite send_pending_files_run, Hadmin|].
  assert (Hgone : forall name, In name l -> dir_lookup name (fs w') = None).
  { intros name Hin.
    destruct (for_each_deliver_visits E name l w Hin)
      as (w0 & w1 & w2 & before & evs1 & later & Hrun2 & Hdel & Hlook & _
            & _ & _ & _ & Hlast).
    fold l in Hrun. rewrite Hrun in Hrun2. injection Hrun2 as <-.
    apply Hlast.
    assert (Hin0 : In name (glob (ignore_case E) "*.jpg" (fs w0)
                              ++ glob (ignore_case E) "location_*.json" (fs w0))).
    { apply in_or_app. apply in_app_or in Hin as [Hin|Hin];
        apply glob_In in Hin as [Hin Hmatch]; [left|right];
        apply glob_In; (split; [|exact Hmatch]);
        apply dir_lookup_In; rewrite Hlook; now apply dir_lookup_In. }
    pose proof (deliver_accepted E name w0 Hsink) as Hacc.
    rewrite Hdel in Hacc. apply Hacc; [|exact Hin0].
    intros f Hmatch Hf. apply (Hjson name f Hmatch). now rewrite <- Hlook. }
  unfold get_pending_files. f_equal. f_equal.
  destruct (glob (ignore_case E) "*.jpg" (fs w') ++ glob (ignore_case E) "location_*.json" (fs w'))
    as [|name rest] eqn:Hlist; [reflexivity|exfalso].
  assert (Hin' : In name (glob (ignore_case E) "*.jpg" (fs w')
                            ++ glob (ignore_case E) "location_*.json" (fs w')))
    by (rewrite Hlist; now left).
  assert (Hhere : dir_lookup name (fs w') <> None).
  { apply dir_lookup_In.
    apply in_app_or in Hin' as [H|H]; now apply glob_In in H. }
  apply Hhere, Hgone. apply in_or_app.
  apply in_app_or in Hin' as [H|H]; apply glob_In in H as [_ Hmatch];
    [left|right]; apply glob_In; (split; [|exact Hmatch]);
    apply dir_lookup_In; intros Habs; apply Hhere; now apply Hnone.
Qed.

Lemma drain_empties_queue_witness :
  exists w',
    send_pending_files working_sink photo_and_record = (Ret tt, w') /\
    get_pending_files working_sink w' = (Ret [], w').
Proof.
  apply (drain_empties_queue working_sink photo_and_record).
  - reflexivity.
  - reflexivity.
  - intros name f Hmatch Hlook. cbn [fs photo_and_record dir_lookup] in Hlook.
    destruct (String.eqb_spec "capture_20250115_100002.jpg" name) as [<-|_].
    + vm_compute in Hmatch. discriminate.
    + destruct (String.eqb (record_name "20250115_100006") name);
        [|discriminate].
      injection Hlook as <-. now exists sample_record.
Defined.

(* ================================================================= *)
(** ** Beyond the stated properties: one resolution as a whole *)

Lemma enrich_none precise ip :
  enrich precise ip = None <-> precise = None /\ ip = None.
Proof.
  destruct precise, ip; cbn; split; try discriminate; try tauto;
    intros [? ?]; discriminate.
Qed.

(** X10. One resolution asks the sensor first and the IP lookup last, each
    exactly once.  When the sensor gives a fix nothing is asked in
    between, and the answer is that fix with what the lookup adds.  When
    the sensor gives none, the Wi-Fi strategy runs in between, its scan
    and then, if it gets that far, the geolocation service, and the answer
    is made of its result and the lookup's.  The store and the
    registration stay as they were, and the answer is [None] exactly when
    the sensor, the Wi-Fi strategy and the lookup all failed. *)
Theorem resolve_call_order :
  forall E w,
    exists sensor r w',
      get_windows_location E w = (Ret sensor, after E EvPowershell w) /\
      get_location E w = (Ret r, w') /\
      fs w' = fs w /\ admin_id w' = admin_id w /\
      let ip := ip_success (ip_api E (length (trace w') - 1)) in
      match sensor with
      | Some found =>
          new_events w w' = [EvIpApi; EvPowershell] /\
          r = enrich (Some found) ip /\ r <> None
      | None =>
          exists wifi w1,
            get_wifi_location E (after E EvPowershell w) = (Ret wifi, w1) /\
            new_events w w'
              = EvIpApi :: new_events (after E EvPowershell w) w1
                  ++ [EvPowershell] /\
            (new_events (after E EvPowershell w) w1 = [EvNetsh] \/
             exists payload,
               new_events (after E EvPowershell w) w1
                 = [EvGeolocate payload; EvNetsh]) /\
            r = enrich wifi ip /\
            (r = None <-> wifi = None /\ ip = None)
      end.
Proof.
  intros E w.
  destruct (get_location_run E w) as (p & w2 & (win & Hwin & Hcase & _) & Hrun).
  assert (Hlast : forall v, length (trace (after E EvIpApi v)) - 1
                            = length (trace v))
    by (intros v; cbn [trace after length]; lia).
  exists win. eexists; eexists. split; [exact Hwin|]. split; [exact Hrun|].
  cbv zeta. rewrite Hlast.
  destruct Hcase as [(Hsome & -> & ->)|(-> & Hwifi)].
  - cbn [fs admin_id after]. split; [reflexivity|]. split; [reflexivity|].
    destruct win as [found|]; [|now destruct Hsome].
    split; [now apply new_events_app|]. split; [reflexivity|].
    intros Hnone. apply enrich_none in Hnone as [Hnone _]. discriminate.
  - destruct (get_wifi_location_run E (after E EvPowershell w))
      as (r0 & w0 & Hrun0 & Hw & _).
    rewrite Hwifi in Hrun0. injection Hrun0 as <- <-.
    destruct Hw as [->|(payload & ->)]; cbn [fs admin_id after].
    + split; [reflexivity|]. split; [reflexivity|].
      exists p. eexists. split; [exact Hwifi|].
      rewrite (new_events_app (after E EvPowershell w) _ [EvNetsh])
        by reflexivity.
      split; [now apply new_events_app|]. split; [now left|].
      split; [reflexivity|apply enrich_none].
    + split; [reflexivity|]. split; [reflexivity|].
      exists p. eexists. split; [exact Hwifi|].
      rewrite (new_events_app (after E EvPowershell w) _
                 [EvGeolocate payload; EvNetsh]) by reflexivity.
      split; [now apply new_events_app|].
      split; [right; now exists payload|].
      split; [reflexivity|apply enrich_none].
Qed.

Lemma resolve_call_order_witness :
  exists w',
    get_location offline empty_world = (Ret None, w') /\
    new_events empty_world w' = [EvIpApi; EvNetsh; EvPowershell] /\
    fst (get_wifi_location offline (after offline EvPowershell empty_world))
      = Ret None /\
    ip_success (ip_api offline 2) = None.
Proof.
  destruct (resolve_call_order offline empty_world)
    as (sensor & r & w' & Hsensor & Hrun & _ & _ & Hshape).
  assert (Hs : fst (get_windows_location offline empty_world) = Ret None)
    by (vm_compute; reflexivity).
  rewrite Hsensor in Hs. cbn [fst] in Hs. injection Hs as ->.
  assert (Hc : fst (get_location offline empty_world) = Ret None)
    by (vm_compute; reflexivity).
  assert (He : new_events empty_world (snd (get_location offline empty_world))
               = [EvIpApi; EvNetsh; EvPowershell])
    by (vm_compute; reflexivity).
  assert (Hl : length (trace (snd (get_location offline empty_world))) = 3)
    by (vm_compute; reflexivity).
  rewrite Hrun in Hc, He, Hl. cbn [fst snd] in Hc, He, Hl.
  injection Hc as ->.
  cbv zeta in Hshape.
  destruct Hshape as (wifi & w1 & Hwifi & _ & _ & _ & Hnone).
  destruct (proj1 Hnone eq_refl) as [-> Hip].
  exists w'. split; [exact Hrun|]. split; [exact He|].
  rewrite Hwifi. split; [reflexivity|]. now rewrite Hl in Hip.
Defined.

(* ================================================================= *)
(** ** Beyond the stated properties: one capture *)

Lemma capture_name_stem t :
  capture_name t = (("capture_" ++ strftime t) ++ ".jpg")%string.
Proof. unfold capture_name. now rewrite append_assoc. Qed.

Lemma map_fst_replace name f d : map fst (dir_replace name f d) = map fst d.
Proof.
  induction d as [|[n g] d IH]; [reflexivity|]. cbn [dir_replace].
  destruct (String.eqb n name); cbn [map fst]; [reflexivity|now rewrite IH].
Qed.

(** X11. One capture never raises.  Without a frame it stores nothing.  With a
    frame it stores that frame, and only it, under a name that matches
    [*.jpg]: the photo is pending at once, and delivering it sends that
    frame under that name to the registered recipient and removes the file
    when the call succeeds. *)
Theorem capture_round_trip :
  forall E w,
    exists r w1,
      capture E None w = (Ret r, w1) /\
      admin_id w1 = admin_id w /\
      match r with
      | None =>
          fs w1 = fs w /\
          forall frame, camera E (length (trace w)) <> CamFrame frame
      | Some name =>
          exists frame,
            camera E (length (trace w)) = CamFrame frame /\
            fnmatch "*.jpg" name = true /\
            dir_lookup name (fs w1) = Some (Image frame) /\
            (forall other, other <> name ->
               dir_lookup other (fs w1) = dir_lookup other (fs w)) /\
            (exists files,
                get_pending_files E w1 = (Ret files, w1) /\ In name files) /\
            let call := SendPhoto (admin_id w) name (Image frame) in
            new_events w1 (snd (deliver E name w1)) =
              if sink E (length (trace w1)) call
              then [EvRemove name; EvSink call true]
              else [EvSink call false]
      end.
Proof.
  intros E w. rewrite capture_run.
  destruct (camera E (length (trace w))) as [e| | |frame] eqn:Hcam;
    try (eexists; eexists; split; [reflexivity|]; split; [reflexivity|];
         split; [reflexivity|]; intros frame; discriminate).
  cbv zeta.
  set (w0 := after E (EvCamera true) w).
  set (name := capture_name (calendar E (elapsed w0))).
  eexists; eexists. split; [reflexivity|]. split; [reflexivity|].
  exists frame. split; [reflexivity|].
  split; [apply capture_name_photo|].
  assert (Hlook : dir_lookup name (fs (written E name (Image frame) w0))
                  = Some (Image frame)).
  { cbn [fs written after]. rewrite dir_lookup_write.
    now rewrite String.eqb_refl. }
  split; [exact Hlook|]. split.
  { intros other Hother. cbn [fs written after]. rewrite dir_lookup_write.
    destruct (String.eqb_spec name other); [congruence|reflexivity]. }
  split.
  { eexists. split; [reflexivity|]. apply in_or_app. left.
    apply glob_In. split; [|apply capture_name_listed].
    apply dir_lookup_In. now rewrite Hlook. }
  cbv zeta. subst name. rewrite capture_name_stem in *.
  rewrite (deliver_photo_run E _ (Image frame) _) by (discriminate || exact Hlook).
  cbv zeta.
  change (admin_id (written E _ (Image frame) w0)) with (admin_id w).
  destruct (sink E _ _); cbn [snd]; now apply new_events_app.
Qed.

Lemma capture_round_trip_witness :
  exists w1,
    capture same_second None empty_world
      = (Ret (Some "capture_20250115_100002.jpg"), w1) /\
    dir_lookup "capture_20250115_100002.jpg" (fs w1) = Some (Image 0) /\
    new_events w1 (snd (deliver same_second "capture_20250115_100002.jpg" w1))
      = [EvRemove "capture_20250115_100002.jpg";
         EvSink (SendPhoto PNone "capture_20250115_100002.jpg" (Image 0)) true].
Proof.
  destruct (capture_round_trip same_second empty_world) as (r & w1 & Hrun & _ & H).
  assert (Hc : fst (capture same_second None empty_world)
               = Ret (Some "capture_20250115_100002.jpg"))
    by (vm_compute; reflexivity).
  rewrite Hrun in Hc. cbn [fst] in Hc. injection Hc as ->.
  destruct H as (frame & Hcam & _ & Hlook & _ & _ & Hsend).
  injection Hcam as <-.
  exists w1. split; [exact Hrun|]. split; [exact Hlook|].
  cbv zeta in Hsend. rewrite Hsend. reflexivity.
Defined.

(** X12. Two captures that get the same name, as they do within one second of
    the wall clock, leave one file: the second frame replaces the first,
    and the store lists the same names as after the first capture. *)
Theorem same_second_capture_overwrites :
  forall E w name w1 w2,
    capture E None w = (Ret (Some name), w1) ->
    capture E None w1 = (Ret (Some name), w2) ->
    exists frame,
      camera E (length (trace w1)) = CamFrame frame /\
      dir_lookup name (fs w2) = Some (Image frame) /\
      map fst (fs w2) = map fst (fs w1) /\
      fst (get_pending_files E w2) = fst (get_pending_files E w1).
Proof.
  intros E w name w1 w2 H1 H2.
  assert (Hthere : dir_lookup name (fs w1) <> None).
  { rewrite capture_run in H1.
    destruct (camera E (length (trace w))); try discriminate.
    cbv zeta in H1. injection H1 as <- <-.
    cbn [fs written after]. rewrite dir_lookup_write, String.eqb_refl.
    discriminate. }
  rewrite capture_run in H2.
  destruct (camera E (length (trace w1))) as [e| | |frame]; try discriminate.
  cbv zeta in H2. injection H2 as Hname <-. rewrite Hname.
  exists frame. split; [reflexivity|].
  cbn [fs written after]. split.
  { rewrite dir_lookup_write. now rewrite String.eqb_refl. }
  assert (Hnames : map fst (dir_write (dir_slot E) name (Image frame) (fs w1))
                   = map fst (fs w1)).
  { unfold dir_write. destruct (dir_lookup name (fs w1)); [|congruence].
    apply map_fst_replace. }
  split; [exact Hnames|].
  unfold get_pending_files, glob. cbn [fst fs written after].
  now rewrite Hnames.
Qed.

Lemma same_second_capture_overwrites_witness :
  exists w1 w2,
    capture same_second None empty_world
      = (Ret (Some "capture_20250115_100002.jpg"), w1) /\
    capture same_second None w1
      = (Ret (Some "capture_20250115_100002.jpg"), w2) /\
    dir_lookup "capture_20250115_100002.jpg" (fs w1) = Some (Image 0) /\
    dir_lookup "capture_20250115_100002.jpg" (fs w2) = Some (Image 2) /\
    map fst (fs w2) = ["capture_20250115_100002.jpg"].
Proof.
  assert (H1 : capture same_second None empty_world
               = (Ret (Some "capture_20250115_100002.jpg"),
                  snd (capture same_second None empty_world)))
    by (vm_compute; reflexivity).
  assert (H2 : capture same_second None
                 (snd (capture same_second None empty_world))
               = (Ret (Some "capture_20250115_100002.jpg"),
                  snd (capture same_second None
                         (snd (capture same_second None empty_world)))))
    by (vm_compute; reflexivity).
  destruct (same_second_capture_overwrites same_second empty_world _ _ _ H1 H2)
    as (frame & Hcam & Hlook & Hnames & _).
  eexists; eexists. split; [exact H1|]. split; [exact H2|].
  split; [vm_compute; reflexivity|].
  split; [|rewrite Hnames; vm_compute; reflexivity].
  rewrite Hlook. f_equal. f_equal.
  assert (Hc : camera same_second
                 (length (trace (snd (capture same_second None empty_world))))
               = CamFrame 2) by (vm_compute; reflexivity).
  congruence.
Defined.

(* ================================================================= *)
(** ** Beyond the stated properties: the start-up burst *)

(** Every file the loop leaves is as the loop found it, or holds a frame
    that the camera delivered to one of its attempts. *)
Lemma capture_loop_frames E n :
  forall captured w captured' w',
    capture_loop E n captured w = (Ret captured', w') ->
    forall name,
      (dir_lookup name (fs w') = dir_lookup name (fs w) /\
       ~ In (EvWrite name) (new_events w w')) \/
      (exists k frame,
          length (trace w) <= k < length (trace w') /\
          camera E k = CamFrame frame /\
          dir_lookup name (fs w') = Some (Image frame)).
Proof.
  induction n as [|n IH]; intros c w c' w' Hrun name.
  - cbn in Hrun. injection Hrun as _ <-. left. split; [reflexivity|].
    unfold new_events. rewrite Nat.sub_diag. intros [].
  - rewrite capture_loop_step in Hrun.
    assert (Hgrow : forall v, capture_loop E n c v = (Ret c', w') \/
                              capture_loop E n (c + 1) v = (Ret c', w') ->
                              exists evs, trace w' = evs ++ trace v).
    { intros v [Hv|Hv].
      - destruct (capture_loop_events E n c v) as (c0 & w0 & evs & Hrun0 & Htr & _).
        rewrite Hv in Hrun0. injection Hrun0 as _ <-. now exists evs.
      - destruct (capture_loop_events E n (c + 1) v)
          as (c0 & w0 & evs & Hrun0 & Htr & _).
        rewrite Hv in Hrun0. injection Hrun0 as _ <-. now exists evs. }
    destruct (camera E (length (trace (slept E CAPTURE_DELAY w)))) eqn:Hcam.
    1-3: (destruct (Hgrow _ (or_introl Hrun)) as (evs & Htr);
          destruct (IH _ _ _ _ Hrun name) as [[Hsame Hnot]|(k & frame & Hk & Hf & Hl)];
          [left; split; [exact Hsame|];
           rewrite (new_events_app _ _ evs Htr) in Hnot;
           rewrite (new_events_app w w' (evs ++ [EvCamera false; EvSleep]))
             by (rewrite Htr, <- app_assoc; reflexivity);
           rewrite in_app_iff; intros [H|[H|[H|[]]]];
           [now apply Hnot | discriminate | discriminate]
          |right; exists k, frame; cbn [trace after slept length] in Hk;
           split; [lia|]; split; assumption]).
    cbv zeta in Hrun.
    set (ws := slept E CAPTURE_DELAY w) in *.
    set (w1 := after E (EvCamera true) ws) in *.
    set (name0 := capture_name (calendar E (elapsed w1))) in *.
    destruct (Hgrow _ (or_intror Hrun)) as (evs & Htr).
    destruct (IH _ _ _ _ Hrun name) as [[Hsame Hnot]|(k & frame0 & Hk & Hf & Hl)].
    + destruct (String.eqb_spec name0 name) as [Heq|Hne].
      * right. exists (length (trace ws)), frame.
        cbn [trace after slept length ws].
        split.
        { rewrite Htr, length_app. cbn [trace written after w1 ws slept length].
          lia. }
        split; [exact Hcam|]. rewrite Hsame. cbn [fs written after].
        rewrite dir_lookup_write, <- Heq. now rewrite String.eqb_refl.
      * left. split.
        { rewrite Hsame. cbn [fs written after w1 ws slept].
          rewrite dir_lookup_write.
          destruct (String.eqb_spec name0 name); [contradiction|reflexivity]. }
        rewrite (new_events_app _ _ evs Htr) in Hnot.
        rewrite (new_events_app w w'
                   (evs ++ [EvWrite name0; EvCamera true; EvSleep]))
          by (rewrite Htr, <- app_assoc; reflexivity).
        rewrite in_app_iff. intros [H|[H|[H|[H|[]]]]];
          [now apply Hnot | congruence | discriminate | discriminate].
    + right. exists k, frame0.
      cbn [trace written after w1 ws slept length] in Hk.
      split; [lia|]. split; assumption.
Qed.

(** X20. The burst makes all its attempts whatever the camera does, and a
    failed attempt only leaves the count of photos where it was: three
    attempts with one failure write two photos.  Every file the attempts
    wrote holds a frame that the camera delivered to one of them.  After
    the last attempt the resolver is called once.  When it returns no
    record the burst writes nothing more; when it returns one, the burst
    writes that record, as returned, to one location file and touches no
    other file, unless the default encoding cannot hold the record's
    text: then the burst ends with the exception of the write and the
    file holds no record.  When the wall clock moves forward during the
    burst and the store holds nothing stamped later than its start, the
    store gains one photo for each frame and that one location file. *)
Theorem burst_keeps_frames_and_record :
  forall E w,
    exists captured w1 location w2 r w',
      capture_loop E STARTUP_CAPTURES 0 w = (Ret captured, w1) /\
      get_location E w1 = (Ret location, w2) /\
      startup_capture E w = (r, w') /\
      let burst := new_events w w1 in
      let records := match location with Some _ => 1 | None => 0 end in
      count is_attempt burst = STARTUP_CAPTURES /\
      count is_frame burst + count is_failure burst = STARTUP_CAPTURES /\
      count is_photo_write burst = count is_frame burst /\
      captured = count is_frame burst /\
      (count is_failure burst = 1 -> count is_photo_write burst = 2) /\
      (forall name, In (EvWrite name) burst ->
         exists k frame,
           length (trace w) <= k < length (trace w1) /\
           camera E k = CamFrame frame /\
           dir_lookup name (fs w1) = Some (Image frame)) /\
      count is_sensor_event (new_events w1 w2) = 1 /\
      count is_ip_event (new_events w1 w2) = 1 /\
      fs w2 = fs w1 /\
      match location with
      | None => r = Ret captured /\ w' = w2
      | Some doc =>
          let name := location_name (calendar E (elapsed w2)) in
          new_events w2 w' = [EvWrite name] /\
          (forall other, other <> name ->
             dir_lookup other (fs w') = dir_lookup other (fs w1)) /\
          if encodes E (PDict doc)
          then r = Ret captured /\
               dir_lookup name (fs w') = Some (Json (PDict doc))
          else r = Raise ValueError /\
               dir_lookup name (fs w') = Some Garbage
      end /\
      (clock_ok E (elapsed w) (elapsed w') ->
       no_later_stamp E (elapsed w) (elapsed w') (fs w) ->
       length (glob (ignore_case E) "*.jpg" (fs w'))
         = length (glob (ignore_case E) "*.jpg" (fs w)) + count is_frame burst /\
       length (glob (ignore_case E) "location_*.json" (fs w'))
         = length (glob (ignore_case E) "location_*.json" (fs w)) + records).
Proof.
  intros E w.
  destruct (startup_capture_run E w) as (c & w1 & loc & w2 & Hloop & Hloc & Hrun).
  exists c, w1, loc, w2. eexists; eexists.
  split; [exact Hloop|]. split; [exact Hloc|].
  split; [apply surjective_pairing|].
  destruct (capture_loop_events E STARTUP_CAPTURES 0 w)
    as (c0 & w0 & evs & Hloop0 & Htr & _ & Hat & Hc & Hpw & Hsum & Hlw & Hip & Hel).
  rewrite Hloop in Hloop0. injection Hloop0 as <- <-.
  destruct (get_location_frame _ _ _ _ Hloc)
    as (Hfs & _ & Hel2 & evs2 & Htr2 & Hip2 & Hse2 & Hwr2).
  cbv zeta. rewrite (new_events_app w w1 evs Htr).
  rewrite (new_events_app w1 w2 evs2 Htr2).
  repeat (split; [first [assumption | lia]|]).
  split; [unfold STARTUP_CAPTURES in Hsum; lia|].
  split.
  { intros name Hin.
    destruct (capture_loop_frames E _ _ _ _ _ Hloop name)
      as [[_ Hnot]|H]; [|exact H].
    rewrite (new_events_app w w1 evs Htr) in Hnot. contradiction. }
  split; [assumption|]. split; [assumption|]. split; [assumption|].
  set (name := location_name (calendar E (elapsed w2))) in *.
  assert (Hw' : snd (startup_capture E w) =
                match loc with
                | Some doc =>
                    written E name
                      (if encodes E (PDict doc) then Json (PDict doc) else Garbage)
                      w2
                | None => w2
                end).
  { rewrite Hrun. destruct loc as [doc|]; [|reflexivity].
    cbv zeta. now destruct (encodes E (PDict doc)). }
  split.
  - rewrite Hrun. destruct loc as [doc|]; [|split; reflexivity].
    cbv zeta. fold name.
    assert (Hother : forall f other, other <> name ->
              dir_lookup other (fs (written E name f w2))
              = dir_lookup other (fs w1)).
    { intros f other Hne. cbn [fs written after]. rewrite dir_lookup_write, Hfs.
      destruct (String.eqb_spec name other); congruence. }
    assert (Hhere : forall f,
              dir_lookup name (fs (written E name f w2)) = Some f).
    { intros f. cbn [fs written after]. rewrite dir_lookup_write.
      now rewrite String.eqb_refl. }
    destruct (encodes E (PDict doc)); cbn [fst snd].
    + split; [apply new_events_app, written_events|].
      split; [apply Hother|]. split; [reflexivity|apply Hhere].
    + split; [apply new_events_app, written_events|].
      split; [apply Hother|]. split; [reflexivity|apply Hhere].
  - rewrite Hw'. clear Hw' Hrun.
    set (w' := match loc with
               | Some doc => written E name _ w2
               | None => w2
               end).
    assert (Hw2 : elapsed w2 <= elapsed w')
      by (unfold w'; destruct loc; cbn [elapsed written after]; lia).
    intros Hclock Hstamp.
    destruct (capture_loop_store E (elapsed w') STARTUP_CAPTURES _ _ _ _ Hloop)
      as [Hphotos Hlocs]; try assumption.
    + lia.
    + intros i Hi Hih. now apply Hstamp.
    + unfold w'. destruct loc as [doc|].
      * cbn [fs written after]. rewrite Hfs.
        assert (Hnew : dir_lookup name (fs w1) = None).
        { rewrite (capture_loop_other_names _ _ _ _ _ _ Hloop)
            by apply location_name_not_photo.
          apply Hstamp;
            [unfold STARTUP_CAPTURES, CAPTURE_DELAY in Hel; lia|exact Hw2]. }
        rewrite !glob_write_fresh by exact Hnew.
        unfold name.
        rewrite location_name_not_listed_photo, location_name_listed. lia.
      * rewrite Hfs. lia.
Qed.

Lemma burst_keeps_frames_and_record_witness :
  exists w',
    startup_capture one_failure empty_world = (Ret 2, w') /\
    count is_failure (new_events empty_world w') = 1 /\
    length (glob (ignore_case one_failure) "*.jpg" (fs w')) = 2 /\
    length (glob (ignore_case one_failure) "location_*.json" (fs w')) = 1.
Proof.
  destruct (burst_keeps_frames_and_record one_failure empty_world)
    as (c & w1 & loc & w2 & r & w' & Hloop & Hloc & Hrun & H).
  cbv zeta in H.
  destruct H as (_ & _ & _ & Hc & _ & _ & _ & _ & _ & _ & Hstore).
  vm_compute in Hloop. injection Hloop as <- <-.
  vm_compute in Hloc. injection Hloc as <- <-.
  assert (Hr : r = Ret 2 /\ elapsed w' = 6).
  { vm_compute in Hrun. injection Hrun as <- <-. split; reflexivity. }
  destruct Hr as [-> Hw].
  destruct Hstore as [Hphotos Hlocs].
  - rewrite Hw. apply sample_clock_ok; [reflexivity|lia].
  - intros i _ _. split; reflexivity.
  - exists w'. rewrite Hrun, Hphotos, Hlocs.
    split; [reflexivity|].
    split; [|split; reflexivity].
    vm_compute in Hrun. injection Hrun as <-. reflexivity.
Defined.

(* ================================================================= *)
(** ** Beyond the stated properties: the start-up alert *)

Lemma wait_for_internet_once E n w :
  probe E (length (trace w)) = true \/ n = 0 ->
  wait_for_internet E n w = (Ret tt, after E EvProbe w).
Proof.
  intros Hcase. destruct n; cbn [wait_for_internet];
    unfold check_internet; run;
    destruct (probe E (length (trace w))); cbn [negb]; try reflexivity.
  destruct Hcase; discriminate.
Qed.

Lemma wait_for_internet_run E n :
  forall w,
    exists w' evs,
      wait_for_internet E n w = (Ret tt, w') /\
      fs w' = fs w /\ admin_id w' = admin_id w /\
      trace w' = evs ++ trace w /\
      count is_probe_event evs = S (count is_sleep_event evs) /\
      count is_sleep_event evs <= n /\
      count is_probe_event evs + count is_sleep_event evs = length evs /\
      elapsed w + 2 * count is_sleep_event evs <= elapsed w' /\
      (probe E (length (trace w)) = true -> evs = [EvProbe]) /\
      (count is_sleep_event evs < n ->
       probe E (length (trace w') - 1) = true).
Proof.
  assert (Hone : count is_probe_event [EvProbe] = 1
                 /\ count is_sleep_event [EvProbe] = 0) by (split; reflexivity).
  destruct Hone as [Hone Hnil].
  induction n as [|n IH]; intros w.
  - exists (after E EvProbe w), [EvProbe].
    split; [apply wait_for_internet_once; now right|].
    cbn [fs admin_id trace elapsed after length]. rewrite Hone, Hnil.
    repeat split; try reflexivity; lia.
  - destruct (probe E (length (trace w))) eqn:Hp.
    + exists (after E EvProbe w), [EvProbe].
      split; [apply wait_for_internet_once; now left|].
      cbn [fs admin_id trace elapsed after length]. rewrite Hone, Hnil.
      repeat split; try reflexivity; try lia.
      intros _.
      now replace (S (length (trace w)) - 1) with (length (trace w)) by lia.
    + cbn [wait_for_internet]. unfold check_internet. run. rewrite Hp.
      cbn [negb]. unfold time_sleep, interact.
      match goal with
      | |- context [wait_for_internet E n ?v] =>
          destruct (IH v) as (w' & evs & Hrun & Hfs & Had & Htr & Hpr & Hsl
                                & Hlen & Hel & _ & Hlast)
      end.
      exists w', (evs ++ [EvSleep; EvProbe]). rewrite Hrun.
      split; [reflexivity|]. cbn [fs admin_id trace elapsed after] in *.
      split; [exact Hfs|]. split; [exact Had|].
      split; [rewrite Htr, <- app_assoc; reflexivity|].
      rewrite !count_app, length_app.
      change (count is_probe_event [EvSleep; EvProbe]) with 1.
      change (count is_sleep_event [EvSleep; EvProbe]) with 1.
      cbn [length].
      repeat split; try lia; try congruence.
      intros H. apply Hlast. lia.
Qed.

Lemma concat_repeat_comm {A} (l : list A) k :
  concat (repeat l k) ++ l = l ++ concat (repeat l k).
Proof.
  induction k as [|k IH]; cbn [repeat concat].
  - now rewrite app_nil_r.
  - now rewrite <- app_assoc, IH.
Qed.

(** The loop by the number of probes that failed before it ended. *)
Lemma wait_for_internet_shape E n :
  forall w,
    exists failed w',
      wait_for_internet E n w = (Ret tt, w') /\
      failed <= n /\
      trace w' = (concat (repeat [EvProbe; EvSleep] failed) ++ [EvProbe])
                   ++ trace w /\
      (forall i, i < failed -> probe E (length (trace w) + 2 * i) = false) /\
      (failed < n -> probe E (length (trace w) + 2 * failed) = true) /\
      elapsed w' = elapsed w + 2 * failed
                   + list_sum (map (latency E)
                                 (seq (length (trace w)) (2 * failed + 1))).
Proof.
  induction n as [|n IH]; intros w.
  - exists 0, (after E EvProbe w).
    split; [apply wait_for_internet_once; now right|].
    unfold list_sum.
    cbn [fs admin_id trace elapsed after repeat concat app seq map fold_right
         Nat.mul Nat.add].
    split; [lia|]. split; [reflexivity|]. split; [intros i Hi; lia|].
    split; [intros Hi; lia|]. lia.
  - destruct (probe E (length (trace w))) eqn:Hp.
    + exists 0, (after E EvProbe w).
      split; [apply wait_for_internet_once; now left|].
      unfold list_sum.
      cbn [fs admin_id trace elapsed after repeat concat app seq map fold_right
           Nat.mul Nat.add].
      split; [lia|]. split; [reflexivity|]. split; [intros i Hi; lia|].
      split; [|lia].
      intros _. now rewrite Nat.add_0_r.
    + cbn [wait_for_internet]. unfold check_internet. run. rewrite Hp.
      cbn [negb]. unfold time_sleep, interact.
      match goal with
      | |- context [wait_for_internet E n ?v] =>
          destruct (IH v) as (k & w' & Hrun & Hk & Htr & Hfail & Hlast & Hel)
      end.
      exists (S k), w'. rewrite Hrun. split; [reflexivity|].
      cbn [fs admin_id trace elapsed after length] in *.
      split; [lia|]. split; [|split; [|split]].
      * rewrite Htr. cbn [repeat concat].
        change (EvSleep :: EvProbe :: trace w)
          with ([EvSleep; EvProbe] ++ trace w).
        rewrite !app_assoc. f_equal.
        rewrite <- !app_assoc.
        change ([EvProbe] ++ [EvSleep; EvProbe])
          with ([EvProbe; EvSleep] ++ [EvProbe]).
        rewrite !app_assoc. f_equal.
        apply concat_repeat_comm.
      * intros i Hi. destruct i as [|i]; [now rewrite Nat.add_0_r|].
        replace (length (trace w) + 2 * S i)
          with (S (S (length (trace w))) + 2 * i) by lia.
        apply Hfail. lia.
      * intros Hlt.
        replace (length (trace w) + 2 * S k)
          with (S (S (length (trace w))) + 2 * k) by lia.
        apply Hlast. lia.
      * rewrite Hel.
        replace (2 * S k + 1) with (S (S (2 * k + 1))) by lia.
        unfold list_sum. cbn [seq map fold_right]. lia.
Qed.

(** X13. With nobody registered the start-up alert does nothing.  Otherwise it
    probes the network until a probe succeeds or 30 probes failed, sleeping
    two seconds after each probe that failed and doing nothing else: the
    trace is one probe and one sleep for each failed probe and then the
    probe that ended the wait, which succeeded when fewer than 30 failed,
    and the time passed is two seconds for each sleep and the time the
    calls took.  Then it probes once more, and when that probe fails it
    returns having made no other call and with the store as it was,
    whatever the Telegram calls would have done. *)
Theorem startup_alert_gate :
  forall E telegram w,
    (truthy (admin_id w) = false ->
     send_startup_alert E telegram w = (Ret tt, w)) /\
    (truthy (admin_id w) = true ->
     exists failed w1,
       wait_for_internet E 30 w = (Ret tt, w1) /\
       failed <= 30 /\
       new_events w w1
         = concat (repeat [EvProbe; EvSleep] failed) ++ [EvProbe] /\
       (forall i, i < failed -> probe E (length (trace w) + 2 * i) = false) /\
       (failed < 30 -> probe E (length (trace w) + 2 * failed) = true) /\
       elapsed w1 = elapsed w + 2 * failed
                    + list_sum (map (latency E)
                                  (seq (length (trace w)) (2 * failed + 1))) /\
       fs w1 = fs w /\
       (probe E (length (trace w1)) = false ->
        send_startup_alert E telegram w = (Ret tt, after E EvProbe w1) /\
        new_events w (after E EvProbe w1)
          = EvProbe :: concat (repeat [EvProbe; EvSleep] failed) ++ [EvProbe] /\
        fs (after E EvProbe w1) = fs w)).
Proof.
  intros E telegram w. split; intros Hadmin.
  - unfold send_startup_alert, get_admin_id. unfold bind at 1.
    cbv beta iota. now rewrite Hadmin.
  - destruct (wait_for_internet_shape E 30 w)
      as (failed & w1 & Hrun & Hk & Htr & Hfail & Hlast & Hel).
    destruct (wait_for_internet_run E 30 w)
      as (w1' & evs & Hrun' & Hfs & _).
    rewrite Hrun in Hrun'. injection Hrun' as <-.
    exists failed, w1. split; [exact Hrun|]. split; [exact Hk|].
    split; [now apply new_events_app|]. split; [exact Hfail|].
    split; [exact Hlast|]. split; [exact Hel|]. split; [exact Hfs|].
    intros Hprobe. split; [|split; [|exact Hfs]].
    + unfold send_startup_alert, get_admin_id. unfold bind at 1.
      cbv beta iota. rewrite Hadmin. cbn [negb].
      unfold bind at 1. rewrite Hrun.
      unfold bind at 1. unfold check_internet. run. now rewrite Hprobe.
    + apply new_events_app. cbn [trace after]. now rewrite Htr.
Qed.

Lemma startup_alert_gate_witness :
  exists w1,
    wait_for_internet offline 30 queued_photo = (Ret tt, w1) /\
    new_events queued_photo w1
      = concat (repeat [EvProbe; EvSleep] 30) ++ [EvProbe] /\
    elapsed w1 = elapsed queued_photo + 2 * 30
                 + list_sum (map (latency offline)
                               (seq (length (trace queued_photo)) 61)) /\
    send_startup_alert offline quiet queued_photo
      = (Ret tt, after offline EvProbe w1) /\
    fs (after offline EvProbe w1) = fs queued_photo.
Proof.
  destruct (proj2 (startup_alert_gate offline quiet queued_photo) eq_refl)
    as (failed & w1 & Hrun & Hk & Hevs & _ & Hlast & Hel & _ & Hoff).
  assert (Hfailed : failed = 30).
  { destruct (Nat.eq_dec failed 30) as [H|H]; [exact H|].
    assert (Hlt : failed < 30) by lia.
    apply Hlast in Hlt. discriminate. }
  subst failed.
  destruct (Hoff eq_refl) as (Hskip & _ & Hfs).
  exists w1. split; [exact Hrun|]. split; [exact Hevs|].
  split; [exact Hel|]. split; [exact Hskip | exact Hfs].
Defined.

(** X14. When the network answered, the alert goes out first, with the location
    when there is one, and then the map when the location has a fix; the
    pending files are drained only after these calls succeeded.  A call that
    fails ends the alert there: the error is swallowed and the drain is
    skipped. *)
Theorem startup_alert_then_drain :
  forall E telegram w w1 location w2,
    truthy (admin_id w) = true ->
    wait_for_internet E 30 w = (Ret tt, w1) ->
    probe E (length (trace w1)) = true ->
    get_location E (after E EvProbe w1) = (Ret location, w2) ->
    let alert := alert_of (admin_id w) (calendar E (elapsed w2)) location in
    send_startup_alert E telegram w =
      match telegram alert w2 with
      | (Raise _, w3) => (Ret tt, w3)
      | (Ret _, w3) =>
          if has_fix (record_of location) then
            let call := coordinates_of (admin_id w3) (record_of location) in
            if sink E (length (trace w3)) call
            then send_pending_files E (after E (EvSink call true) w3)
            else (Ret tt, after E (EvSink call false) w3)
          else send_pending_files E w3
      end.
Proof.
  intros E telegram w w1 location w2 Hadmin Hwait Hprobe Hloc alert.
  assert (Had2 : admin_id w2 = admin_id w).
  { destruct (get_location_frame _ _ _ _ Hloc) as (_ & Had & _).
    destruct (wait_for_internet_run E 30 w) as (w1' & evs & Hrun & _ & Had1 & _).
    rewrite Hwait in Hrun. injection Hrun as <-.
    rewrite Had. cbn [admin_id after]. exact Had1. }
  unfold send_startup_alert, get_admin_id.
  unfold bind at 1. cbv beta iota. rewrite Hadmin. cbn [negb].
  unfold bind at 1. rewrite Hwait.
  unfold bind at 1. unfold check_internet. run. rewrite Hprobe. cbn [negb].
  rewrite Hloc. unfold datetime_now. subst alert.
  assert (Hdrain : forall v,
             (let (o, w') := send_pending_files E v in
              match o with
              | Ret a => (Ret a, w')
              | Raise e => if any_exception e then (Ret tt, w') else (Raise e, w')
              end) = send_pending_files E v).
  { intros v. destruct (send_pending_files_frame E v) as (v' & evs & Hrun & _).
    now rewrite Hrun. }
  destruct location as [d|].
  - rewrite (get_location_nonempty _ _ _ _ d Hloc eq_refl).
    destruct (get_location_keys _ _ _ _ Hloc)
      as (ip & country & city & region & isp & tz & la & lo
            & Hip & Hco & Hci & Hre & His & Htz & Hla & Hlo).
    unfold alert_of, has_fix, coordinates_of, record_of, dict_get, py_getitem,
      py_get, bot.
    run. unfold dict_get. rewrite Hip, Hci, Hco, His, Hla, Hlo, Had2.
    cbv beta iota.
    destruct (telegram _ w2) as [[u|e] w3]; [|reflexivity].
    destruct (truthy la); cbn [andb]; [|apply Hdrain].
    destruct (truthy lo); [|apply Hdrain].
    destruct (sink E (length (trace w3)) _); [apply Hdrain|reflexivity].
  - cbn [some_nonempty]. unfold alert_of, has_fix, record_of, dict_get.
    cbn [dict_lookup truthy andb]. rewrite Had2.
    destruct (telegram _ w2) as [[u|e] w3]; [apply Hdrain|reflexivity].
Qed.

Lemma startup_alert_then_drain_witness :
  exists w1,
    wait_for_internet late_network 30 photo_and_record = (Ret tt, w1) /\
    new_events photo_and_record w1
      = [EvProbe; EvSleep; EvProbe; EvSleep; EvProbe] /\
    send_startup_alert late_network quiet photo_and_record
      = send_pending_files late_network
          (snd (get_location late_network (after late_network EvProbe w1))) /\
    send_startup_alert late_network unreachable photo_and_record
      = (Ret tt, snd (get_location late_network (after late_network EvProbe w1))) /\
    fs (snd (send_startup_alert late_network quiet photo_and_record)) = [] /\
    fs (snd (send_startup_alert late_network unreachable photo_and_record))
      = fs photo_and_record.
Proof.
  set (w1 := snd (wait_for_internet late_network 30 photo_and_record)).
  assert (Hwait : wait_for_internet late_network 30 photo_and_record
                  = (Ret tt, w1)) by (vm_compute; reflexivity).
  assert (Hprobe : probe late_network (length (trace w1)) = true)
    by (vm_compute; reflexivity).
  assert (Hloc : get_location late_network (after late_network EvProbe w1)
                 = (Ret None,
                    snd (get_location late_network
                           (after late_network EvProbe w1))))
    by (vm_compute; reflexivity).
  pose proof (startup_alert_then_drain late_network quiet photo_and_record
                w1 None _ eq_refl Hwait Hprobe Hloc) as Hquiet.
  pose proof (startup_alert_then_drain late_network unreachable photo_and_record
                w1 None _ eq_refl Hwait Hprobe Hloc) as Hdown.
  cbv zeta in Hquiet, Hdown.
  exists w1. split; [exact Hwait|]. split; [vm_compute; reflexivity|].
  split; [exact Hquiet|]. split; [exact Hdown|].
  rewrite Hquiet, Hdown. split; vm_compute; reflexivity.
Defined.

(* ================================================================= *)
(** ** Beyond the stated properties: the handlers *)

(** A progress animation never raises, and keeps whatever every Telegram
    call keeps. *)
Lemma animation_run {T A} (telegram : panel_call -> prog unit)
    (keeps : world -> T) (text : A -> panel_call) (l : list A) :
  (forall call v, keeps (snd (telegram call v)) = keeps v) ->
  forall w,
    exists w',
      for_each l
        (fun x => try_except (telegram (text x)) any_exception (ret tt)) w
      = (Ret tt, w') /\
      keeps w' = keeps w.
Proof.
  intros Hkeeps. induction l as [|x l IH]; intros w.
  - now exists w.
  - cbn [for_each]. unfold bind, try_except.
    pose proof (Hkeeps (text x) w) as Hk.
    destruct (telegram (text x) w) as [[u|e] w1]; cbn [snd any_exception] in *;
      destruct (IH w1) as (w' & Hrun & Hk'); exists w';
      (split; [exact Hrun|congruence]).
Qed.

(** X15. [/start] registers the chat it came from, whoever was registered
    before and whether or not the replies go through; when they do, the
    pending files are drained to that chat. *)
Theorem start_registers_sender :
  forall E telegram chat_id w,
    (forall call v, admin_id (snd (telegram call v)) = admin_id v) ->
    exists r w',
      cmd_start E telegram chat_id w = (r, w') /\
      admin_id w' = chat_id /\
      (r = Ret tt ->
       exists w1,
         admin_id w1 = chat_id /\
         send_pending_files E w1 = (Ret tt, w') /\
         forall call ok,
           In (EvSink call ok) (new_events w1 w') ->
           recipient call = Some chat_id).
Proof.
  intros E telegram chat_id w Hkeeps.
  unfold cmd_start, set_admin. unfold bind at 1. cbv beta iota.
  set (w0 := mkWorld (fs w) chat_id (trace w) (elapsed w)).
  unfold bind at 1.
  pose proof (Hkeeps StartBanner w0) as Hk1.
  change (admin_id w0) with chat_id in Hk1.
  destruct (telegram StartBanner w0) as [[u|e] wa]; cbn [snd] in Hk1.
  2: { exists (Raise e), wa. split; [reflexivity|]. split; [exact Hk1|].
       discriminate. }
  unfold bind at 1.
  destruct (animation_run telegram admin_id StartStage (seq 0 6) Hkeeps wa)
    as (wb & Hrun & Hk2).
  rewrite Hrun. unfold bind at 1.
  pose proof (Hkeeps StartMenu wb) as Hk3.
  destruct (telegram StartMenu wb) as [[u'|e] wc]; cbn [snd] in Hk3.
  2: { exists (Raise e), wc. split; [reflexivity|]. split; [congruence|].
       discriminate. }
  destruct (send_pending_files_shape E wc)
    as (w' & evs & gone & Hdrain & Had & Htr & Hto & _).
  assert (Hc : admin_id wc = chat_id) by (rewrite Hk3, Hk2, Hk1; reflexivity).
  exists (Ret tt), w'. split; [exact Hdrain|]. split; [congruence|].
  intros _. exists wc. split; [exact Hc|]. split; [exact Hdrain|].
  intros call ok Hin. rewrite (new_events_app wc w' evs Htr) in Hin.
  rewrite Forall_forall in Hto. rewrite <- Hc. exact (Hto _ Hin).
Qed.

Lemma start_registers_sender_witness :
  exists w',
    cmd_start working_sink quiet (PNum (num_of_Z 7)) photo_and_record
      = (Ret tt, w') /\
    admin_id photo_and_record = PNum (num_of_Z 42) /\
    admin_id w' = PNum (num_of_Z 7) /\
    In (EvSink (SendPhoto (PNum (num_of_Z 7)) "capture_20250115_100002.jpg"
                  (Image 1)) true)
       (trace w').
Proof.
  destruct (start_registers_sender working_sink quiet (PNum (num_of_Z 7))
              photo_and_record (fun _ _ => eq_refl))
    as (r & w' & Hrun & Had & _).
  assert (Hc : fst (cmd_start working_sink quiet (PNum (num_of_Z 7))
                      photo_and_record) = Ret tt
               /\ In (EvSink (SendPhoto (PNum (num_of_Z 7))
                                "capture_20250115_100002.jpg" (Image 1)) true)
                     (trace (snd (cmd_start working_sink quiet
                                    (PNum (num_of_Z 7)) photo_and_record)))).
  { vm_compute. split; [reflexivity|]. do 4 right. left. reflexivity. }
  rewrite Hrun in Hc. cbn [fst snd] in Hc. destruct Hc as [-> Hin].
  exists w'. split; [exact Hrun|]. split; [reflexivity|].
  split; [exact Had | exact Hin].
Defined.

(** X16. The capture button never deletes a photo it has not handed over:
    whatever the Telegram calls do, as long as they leave the store alone,
    the photo it stored is either still there, and the handler raised, or
    gone after [reply_photo] returned; every other file is as it was.
    Without a frame the store is as it was. *)
Theorem button_capture_keeps_unsent_photo :
  forall E telegram w,
    (forall call v, fs (snd (telegram call v)) = fs v) ->
    exists w0 r w',
      for_each (seq 0 6)
        (fun n => try_except (telegram (CaptureStage n)) any_exception (ret tt)) w
      = (Ret tt, w0) /\
      fs w0 = fs w /\
      handle_capture E telegram w = (r, w') /\
      match camera E (length (trace w0)) with
      | CamFrame frame =>
          let name :=
            capture_name (calendar E (elapsed (after E (EvCamera true) w0))) in
          (forall other, other <> name ->
             dir_lookup other (fs w') = dir_lookup other (fs w)) /\
          ((dir_lookup name (fs w') = Some (Image frame) /\
            exists e, r = Raise e) \/
           (dir_lookup name (fs w') = None /\
            exists time v v',
              telegram (ReplyPhoto name (Image frame) time) v = (Ret tt, v')))
      | _ => fs w' = fs w
      end.
Proof.
  intros E telegram w Hkeeps.
  destruct (animation_run telegram fs CaptureStage (seq 0 6) Hkeeps w)
    as (w0 & Hstages & Hfs0).
  exists w0. unfold handle_capture. unfold bind at 1. rewrite Hstages.
  unfold bind at 1. rewrite capture_run.
  destruct (camera E (length (trace w0))) as [e| | |frame].
  1-3: pose proof (Hkeeps WebcamNotAvailable (after E (EvCamera false) w0)) as Hk;
    destruct (telegram WebcamNotAvailable (after E (EvCamera false) w0))
      as [r w'] eqn:Hrun;
    exists r, w'; (split; [reflexivity|]); (split; [exact Hfs0|]);
    (split; [reflexivity|]); cbn [snd] in Hk; rewrite Hk; exact Hfs0.
  cbv zeta.
  set (wc := after E (EvCamera true) w0).
  set (name := capture_name (calendar E (elapsed wc))).
  set (w1 := written E name (Image frame) wc).
  assert (Hlook1 : dir_lookup name (fs w1) = Some (Image frame)).
  { cbn [fs w1 written after]. rewrite dir_lookup_write.
    now rewrite String.eqb_refl. }
  assert (Hother1 : forall other, other <> name ->
                      dir_lookup other (fs w1) = dir_lookup other (fs w)).
  { intros other Hother. cbn [fs w1 written after wc]. rewrite dir_lookup_write.
    destruct (String.eqb_spec name other); [congruence|now rewrite Hfs0]. }
  unfold bind at 1.
  pose proof (Hkeeps Uploading w1) as Hk2.
  destruct (telegram Uploading w1) as [[u|e] w2]; cbn [snd] in Hk2.
  2: { exists (Raise e), w2. split; [reflexivity|]. split; [exact Hfs0|].
       split; [reflexivity|]. rewrite Hk2. split; [exact Hother1|].
       left. split; [exact Hlook1|now exists e]. }
  unfold bind at 1. unfold open_file. rewrite Hk2, Hlook1.
  cbv beta iota delta [orelse ret]. unfold bind at 1. unfold datetime_now.
  cbv beta iota. unfold bind at 1.
  pose proof (Hkeeps (ReplyPhoto name (Image frame) (calendar E (elapsed w2))) w2)
    as Hk3.
  destruct (telegram (ReplyPhoto name (Image frame) (calendar E (elapsed w2))) w2)
    as [[[]|e] w3] eqn:Hreply; cbn [snd] in Hk3.
  2: { exists (Raise e), w3. split; [reflexivity|]. split; [exact Hfs0|].
       split; [reflexivity|]. rewrite Hk3, Hk2. split; [exact Hother1|].
       left. split; [exact Hlook1|now exists e]. }
  unfold bind at 1. rewrite delete_file_run, Hk3, Hk2, Hlook1.
  match goal with
  | |- context [telegram PhotoSent ?v] =>
      pose proof (Hkeeps PhotoSent v) as Hk4;
      destruct (telegram PhotoSent v) as [r w'] eqn:Hsent
  end.
  cbn [snd fs after] in Hk4.
  exists r, w'. split; [reflexivity|]. split; [exact Hfs0|].
  split; [reflexivity|]. rewrite Hk4. split.
  - intros other Hother. rewrite dir_lookup_remove_other by exact Hother.
    rewrite ?Hk3, ?Hk2. now apply Hother1.
  - right. split; [apply dir_lookup_remove_same|].
    now exists (calendar E (elapsed w2)), w2, w3.
Qed.

Lemma button_capture_keeps_unsent_photo_witness :
  exists w',
    handle_capture same_second unreachable empty_world
      = (Raise NetworkError, w') /\
    dir_lookup "capture_20250115_100002.jpg" (fs w') = Some (Image 0).
Proof.
  destruct (button_capture_keeps_unsent_photo same_second unreachable
              empty_world (fun _ _ => eq_refl))
    as (w0 & r & w' & Hstages & _ & Hrun & H).
  assert (Hc : for_each (seq 0 6)
                 (fun n => try_except (unreachable (CaptureStage n))
                             any_exception (ret tt)) empty_world
               = (Ret tt, empty_world)) by reflexivity.
  rewrite Hc in Hstages. injection Hstages as <-.
  change (camera same_second (length (trace empty_world))) with (CamFrame 0) in H.
  cbv zeta in H.
  destruct H as [_ [[Hlook _]|[_ (time & v & v' & Habs)]]]; [|discriminate Habs].
  assert (Hr : fst (handle_capture same_second unreachable empty_world)
               = Raise NetworkError) by (vm_compute; reflexivity).
  rewrite Hrun in Hr. cbn [fst] in Hr. subst r.
  exists w'. split; [exact Hrun | exact Hlook].
Defined.

(** X17. The pending-files button reports every listed file as sent whatever the
    drain did: with nobody registered, or with a sink that refuses every
    call while every listed file is one the drain delivers as a photo or
    as a location record, its last message still announces the number of
    files that were pending, and all of them are still in the store. *)
Theorem pending_report_ignores_outcome :
  forall E telegram w,
    (forall call v, fs (snd (telegram call v)) = fs v) ->
    (forall call v, admin_id (snd (telegram call v)) = admin_id v) ->
    let files := glob (ignore_case E) "*.jpg" (fs w)
                   ++ glob (ignore_case E) "location_*.json" (fs w) in
    files <> [] ->
    truthy (admin_id w) = false \/
    ((forall k call, sink E k call = false) /\
     forallb deliverable files = true) ->
    exists v,
      handle_pending E telegram w = telegram (AllSent (length files)) v /\
      fs v = fs w /\
      get_pending_files E v = (Ret files, v).
Proof.
  intros E telegram w Hfs Hadmin files Hsome Hcase.
  unfold handle_pending, get_pending_files. unfold bind at 1. cbv beta iota zeta.
  fold files. destruct files as [|name rest] eqn:Hfiles; [congruence|].
  rewrite <- Hfiles in *. clear Hsome.
  destruct (animation_run telegram (fun v => (fs v, admin_id v))
              (fun entry => SendingFile (fst entry) (length files) (snd entry))
              (combine (seq 0 (length files)) files)
              (fun call v => f_equal2 pair (Hfs call v) (Hadmin call v)) w)
    as (w0 & Hstages & Hkept).
  injection Hkept as Hfs0 Had0.
  unfold bind at 1. rewrite Hstages. unfold bind at 1.
  assert (Hdrain : exists v, send_pending_files E w0 = (Ret tt, v) /\ fs v = fs w0).
  { destruct Hcase as [Hnone|[Hoff Hall]].
    - exists w0. split; [|reflexivity].
      rewrite send_pending_files_run, Had0, Hnone. reflexivity.
    - apply send_pending_files_offline; [exact Hoff|].
      rewrite Hfs0. exact Hall. }
  destruct Hdrain as (v & Hdrain & Hfsv). rewrite Hdrain.
  exists v. split; [reflexivity|]. split; [congruence|].
  unfold files. now rewrite Hfsv, Hfs0.
Qed.

Lemma pending_report_ignores_outcome_witness :
  exists v,
    handle_pending offline quiet queued_photo = quiet (AllSent 1) v /\
    fs v = fs queued_photo /\
    get_pending_files offline v = (Ret ["capture_20250115_100002.jpg"], v).
Proof.
  apply (pending_report_ignores_outcome offline quiet queued_photo
           (fun _ _ => eq_refl) (fun _ _ => eq_refl)).
  - discriminate.
  - right. split; reflexivity.
Defined.

(* ================================================================= *)
(** ** Beyond the stated properties: the configuration file *)

Lemma truthy_nonzero n : n <> 0%Z -> truthy (PNum (num_of_Z n)) = true.
Proof.
  intros Hn. cbn [truthy num_of_Z num_is_zero].
  destruct (Qeq_bool (inject_Z n) 0) eqn:Hq; [|reflexivity].
  apply Qeq_bool_eq in Hq. unfold Qeq in Hq. cbn in Hq. lia.
Qed.

(** What the attributes owe to the lines of a file. *)
Lemma load_line_origin E isdigit lines cfg raw :
  In raw lines ->
  (BOT_TOKEN cfg = "" \/
   exists line, In line lines /\ assigns "BOT_TOKEN" (BOT_TOKEN cfg) line) ->
  (ADMIN_ID cfg = 0%Z \/
   exists line digits,
     In line lines /\ assigns "ADMIN_ID" digits line /\
     isdigit digits = true /\ py_int E digits = Some (ADMIN_ID cfg)) ->
  let cfg' := snd (load_line E isdigit cfg raw) in
  (BOT_TOKEN cfg' = "" \/
   exists line, In line lines /\ assigns "BOT_TOKEN" (BOT_TOKEN cfg') line) /\
  (ADMIN_ID cfg' = 0%Z \/
   exists line digits,
     In line lines /\ assigns "ADMIN_ID" digits line /\
     isdigit digits = true /\ py_int E digits = Some (ADMIN_ID cfg')).
Proof.
  intros Hraw Htoken Hadmin. unfold load_line. cbv zeta.
  destruct (String.prefix "#" (strip raw)) eqn:Hcomment; cbn [orb snd];
    [now split|].
  destruct (negb (contains "=" (strip raw))); cbn [snd]; [now split|].
  destruct (split_once "=" (strip raw)) as [|k [|v rest]] eqn:Hsplit;
    cbn [snd]; try now split.
  assert (Hassigns : assigns (strip k) (strip v) raw).
  { split; [exact Hcomment|]. now exists k, v, rest. }
  destruct (String.eqb_spec (strip k) "BOT_TOKEN") as [Hk|_].
  { cbn [snd BOT_TOKEN ADMIN_ID]. split; [|exact Hadmin].
    right. exists raw. split; [exact Hraw|]. now rewrite <- Hk. }
  destruct (String.eqb_spec (strip k) "ADMIN_ID") as [Hk|_];
    [|cbn [snd]; now split].
  destruct (isdigit (strip v)) eqn:Hdigits.
  - destruct (py_int E (strip v)) as [n|] eqn:Hint; cbn [snd]; [|now split].
    cbn [BOT_TOKEN ADMIN_ID]. split; [exact Htoken|].
    right. exists raw, (strip v). rewrite <- Hk.
    split; [exact Hraw|]. split; [exact Hassigns|]. now split.
  - cbn [snd BOT_TOKEN ADMIN_ID]. split; [exact Htoken|now left].
Qed.

Lemma load_lines_origin E isdigit lines todo :
  forall cfg,
    incl todo lines ->
    (BOT_TOKEN cfg = "" \/
     exists line, In line lines /\ assigns "BOT_TOKEN" (BOT_TOKEN cfg) line) ->
    (ADMIN_ID cfg = 0%Z \/
     exists line digits,
       In line lines /\ assigns "ADMIN_ID" digits line /\
       isdigit digits = true /\ py_int E digits = Some (ADMIN_ID cfg)) ->
    let cfg' := snd (load_lines E isdigit todo cfg) in
    (BOT_TOKEN cfg' = "" \/
     exists line, In line lines /\ assigns "BOT_TOKEN" (BOT_TOKEN cfg') line) /\
    (ADMIN_ID cfg' = 0%Z \/
     exists line digits,
       In line lines /\ assigns "ADMIN_ID" digits line /\
       isdigit digits = true /\ py_int E digits = Some (ADMIN_ID cfg')).
Proof.
  induction todo as [|raw todo IH]; intros cfg Hincl Htoken Hadmin.
  - now split.
  - cbn [load_lines].
    destruct (load_line_origin E isdigit lines cfg raw
                (Hincl raw (or_introl eq_refl)) Htoken Hadmin) as [Ht Ha].
    destruct (load_line E isdigit cfg raw) as [[u|e] cfg1]; cbn [snd] in *.
    + apply IH; [|exact Ht|exact Ha]. intros x Hx. apply Hincl. now right.
    + now split.
Qed.

(** X18. Started with the attributes of the class body, [main] goes past its
    checks only when [config.txt] exists and has a line that sets
    [BOT_TOKEN] to something other than the placeholder and a line that sets
    [ADMIN_ID] to digits that read as a number other than zero; that number
    is the recipient it registers, and it is truthy, so the gate of the
    drain is open. *)
Theorem main_starts_only_when_configured :
  forall E isdigit file admin,
    main_checks E isdigit file class_defaults = Some admin ->
    exists text token digits n,
      file = Some text /\
      (exists line,
          In line (split "010"%char text) /\ assigns "BOT_TOKEN" token line) /\
      token <> "" /\ token <> "YOUR_TOKEN_HERE" /\
      (exists line,
          In line (split "010"%char text) /\ assigns "ADMIN_ID" digits line) /\
      isdigit digits = true /\ py_int E digits = Some n /\ n <> 0%Z /\
      admin = PNum (num_of_Z n) /\ truthy admin = true.
Proof.
  intros E isdigit file admin. unfold main_checks, load_config.
  destruct file as [text|]; [|discriminate].
  destruct (load_lines_origin E isdigit (split "010" text) (split "010" text)
              class_defaults (incl_refl _) (or_introl eq_refl)
              (or_introl eq_refl)) as [Htoken Hadmin].
  destruct (load_lines E isdigit (split "010" text) class_defaults)
    as [[u|e] cfg]; cbn [snd negb] in *; [|discriminate].
  destruct (String.eqb_spec (BOT_TOKEN cfg) "") as [|Hset];
    cbn [orb]; [discriminate|].
  destruct (String.eqb_spec (BOT_TOKEN cfg) "YOUR_TOKEN_HERE") as [|Hreal];
    [discriminate|].
  destruct (Z.eqb_spec (ADMIN_ID cfg) 0) as [|Hn]; [discriminate|].
  intros H. injection H as <-.
  destruct Htoken as [|(line1 & Hin1 & Has1)]; [contradiction|].
  destruct Hadmin as [|(line2 & digits & Hin2 & Has2 & Hdig & Hint)];
    [contradiction|].
  exists text, (BOT_TOKEN cfg), digits, (ADMIN_ID cfg).
  split; [reflexivity|]. split; [now exists line1|].
  split; [exact Hset|]. split; [exact Hreal|]. split; [now exists line2|].
  split; [exact Hdig|]. split; [exact Hint|]. split; [exact Hn|].
  split; [reflexivity|now apply truthy_nonzero].
Qed.

Lemma main_starts_only_when_configured_witness :
  main_checks offline ascii_isdigit (Some filled_in) class_defaults
    = Some (PNum (num_of_Z 80)) /\
  exists line,
    In line (split "010"%char filled_in) /\
    assigns "BOT_TOKEN" "123456:ABC=DEF" line.
Proof.
  assert (H : main_checks offline ascii_isdigit (Some filled_in) class_defaults
              = Some (PNum (num_of_Z 80))) by (vm_compute; reflexivity).
  split; [exact H|].
  destruct (main_starts_only_when_configured offline ascii_isdigit _ _ H)
    as (text & token & digits & n & Hfile & (line & Hin & Has) & _).
  injection Hfile as <-. exists line. split; [exact Hin|].
  cbn [In] in Hin. vm_compute in Hin.
  destruct Hin as [<-|[<-|[<-|[<-|[]]]]];
    destruct Has as (Hc & k & v & rest & Hsplit & Hk & Hv);
    vm_compute in Hc, Hsplit; try discriminate;
    injection Hsplit as <- <- <-; vm_compute in Hk; try discriminate.
  split; [reflexivity|]. exists "BOT_TOKEN ", " 123456:ABC=DEF", [].
  repeat split.
Defined.

(** X19. On a first run, without [config.txt], [load_config] writes the
    template and [main] stops; started again on the template as written,
    [main] stops again: whatever the template's [ADMIN_ID] line gives, its
    token is the placeholder. *)
Theorem first_run_writes_template_and_stops :
  forall E isdigit cfg,
    load_config E isdigit None cfg = (false, cfg, Some config_template) /\
    main_checks E isdigit None cfg = None /\
    main_checks E isdigit (Some config_template) cfg = None /\
    BOT_TOKEN (snd (fst (load_config E isdigit (Some config_template) cfg)))
      = "YOUR_TOKEN_HERE".
Proof.
  intros E isdigit cfg. split; [reflexivity|]. split; [reflexivity|].
  unfold main_checks, load_config.
  assert (Hlines : split "010" config_template
                   = ["# TeleGuard Configuration";
                      "# Get BOT_TOKEN from @BotFather on Telegram";
                      "# Get ADMIN_ID from @userinfobot on Telegram";
                      ""; "BOT_TOKEN=YOUR_TOKEN_HERE"; "ADMIN_ID=0"; ""])
    by (vm_compute; reflexivity).
  rewrite Hlines.
  assert (Hskip : forall c raw,
             String.prefix "#" (strip raw) || negb (contains "=" (strip raw))
               = true ->
             load_line E isdigit c raw = (Ret tt, c)).
  { intros c raw H. unfold load_line. cbv zeta. now rewrite H. }
  assert (Htoken : forall c,
             load_line E isdigit c "BOT_TOKEN=YOUR_TOKEN_HERE"
             = (Ret tt, mkConfig "YOUR_TOKEN_HERE" (ADMIN_ID c)))
    by (intros c; reflexivity).
  assert (Hadmin : forall c,
             load_line E isdigit c "ADMIN_ID=0"
             = if isdigit "0"
               then match py_int E "0" with
                    | Some n => (Ret tt, mkConfig (BOT_TOKEN c) n)
                    | None => (Raise ValueError, c)
                    end
               else (Ret tt, mkConfig (BOT_TOKEN c) 0))
    by (intros c; reflexivity).
  cbn [load_lines].
  do 4 (rewrite Hskip by reflexivity; cbv beta iota).
  rewrite Htoken. cbv beta iota. rewrite Hadmin.
  destruct (isdigit "0"); [destruct (py_int E "0")|]; cbv beta iota;
    rewrite ?Hskip by reflexivity; split; reflexivity.
Qed.
